(** * go-milter: a shallow embedding of the protocol engine

    The development follows the Go sources of the library: the C-string
    codec ([cstrings.go]), the frame codec and the server session
    ([readPacket], [writePacket], [milterSession.Process]) and the client
    session ([ClientSession]).

    Conventions of the embedding.
    - A Go [byte] is a [Byte.byte]; both [[]byte] and [string] are byte
      sequences in Go and the conversions [string(b)] and [[]byte(s)] keep
      the content, so both are [list byte] here.
    - [uint32], [uint16] and [int] values are [Z]; conversions to a fixed
      width write the wrap-around out.
    - Go maps are stdpp [gmap]s; a [nil] map is [None].
    - A call that can fail returns a [result]; a run-time panic of the Go
      program (an index out of range) is the outcome [Panic]. *)

From Stdlib Require Import ZArith List Bool Lia.
From Stdlib.Strings Require Import Byte String.
From stdpp Require Import base option countable gmap.
Import ListNotations.

Local Open Scope Z_scope.

(** ** Bytes *)

Abbreviation byte := Byte.byte.

#[global] Instance byte_eq_decision : EqDecision byte := Byte.byte_eq_dec.

#[global] Program Instance byte_countable : Countable byte :=
  inj_countable Byte.to_N Byte.of_N _.
Next Obligation. intros b. apply Byte.of_to_N. Qed.

(** Go strings and byte slices. *)
Abbreviation bytes := (list byte).

Definition NUL : byte := x00.

Definition byteZ (b : byte) : Z := Z.of_N (Byte.to_N b).

(** [byte(v)] for an integer [v]: the low eight bits. *)
Definition byte_of_Z (v : Z) : byte :=
  match Byte.of_N (Z.to_N (v mod 256)) with
  | Some b => b
  | None => x00
  end.

Definition len {A} (l : list A) : Z := Z.of_nat (length l).

(** [uint32(v)]: wrap-around modulo 2^32. *)
Definition uint32 (v : Z) : Z := v mod 4294967296.

(** [binary.BigEndian.PutUint32] on a fresh four-byte buffer. *)
Definition PutUint32 (v : Z) : bytes :=
  [ byte_of_Z (Z.shiftr v 24); byte_of_Z (Z.shiftr v 16);
    byte_of_Z (Z.shiftr v 8); byte_of_Z v ].

(** [binary.BigEndian.PutUint16]. *)
Definition PutUint16 (v : Z) : bytes :=
  [ byte_of_Z (Z.shiftr v 8); byte_of_Z v ].

(** [binary.BigEndian.Uint32(b)]: the first four bytes of [b]; Go panics when
    [b] is shorter, which is [None] here. *)
Definition Uint32 (b : bytes) : option Z :=
  match b with
  | b0 :: b1 :: b2 :: b3 :: _ =>
      Some (Z.lor (Z.lor (Z.shiftl (byteZ b0) 24) (Z.shiftl (byteZ b1) 16))
                  (Z.lor (Z.shiftl (byteZ b2) 8) (byteZ b3)))
  | _ => None
  end.

(** [binary.BigEndian.Uint16(b)]. *)
Definition Uint16 (b : bytes) : option Z :=
  match b with
  | b0 :: b1 :: _ => Some (Z.lor (Z.shiftl (byteZ b0) 8) (byteZ b1))
  | _ => None
  end.

(** ** C-string codec ([cstrings.go]) *)

Module CStrings.

(** [bytes.IndexByte(data, c)]: [None] is Go's [-1]. *)
Fixpoint IndexByte (data : bytes) (c : byte) : option nat :=
  match data with
  | [] => None
  | b :: rest =>
      if Byte.eqb b c then Some O
      else match IndexByte rest c with
           | Some i => Some (S i)
           | None => None
           end
  end.

(** [strings.Trim(s, cutset)] for a cutset of one ASCII byte, which Go
    implements as [trimLeftByte(trimRightByte(s, c), c)]. *)
Fixpoint trimLeftByte (s : bytes) (c : byte) : bytes :=
  match s with
  | b :: rest => if Byte.eqb b c then trimLeftByte rest c else s
  | [] => []
  end.

Definition trimRightByte (s : bytes) (c : byte) : bytes :=
  rev (trimLeftByte (rev s) c).

Definition Trim (s : bytes) (c : byte) : bytes :=
  trimLeftByte (trimRightByte s c) c.

(** [strings.Split(s, sep)] for a separator of one byte: the pieces
    between the occurrences of [sep]; [Split "" sep] is [[""]]. *)
Fixpoint Split (s : bytes) (sep : byte) : list bytes :=
  match s with
  | [] => [[]]
  | b :: rest =>
      if Byte.eqb b sep then [] :: Split rest sep
      else match Split rest sep with
           | piece :: pieces => (b :: piece) :: pieces
           | [] => [[b]]
           end
  end.

(** [strings.TrimSuffix(s, suffix)] for a one-byte suffix. *)
Definition TrimSuffix (s : bytes) (c : byte) : bytes :=
  match rev s with
  | b :: rest => if Byte.eqb b c then rev rest else s
  | [] => s
  end.

(** func decodeCStrings(data []byte) []string *)
Definition decodeCStrings (data : bytes) : list bytes :=
  if (len data =? 0)%Z then []
  else Split (Trim data NUL) NUL.

(** func readCString(data []byte) string *)
Definition readCString (data : bytes) : bytes :=
  match IndexByte data NUL with
  | None => data
  | Some pos => firstn pos data
  end.

(** func appendCString(dest []byte, s string) []byte *)
Definition appendCString (dest : bytes) (s : bytes) : bytes :=
  (dest ++ s) ++ [NUL].

(** The encoder the round trip is about: [appendCString] applied to each
    string in order, starting from the empty buffer (as [Macros], [Mail]
    and [HeaderField] build their payloads). *)
Definition encodeCStrings (ss : list bytes) : bytes :=
  fold_left appendCString ss [].

End CStrings.

(** ** Errors and outcomes *)

(** The Go [error] values the library produces.  [Errorf] and its variants
    stand for [fmt.Errorf] with the format string of the source; [Wrapf] is
    [fmt.Errorf("...: %w", err)]. *)
Inductive error : Type :=
| io_EOF
| io_ErrUnexpectedEOF
| net_ErrClosed                         (* use of a closed connection *)
| net_ErrWrite                          (* the transport refused the write *)
| errCloseSession
| Errorf (fmt : string) (v : Z)
| ErrorfBytes (fmt : string) (v : bytes)
| ErrorfText (fmt : string)
| Wrapf (fmt : string) (e : error)
| HandlerError (tag : Z).               (* an error returned by a handler *)

(** What a call does: it returns a value, returns an error, or the Go
    run time panics.  [NoFuel] is the outcome of a loop of the embedding
    that was given too little fuel; the loops below are always given
    enough (see the [_total] lemmas). *)
Inductive result (A : Type) : Type :=
| Ok (a : A)
| Err (e : error)
| Panic
| NoFuel.
Arguments Ok {A} a.
Arguments Err {A} e.
Arguments Panic {A}.
Arguments NoFuel {A}.

(** State-and-error monad: the state survives an error, as the fields of a
    Go receiver do. *)
Definition M (S A : Type) : Type := S -> result A * S.

Definition ret {S A} (a : A) : M S A := fun s => (Ok a, s).
Definition fail {S A} (e : error) : M S A := fun s => (Err e, s).
Definition panic {S A} : M S A := fun s => (Panic, s).

Definition bind {S A B} (c : M S A) (k : A -> M S B) : M S B :=
  fun s =>
    match c s with
    | (Ok a, s') => k a s'
    | (Err e, s') => (Err e, s')
    | (Panic, s') => (Panic, s')
    | (NoFuel, s') => (NoFuel, s')
    end.

(** [if err != nil { return fmt.Errorf("fmt: %w", err) }] around a call. *)
Definition wrapErr {S A} (fmt : string) (c : M S A) : M S A :=
  fun s =>
    match c s with
    | (Err e, s') => (Err (Wrapf fmt e), s')
    | r => r
    end.

Definition gets {S A} (f : S -> A) : M S A := fun s => (Ok (f s), s).
Definition modify {S} (f : S -> S) : M S unit := fun s => (Ok tt, f s).

Declare Scope go_scope.
Delimit Scope go_scope with go.
Notation "x <- c ;; k" := (bind c (fun x => k))
  (at level 90, c at level 89, right associativity) : go_scope.
Notation "c ;;; k" := (bind c (fun _ => k))
  (at level 90, right associativity) : go_scope.

(** ** Frame codec *)

(** type Message struct { Code byte; Data []byte } *)
Record Message : Type := mkMessage { Code : byte; Data : bytes }.

(** The transport, seen from one end: [rd] is what the peer sends before it
    closes its side, [wr] what has been written so far.  [wr_broken] says
    that the transport refuses writes (the peer has gone away); a refused
    write is modelled as writing nothing.  [closed] is set by [Close] on
    this end.  Deadlines are not modelled: [readPacket] and [writePacket]
    only set and clear them. *)
Record Conn : Type := mkConn {
  rd : bytes;
  wr : bytes;
  wr_broken : bool;
  closed : bool
}.

Definition set_rd (c : Conn) (r : bytes) : Conn :=
  {| rd := r; wr := wr c; wr_broken := wr_broken c; closed := closed c |}.
Definition set_wr (c : Conn) (w : bytes) : Conn :=
  {| rd := rd c; wr := w; wr_broken := wr_broken c; closed := closed c |}.
Definition set_closed (c : Conn) (b : bool) : Conn :=
  {| rd := rd c; wr := wr c; wr_broken := wr_broken c; closed := b |}.

(** [io.ReadFull(conn, buf)] for a buffer of [n] bytes: for an empty buffer
    the connection is not even asked; otherwise [io.EOF] when no byte is
    left, [io.ErrUnexpectedEOF] when the stream ends inside the buffer. *)
Definition ReadFull (n : nat) : M Conn bytes :=
  fun c =>
    match n with
    | O => (Ok [], c)
    | S _ =>
        if closed c then (Err net_ErrClosed, c)
        else match rd c with
             | [] => (Err io_EOF, c)
             | _ :: _ =>
                 if (length (rd c) <? n)%nat
                 then (Err io_ErrUnexpectedEOF, set_rd c [])
                 else (Ok (firstn n (rd c)), set_rd c (skipn n (rd c)))
             end
    end.

(** [conn.Write] of a whole buffer. *)
Definition Write (b : bytes) : M Conn unit :=
  fun c =>
    if closed c then (Err net_ErrClosed, c)
    else if wr_broken c then (Err net_ErrWrite, c)
    else (Ok tt, set_wr c (wr c ++ b)).

(** [conn.Close()]. *)
Definition connClose : M Conn unit :=
  fun c =>
    if closed c then (Err net_ErrClosed, c)
    else (Ok tt, set_closed c true).

Local Open Scope go_scope.

(** func readPacket(conn net.Conn, timeout time.Duration): a message or an
    error. *)
Definition readPacket : M Conn Message :=
  (* read packet length *)
  hdr <- ReadFull 4 ;;
  match Uint32 hdr with
  | None => panic
  | Some length =>
      (* read packet data *)
      data <- ReadFull (Z.to_nat length) ;;
      (* prepare response data: data[0] and data[1:] *)
      match data with
      | [] => panic
      | code :: payload => ret {| Code := code; Data := payload |}
      end
  end.

(** [msg.Data[n:]]; a panic when [n] exceeds the length. *)
Definition sliceFrom {S} (n : nat) (b : bytes) : M S bytes :=
  if (n <=? length b)%nat then ret (skipn n b) else panic.

(** The bytes [writePacket] hands to the transport for [msg]. *)
Definition frame (msg : Message) : bytes :=
  PutUint32 (uint32 (len (Data msg) + 1)) ++ Code msg :: Data msg.

(** func writePacket(conn net.Conn, msg, timeout time.Duration) error

    The length, the code and the data go through a [bufio.Writer] and reach
    the transport at [Flush]. *)
Definition writePacket (msg : Message) : M Conn unit :=
  Write (frame msg).

(** ** Vocabulary ([message.go], options) *)

Definition ActAccept : byte := "a"%byte.
Definition ActContinue : byte := "c"%byte.
Definition ActDiscard : byte := "d"%byte.
Definition ActReject : byte := "r"%byte.
Definition ActTempFail : byte := "t"%byte.
Definition ActReplyCode : byte := "y"%byte.
Definition ActSkip : byte := "s"%byte.

Definition ActAddRcpt : byte := "+"%byte.
Definition ActDelRcpt : byte := "-"%byte.
Definition ActReplBody : byte := "b"%byte.
Definition ActAddHeader : byte := "h"%byte.
Definition ActChangeHeader : byte := "m"%byte.
Definition ActInsertHeader : byte := "i"%byte.
Definition ActQuarantine : byte := "q"%byte.
Definition ActChangeFrom : byte := "e"%byte.

Definition CodeOptNeg : byte := "O"%byte.
Definition CodeMacro : byte := "D"%byte.
Definition CodeConn : byte := "C"%byte.
Definition CodeQuit : byte := "Q"%byte.
Definition CodeHelo : byte := "H"%byte.
Definition CodeMail : byte := "M"%byte.
Definition CodeRcpt : byte := "R"%byte.
Definition CodeHeader : byte := "L"%byte.
Definition CodeEOH : byte := "N"%byte.
Definition CodeBody : byte := "B"%byte.
Definition CodeEOB : byte := "E"%byte.
Definition CodeAbort : byte := "A"%byte.
Definition CodeData : byte := "T"%byte.
Definition CodeQuitNewConn : byte := "K"%byte.

Definition MaxBodyChunk : Z := 65535.

Definition FamilyUnknown : byte := "U"%byte.
Definition FamilyUnix : byte := "L"%byte.
Definition FamilyInet : byte := "4"%byte.
Definition FamilyInet6 : byte := "6"%byte.

(** type OptProtocol uint32 *)
Definition OptNoConnect : Z := Z.shiftl 1 0.
Definition OptNoHelo : Z := Z.shiftl 1 1.
Definition OptNoMailFrom : Z := Z.shiftl 1 2.
Definition OptNoRcptTo : Z := Z.shiftl 1 3.
Definition OptNoBody : Z := Z.shiftl 1 4.
Definition OptNoHeaders : Z := Z.shiftl 1 5.
Definition OptNoEOH : Z := Z.shiftl 1 6.
Definition OptNoHeaderReply : Z := Z.shiftl 1 7.
Definition OptSkip : Z := Z.shiftl 1 10.
Definition OptNoConnReply : Z := Z.shiftl 1 12.
Definition OptNoHeloReply : Z := Z.shiftl 1 13.
Definition OptNoMailReply : Z := Z.shiftl 1 14.
Definition OptNoRcptReply : Z := Z.shiftl 1 15.
Definition OptNoEOHReply : Z := Z.shiftl 1 18.
Definition OptNoBodyReply : Z := Z.shiftl 1 19.

(** type OptAction uint32 *)
Definition OptAddHeader : Z := Z.shiftl 1 0.
Definition OptChangeBody : Z := Z.shiftl 1 1.
Definition OptAddRcpt : Z := Z.shiftl 1 2.
Definition OptRemoveRcpt : Z := Z.shiftl 1 3.
Definition OptChangeHeader : Z := Z.shiftl 1 4.
Definition OptQuarantine : Z := Z.shiftl 1 5.
Definition OptChangeFrom : Z := Z.shiftl 1 6.

(** ** Client session *)

Module Client.

Definition clientProtocolVersion : Z := 2.

(** type ClientSession struct: the connection, the negotiated masks and
    the abort-on-close flag (the two timeouts only feed the deadlines). *)
Record ClientSession : Type := mkSession {
  conn : Conn;
  ActionOpts : Z;
  ProtocolOpts : Z;
  needAbort : bool
}.

Definition set_conn (s : ClientSession) (c : Conn) : ClientSession :=
  {| conn := c; ActionOpts := ActionOpts s;
     ProtocolOpts := ProtocolOpts s; needAbort := needAbort s |}.
Definition set_opts (s : ClientSession) (a p : Z) : ClientSession :=
  {| conn := conn s; ActionOpts := a; ProtocolOpts := p;
     needAbort := needAbort s |}.
Definition set_needAbort (s : ClientSession) (b : bool) : ClientSession :=
  {| conn := conn s; ActionOpts := ActionOpts s;
     ProtocolOpts := ProtocolOpts s; needAbort := b |}.

(** A call on [s.conn]. *)
Definition onConn {A} (c : M Conn A) : M ClientSession A :=
  fun s => let (r, c') := c (conn s) in (r, set_conn s c').

(** type Action struct *)
Record Action : Type := mkAction {
  ActCode : byte;
  SMTPCode : Z;
  SMTPText : bytes
}.

(** [&Action{Code: code}] *)
Definition actionOf (code : byte) : Action :=
  {| ActCode := code; SMTPCode := 0; SMTPText := [] |}.

(** func (s *ClientSession) negotiate(actionMask, protoMask) error,
    the current client. *)
Definition negotiate (actionMask protoMask : Z) : M ClientSession unit :=
  (* Send our mask, get mask from milter.. *)
  let msg := {| Code := CodeOptNeg;
                Data := PutUint32 clientProtocolVersion
                        ++ PutUint32 (uint32 actionMask)
                        ++ PutUint32 (uint32 protoMask) |} in
  wrapErr "milter: negotiate: optneg write: %w"
    (onConn (writePacket msg)) ;;;
  msg <- wrapErr "milter: negotiate: optneg read: %w" (onConn readPacket) ;;
  if negb (Byte.eqb (Code msg) CodeOptNeg) then
    fail (Errorf "milter: negotiate: unexpected code: %v"
            (byteZ (Code msg)))
  else if len (Data msg) <? 4 * 3 then
    fail (Errorf "milter: negotiate: unexpected data size: %v"
            (len (Data msg)))
  else
    match Uint32 (Data msg), Uint32 (skipn 4 (Data msg)),
          Uint32 (skipn 8 (Data msg)) with
    | Some milterVersion, Some milterActionMask, Some milterProtoMask =>
        if milterVersion <? clientProtocolVersion then
          fail (Errorf
                  "milter: negotiate: unsupported protocol version: %v"
                  milterVersion)
        else
          modify (fun s => set_opts s milterActionMask milterProtoMask) ;;;
          modify (fun s => set_needAbort s true)
    | _, _, _ => panic
    end.

Definition protocolVersion : Z := 2.

(** The earlier client: the same exchange, but the masks of the milter
    are ANDed with the offered ones
    ([s.actionMask = actionMask & OptAction(milterActionMask)]). *)
Definition negotiate_earlier (actionMask protoMask : Z)
  : M ClientSession unit :=
  let msg := {| Code := CodeOptNeg;
                Data := PutUint32 protocolVersion
                        ++ PutUint32 (uint32 actionMask)
                        ++ PutUint32 (uint32 protoMask) |} in
  wrapErr "milter: negotiate: optneg write: %w"
    (onConn (writePacket msg)) ;;;
  msg <- wrapErr "milter: negotiate: optneg read: %w" (onConn readPacket) ;;
  if negb (Byte.eqb (Code msg) CodeOptNeg) then
    fail (Errorf "milter: negotiate: unexpected code: %v"
            (byteZ (Code msg)))
  else if len (Data msg) <? 4 * 3 then
    fail (Errorf "milter: negotiate: unexpected data size: %v"
            (len (Data msg)))
  else
    match Uint32 (Data msg), Uint32 (skipn 4 (Data msg)),
          Uint32 (skipn 8 (Data msg)) with
    | Some milterVersion, Some milterActionMask, Some milterProtoMask =>
        if milterVersion <? protocolVersion then
          fail (Errorf
                  "milter: negotiate: unsupported protocol version: %v"
                  milterVersion)
        else
          (* AND it with our mask in case milter does not do that. *)
          modify (fun s => set_opts s
                             (Z.land (uint32 actionMask) milterActionMask)
                             (Z.land (uint32 protoMask) milterProtoMask)) ;;;
          modify (fun s => set_needAbort s true)
    | _, _, _ => panic
    end.

(** func (s *ClientSession) ProtocolOption(opt OptProtocol) bool *)
Definition ProtocolOption (s : ClientSession) (opt : Z) : bool :=
  negb (Z.land (ProtocolOpts s) opt =? 0).

(** func (s *ClientSession) ActionOption(opt OptAction) bool *)
Definition ActionOption (s : ClientSession) (opt : Z) : bool :=
  negb (Z.land (ActionOpts s) opt =? 0).

(** [strconv.Atoi] on a short string: an optional sign and decimal
    digits. *)
Fixpoint atoiDigits (s : bytes) (n : Z) : option Z :=
  match s with
  | [] => Some n
  | ch :: rest =>
      let d := (byteZ ch - 48) mod 256 in
      if 9 <? d then None else atoiDigits rest (n * 10 + d)
  end.

Definition Atoi (s : bytes) : option Z :=
  match s with
  | [] => None
  | c :: rest =>
      if Byte.eqb c "-"%byte then
        match rest with
        | [] => None
        | _ => option_map Z.opp (atoiDigits rest 0)
        end
      else if Byte.eqb c "+"%byte then
        match rest with
        | [] => None
        | _ => atoiDigits rest 0
        end
      else atoiDigits s 0
  end.

(** func parseAction(msg *Message): an action or an error. *)
Definition parseAction (msg : Message) : result Action :=
  let code := Code msg in
  if Byte.eqb code ActAccept || Byte.eqb code ActContinue
     || Byte.eqb code ActDiscard || Byte.eqb code ActReject
     || Byte.eqb code ActTempFail then
    Ok (actionOf code)
  else if Byte.eqb code ActReplyCode then
    if len (Data msg) <=? 4 then
      Err (Errorf "action read: unexpected data length: %v"
             (len (Data msg)))
    else
      match Atoi (firstn 3 (Data msg)) with
      | None => Err (ErrorfBytes "action read: malformed SMTP code: %v"
                       (firstn 3 (Data msg)))
      | Some n =>
          (* There is 0x20 (' ') in between. *)
          Ok {| ActCode := code; SMTPCode := n;
                SMTPText := CStrings.readCString (skipn 4 (Data msg)) |}
      end
  else
    Err (Errorf "action read: unexpected code: %v" (byteZ code)).

(** The [for] loop of [readAction]; every packet read takes at least five
    bytes off the stream, so the length of the stream bounds the number
    of iterations. *)
Fixpoint readAction_loop (fuel : nat) : M ClientSession Action :=
  match fuel with
  | O => fun s => (NoFuel, s)
  | S fuel' =>
      msg <- wrapErr "action read: %w" (onConn readPacket) ;;
      if Byte.eqb (Code msg) "p"%byte (* progress *) then
        readAction_loop fuel'
      else
        (if negb (Byte.eqb (Code msg) ActContinue)
         then modify (fun s => set_needAbort s false)
         else ret tt) ;;;
        (fun s => (parseAction msg, s))
  end.

(** func (s *ClientSession) readAction(): an action or an error. *)
Definition readAction : M ClientSession Action :=
  fun s => readAction_loop (S (length (rd (conn s)))) s.

(** func (s *ClientSession) Macros(code Code, kv ...string) error *)
Definition Macros (code : byte) (kv : list bytes) : M ClientSession unit :=
  let msg := {| Code := CodeMacro;
                Data := fold_left CStrings.appendCString kv [code] |} in
  wrapErr "milter: macros: %w" (onConn (writePacket msg)).

(** func appendUint16(dest []byte, val uint16) []byte *)
Definition appendUint16 (dest : bytes) (val : Z) : bytes :=
  dest ++ PutUint16 val.

(** The tail shared by the commands that expect a reply unless the
    milter asked for none: [if !s.ProtocolOption(noReply) { readAction }],
    else a synthetic continue. *)
Definition replyUnless (noReply : Z) (tag : string)
  : M ClientSession Action :=
  no <- gets (fun s => ProtocolOption s noReply) ;;
  if negb no then wrapErr tag readAction
  else ret (actionOf ActContinue).

(** func (s *ClientSession) Conn(hostname, family, port, addr) *)
Definition Conn_ (hostname : bytes) (family : byte) (port : Z)
    (addr : bytes) : M ClientSession Action :=
  opts <- gets ProtocolOpts ;;
  if negb (Z.land opts OptNoConnect =? 0) then ret (actionOf ActContinue)
  else
    let d0 := CStrings.appendCString [] hostname in
    let d1 := d0 ++ [family] in
    let d2 :=
      if negb (Byte.eqb family FamilyUnknown) then
        let d := if Byte.eqb family FamilyInet || Byte.eqb family FamilyInet6
                 then appendUint16 d1 port else d1 in
        CStrings.appendCString d addr
      else d1 in
    wrapErr "milter: conn: %w"
      (onConn (writePacket {| Code := CodeConn; Data := d2 |})) ;;;
    replyUnless OptNoConnReply "milter: conn: %w".

(** func (s *ClientSession) Helo(helo string) *)
Definition Helo (helo : bytes) : M ClientSession Action :=
  opts <- gets ProtocolOpts ;;
  if negb (Z.land opts OptNoHelo =? 0) then ret (actionOf ActContinue)
  else
    wrapErr "milter: helo: %w"
      (onConn (writePacket {| Code := CodeHelo;
                              Data := CStrings.appendCString [] helo |})) ;;;
    replyUnless OptNoHeloReply "milter: helo: %w".

(** func (s *ClientSession) Mail(sender string, esmtpArgs []string) *)
Definition Mail (sender : bytes) (esmtpArgs : list bytes)
  : M ClientSession Action :=
  opts <- gets ProtocolOpts ;;
  if negb (Z.land opts OptNoMailFrom =? 0) then ret (actionOf ActContinue)
  else
    let d := fold_left CStrings.appendCString esmtpArgs
               (CStrings.appendCString []
                  ("<"%byte :: sender ++ [">"%byte])) in
    wrapErr "milter: mail: %w"
      (onConn (writePacket {| Code := CodeMail; Data := d |})) ;;;
    replyUnless OptNoMailReply "milter: mail: %w".

(** func (s *ClientSession) Rcpt(rcpt string, esmtpArgs []string) *)
Definition Rcpt (rcpt : bytes) (esmtpArgs : list bytes)
  : M ClientSession Action :=
  opts <- gets ProtocolOpts ;;
  if negb (Z.land opts OptNoRcptTo =? 0) then ret (actionOf ActContinue)
  else
    let d := fold_left CStrings.appendCString esmtpArgs
               (CStrings.appendCString []
                  ("<"%byte :: rcpt ++ [">"%byte])) in
    wrapErr "milter: rcpt: %w"
      (onConn (writePacket {| Code := CodeRcpt; Data := d |})) ;;;
    replyUnless OptNoRcptReply "milter: rcpt: %w".

(** func (s *ClientSession) HeaderField(key, value string) *)
Definition HeaderField (key value : bytes) : M ClientSession Action :=
  opts <- gets ProtocolOpts ;;
  if negb (Z.land opts OptNoHeaders =? 0) then ret (actionOf ActContinue)
  else
    let d := CStrings.appendCString (CStrings.appendCString [] key) value in
    wrapErr "milter: header field: %w"
      (onConn (writePacket {| Code := CodeHeader; Data := d |})) ;;;
    replyUnless OptNoHeaderReply "milter: header field: %w".

(** func (s *ClientSession) HeaderEnd() *)
Definition HeaderEnd : M ClientSession Action :=
  opts <- gets ProtocolOpts ;;
  if negb (Z.land opts OptNoEOH =? 0) then ret (actionOf ActContinue)
  else
    wrapErr "milter: header end: %w"
      (onConn (writePacket {| Code := CodeEOH; Data := [] |})) ;;;
    replyUnless OptNoEOHReply "milter: header end: %w".

(** func (s *ClientSession) Header(hdr textproto.Header): the fields in
    order, then [HeaderEnd]. *)
Fixpoint Header (hdr : list (bytes * bytes)) : M ClientSession Action :=
  match hdr with
  | [] => HeaderEnd
  | (k, v) :: rest =>
      act <- HeaderField k v ;;
      if negb (Byte.eqb (ActCode act) ActContinue) then ret act
      else Header rest
  end.

(** func (s *ClientSession) BodyChunk(chunk []byte) *)
Definition BodyChunk (chunk : bytes) : M ClientSession Action :=
  opts <- gets ProtocolOpts ;;
  if negb (Z.land opts OptNoBody =? 0) then ret (actionOf ActContinue)
  else
    (* Callers tend to be irresponsible... /s *)
    if len chunk >? MaxBodyChunk then
      fail (Errorf "milter: body chunk: too big body chunk: %v" (len chunk))
    else
      wrapErr "milter: body chunk: %w"
        (onConn (writePacket {| Code := CodeBody; Data := chunk |})) ;;;
      replyUnless OptNoBodyReply "milter: body chunk: %w".

(** type ModifyAction struct *)
Record ModifyAction : Type := mkModifyAction {
  ModCode : byte;
  ModRcpt : bytes;
  ModFrom : bytes;
  FromArgs : list bytes;
  ModBody : bytes;
  HeaderIndex : Z;
  HeaderName : bytes;
  HeaderValue : bytes;
  Reason : bytes
}.

Definition modifyActOf (code : byte) : ModifyAction :=
  {| ModCode := code; ModRcpt := []; ModFrom := []; FromArgs := [];
     ModBody := [];
     HeaderIndex := 0; HeaderName := []; HeaderValue := []; Reason := [] |}.

(** The [case ActAddHeader] arm of [parseModifyAct], which the arm of
    [ActChangeHeader] and [ActInsertHeader] falls through to. *)
Definition parseHeaderNameValue (act : ModifyAction) (data : bytes)
  : result ModifyAction :=
  match CStrings.IndexByte data NUL with
  | None => Err (ErrorfText "read modify action: missing NUL delimiter")
  | Some nul =>
      if (nul =? length data)%nat then
        Err (ErrorfText "read modify action: missing header value")
      else
        Ok {| ModCode := ModCode act; ModRcpt := ModRcpt act;
              ModFrom := ModFrom act; FromArgs := FromArgs act;
              ModBody := ModBody act;
              HeaderIndex := HeaderIndex act;
              HeaderName := CStrings.readCString data;
              HeaderValue := CStrings.readCString (skipn (S nul) data);
              Reason := Reason act |}
  end.

(** func parseModifyAct(msg *Message) *)
Definition parseModifyAct (msg : Message) : result ModifyAction :=
  let code := Code msg in
  let act := modifyActOf code in
  if Byte.eqb code ActAddRcpt || Byte.eqb code ActDelRcpt then
    Ok {| ModCode := code; ModRcpt := CStrings.readCString (Data msg);
          ModFrom := []; FromArgs := []; ModBody := []; HeaderIndex := 0;
          HeaderName := []; HeaderValue := []; Reason := [] |}
  else if Byte.eqb code ActQuarantine then
    Ok {| ModCode := code; ModRcpt := []; ModFrom := []; FromArgs := [];
          ModBody := []; HeaderIndex := 0; HeaderName := [];
          HeaderValue := [];
          Reason := CStrings.readCString (Data msg) |}
  else if Byte.eqb code ActReplBody then
    Ok {| ModCode := code; ModRcpt := []; ModFrom := []; FromArgs := [];
          ModBody := Data msg; HeaderIndex := 0; HeaderName := [];
          HeaderValue := []; Reason := [] |}
  else if Byte.eqb code ActChangeFrom then
    let argv := CStrings.Split (Data msg) NUL in
    Ok {| ModCode := code; ModRcpt := []; ModFrom := hd [] argv;
          FromArgs := tl argv; ModBody := []; HeaderIndex := 0;
          HeaderName := []; HeaderValue := []; Reason := [] |}
  else if Byte.eqb code ActChangeHeader || Byte.eqb code ActInsertHeader then
    match Uint32 (Data msg) with
    | None => Err (ErrorfText "read modify action: missing header index")
    | Some idx =>
        parseHeaderNameValue
          {| ModCode := code; ModRcpt := []; ModFrom := []; FromArgs := [];
             ModBody := []; HeaderIndex := idx; HeaderName := [];
             HeaderValue := []; Reason := [] |}
          (skipn 4 (Data msg))
    end
  else if Byte.eqb code ActAddHeader then
    parseHeaderNameValue act (Data msg)
  else
    Err (Errorf "read modify action: unexpected message code: %v"
           (byteZ code)).

Definition isModifyActCode (code : byte) : bool :=
  Byte.eqb code ActAddRcpt || Byte.eqb code ActDelRcpt
  || Byte.eqb code ActReplBody || Byte.eqb code ActChangeHeader
  || Byte.eqb code ActInsertHeader || Byte.eqb code ActAddHeader
  || Byte.eqb code ActChangeFrom || Byte.eqb code ActQuarantine.

(** The [for] loop of [readModifyActs], with the modify actions
    collected so far. *)
Fixpoint readModifyActs_loop (fuel : nat) (modifyActs : list ModifyAction)
  : M ClientSession (list ModifyAction * Action) :=
  match fuel with
  | O => fun s => (NoFuel, s)
  | S fuel' =>
      msg <- wrapErr "action read: %w" (onConn readPacket) ;;
      if Byte.eqb (Code msg) "p"%byte (* progress *) then
        readModifyActs_loop fuel' modifyActs
      else if isModifyActCode (Code msg) then
        modifyAct <- (fun s => (parseModifyAct msg, s)) ;;
        readModifyActs_loop fuel' (modifyActs ++ [modifyAct])
      else
        act <- (fun s => (parseAction msg, s)) ;;
        ret (modifyActs, act)
  end.

(** func (s *ClientSession) readModifyActs() *)
Definition readModifyActs : M ClientSession (list ModifyAction * Action) :=
  fun s => readModifyActs_loop (S (length (rd (conn s)))) [] s.

(** func (s *ClientSession) End() *)
Definition End_ : M ClientSession (list ModifyAction * Action) :=
  wrapErr "milter: end: %w"
    (onConn (writePacket {| Code := CodeEOB; Data := [] |})) ;;;
  wrapErr "milter: end: %w" readModifyActs.

(** An [io.Reader] as the script of its answers: each [Read] delivers
    the next entry, some bytes and possibly an error; when the script is
    over, [Read] answers [(0, io.EOF)].  The bytes delivered never exceed
    the buffer. *)
Definition Reader : Type := list (bytes * option error).

(** The value [BodyReadFrom] returns: modify actions, action, error; an
    absent action is Go's [nil]. *)
Definition BodyResult : Type := list ModifyAction * option Action.

Definition endResult : M ClientSession BodyResult :=
  r <- End_ ;; ret (fst r, Some (snd r)).

(** func (s *ClientSession) BodyReadFrom(r io.Reader) *)
Fixpoint BodyReadFrom (r : Reader) : M ClientSession BodyResult :=
  match r with
  | [] => endResult                        (* n = 0, err = io.EOF *)
  | (data, err) :: r' =>
      let buf := firstn (Z.to_nat MaxBodyChunk) data in
      match err with
      | Some io_EOF => endResult
      | Some e => fail e
      | None =>
          if (len buf =? 0) then endResult
          else
            act <- BodyChunk buf ;;
            if Byte.eqb (ActCode act) ActSkip then endResult
            else if negb (Byte.eqb (ActCode act) ActContinue) then
              ret ([], Some act)
            else BodyReadFrom r'
      end
  end.

(** func (s *ClientSession) Close() error *)
Definition Close : M ClientSession unit :=
  abort <- gets needAbort ;;
  (if abort : bool then
     (* the error of this write is dropped *)
     fun s => let (_, s') := onConn (writePacket
                               {| Code := CodeAbort; Data := [] |}) s in
              (Ok tt, s')
   else ret tt) ;;;
  wrapErr "milter: close: %w"
    (onConn (writePacket {| Code := CodeQuit; Data := [] |})) ;;;
  onConn connClose.

End Client.

(** ** Server session *)

Module Server.

(** Modelled from the spec: the [Response] interface and its values live
    in a source file that is not part of the sources at hand.  A response
    is what the session uses of it: the packet [Response()] serialises
    and the [Continue()] predicate, which is false for the terminal
    actions other than continue (after them the server installs a fresh
    handler). *)
Record Response : Type := mkResponse {
  RespMessage : Message;
  Continue : bool
}.

(** Modelled from the spec: the terminal actions other than continue,
    [a d r t y s]. *)
Definition endsMessage (code : byte) : bool :=
  Byte.eqb code ActAccept || Byte.eqb code ActDiscard
  || Byte.eqb code ActReject || Byte.eqb code ActTempFail
  || Byte.eqb code ActReplyCode || Byte.eqb code ActSkip.

(** Modelled from the spec: [NewResponse(code, data)], the response that
    serialises to the packet of that code and data. *)
Definition NewResponse (code : byte) (data : bytes) : Response :=
  {| RespMessage := {| Code := code; Data := data |};
     Continue := negb (endsMessage code) |}.

(** Modelled from the spec: the plain responses [RespContinue],
    [RespTempFail] and [RespAccept]. *)
Definition RespContinue : Response := NewResponse ActContinue [].
Definition RespTempFail : Response := NewResponse ActTempFail [].
Definition RespAccept : Response := NewResponse ActAccept [].

Section Session.

(** What the session takes from outside the library: [net.IP] and
    [net.ParseIP], [textproto.CanonicalMIMEHeaderKey], the protocol
    version variable, and the handler with its factory. *)
Variable IP : Type.
Variable ParseIP : bytes -> IP.
Variable CanonicalMIMEHeaderKey : bytes -> bytes.
Variable serverProtocolVersion : Z.

(** [textproto.MIMEHeader], a [map[string][]string]. *)
Definition MIMEHeader : Type := gmap bytes (list bytes).

(** func (h MIMEHeader) Add(key, value string) *)
Definition MIMEHeader_Add (h : gmap bytes (list bytes))
    (key value : bytes) : gmap bytes (list bytes) :=
  let k := CanonicalMIMEHeaderKey key in
  <[ k := default [] (h !! k) ++ [value] ]> h.

(** func (h MIMEHeader) Values(key string) []string; on a [nil] map the
    answer is empty. *)
Definition MIMEHeader_Values (h : option (gmap bytes (list bytes)))
    (key : bytes) : list bytes :=
  match h with
  | None => []
  | Some h => default [] (h !! CanonicalMIMEHeaderKey key)
  end.

(** type Modifier struct: the views of the macros and of the headers a
    callback gets.  Its [writePacket] is the session's [WritePacket];
    the packets a callback sends through it are part of what the
    callback does ([sent] below). *)
Record Modifier : Type := mkModifier {
  Macros : option (gmap bytes bytes);
  Headers : option (gmap bytes (list bytes))
}.

(** The handler.  [B] is the state of a handler instance; a callback
    gets its arguments, the modifier and the state, and yields what Go
    returns ([ret_resp], [ret_err]), the next state and the packets it
    sent through the modifier.  Callbacks read the two maps and do not
    write to them. *)
Variable B : Type.

Record Called (R : Type) : Type := mkCalled {
  ret_resp : R;
  ret_err : option error;
  next : B;
  sent : list Message
}.
Arguments ret_resp {R} _.
Arguments ret_err {R} _.
Arguments next {R} _.
Arguments sent {R} _.

(** type Milter interface *)
Record Milter : Type := mkMilter {
  Connect : bytes -> bytes -> Z -> IP -> Modifier -> B
            -> Called (option Response);
  Helo : bytes -> Modifier -> B -> Called (option Response);
  MailFrom : bytes -> Modifier -> B -> Called (option Response);
  RcptTo : bytes -> Modifier -> B -> Called (option Response);
  Header : bytes -> bytes -> Modifier -> B -> Called (option Response);
  Headers_ : option (gmap bytes (list bytes)) -> Modifier -> B
             -> Called (option Response);
  BodyChunk : bytes -> Modifier -> B -> Called (option Response);
  Body : Modifier -> B -> Called (option Response);
  Abort : Modifier -> B -> Called unit
}.

Variable handler : Milter.
Variable NewMilter : B.

(** type milterSession struct *)
Record milterSession : Type := mkMilterSession {
  actions : Z;
  protocol : Z;
  conn : Conn;
  headers : option (gmap bytes (list bytes));
  macros : option (gmap bytes bytes);
  backend : B
}.

Definition set_conn (m : milterSession) (c : Conn) : milterSession :=
  {| actions := actions m; protocol := protocol m; conn := c;
     headers := headers m; macros := macros m; backend := backend m |}.
Definition set_headers (m : milterSession)
    (h : option (gmap bytes (list bytes))) : milterSession :=
  {| actions := actions m; protocol := protocol m; conn := conn m;
     headers := h; macros := macros m; backend := backend m |}.
Definition set_macros (m : milterSession)
    (k : option (gmap bytes bytes)) : milterSession :=
  {| actions := actions m; protocol := protocol m; conn := conn m;
     headers := headers m; macros := k; backend := backend m |}.
Definition set_backend (m : milterSession) (b : B) : milterSession :=
  {| actions := actions m; protocol := protocol m; conn := conn m;
     headers := headers m; macros := macros m; backend := b |}.

Definition onConn {A} (c : M Conn A) : M milterSession A :=
  fun m => let (r, c') := c (conn m) in (r, set_conn m c').

(** func (c *milterSession) ReadPacket() *)
Definition ReadPacket : M milterSession Message := onConn readPacket.

(** func (m *milterSession) WritePacket(msg *Message) error *)
Definition WritePacket (msg : Message) : M milterSession unit :=
  onConn (writePacket msg).

(** func newModifier(s *milterSession) *Modifier *)
Definition newModifier (s : milterSession) : Modifier :=
  {| Macros := macros s; Headers := headers s |}.

(** The packets a callback sent through the modifier, written in
    order; the error of each write went to the callback. *)
Definition sendAll (msgs : list Message) (m : milterSession)
  : milterSession :=
  fold_left (fun m msg => snd (WritePacket msg m)) msgs m.

(** A callback of the handler in the session: the modifier is built
    from the session as it is now, the handler state and the
    connection move on, and the pair Go returns becomes the outcome. *)
Definition call {R} (cb : Modifier -> B -> Called R)
  : M milterSession R :=
  fun m =>
    let r := cb (newModifier m) (backend m) in
    let m' := sendAll (sent r) (set_backend m (next r)) in
    match ret_err r with
    | Some e => (Err e, m')
    | None => (Ok (ret_resp r), m')
    end.

(** The table [family] of [Process]; a missing key reads as [""]. *)
Definition family (protocolFamily : byte) : bytes :=
  if Byte.eqb protocolFamily "U"%byte then
    list_byte_of_string "unknown"
  else if Byte.eqb protocolFamily "L"%byte then
    list_byte_of_string "unix"
  else if Byte.eqb protocolFamily "4"%byte then
    list_byte_of_string "tcp4"
  else if Byte.eqb protocolFamily "6"%byte then
    list_byte_of_string "tcp6"
  else [].

(** [strings.Trim(s, "<>")]: the leading and trailing bytes of the
    cutset go. *)
Definition isAngle (b : byte) : bool :=
  Byte.eqb b "<"%byte || Byte.eqb b ">"%byte.

Fixpoint trimLeftAngles (s : bytes) : bytes :=
  match s with
  | b :: rest => if isAngle b then trimLeftAngles rest else s
  | [] => []
  end.

Definition TrimAngles (s : bytes) : bytes :=
  trimLeftAngles (rev (trimLeftAngles (rev s))).

(** The loop of the [CodeMacro] arm: [m.macros[data[i]] = data[i+1]]
    for [i = 0, 2, ...] over a list of even length. *)
Fixpoint storeMacros (data : list bytes) (mac : gmap bytes bytes)
  : gmap bytes bytes :=
  match data with
  | k :: v :: rest => storeMacros rest (<[ k := v ]> mac)
  | _ => mac
  end.

(** func (m *milterSession) Process(msg *Message) (Response, error) *)
Definition Process (msg : Message) : M milterSession (option Response) :=
  let code := Code msg in
  if Byte.eqb code CodeAbort then
    (* abort current message and start over; the deferred function
       runs once the callback has returned *)
    fun m =>
      let (r, m') := call (Abort handler) m in
      let m'' := set_macros (set_headers m' None) None in
      match r with
      | Ok _ => (Ok None, m'')
      | Err e => (Err e, m'')
      | Panic => (Panic, m'')
      | NoFuel => (NoFuel, m'')
      end
  else if Byte.eqb code CodeBody then
    (* body chunk *)
    call (BodyChunk handler (Data msg))
  else if Byte.eqb code CodeConn then
    (* new connection, get hostname *)
    let hostname := CStrings.readCString (Data msg) in
    data1 <- sliceFrom (length hostname + 1) (Data msg) ;;
    (* get protocol family *)
    match data1 with
    | [] => panic
    | protocolFamily :: data2 =>
        let run (port : Z) (data3 : bytes) :=
          (* get address *)
          let address := CStrings.readCString data3 in
          call (Connect handler hostname (family protocolFamily) port
                  (ParseIP address)) in
        (* get port *)
        if Byte.eqb protocolFamily "4"%byte
           || Byte.eqb protocolFamily "6"%byte then
          match Uint16 data2 with
          | None => ret (Some RespTempFail)
          | Some port => run port (skipn 2 data2)
          end
        else run 0 data2
    end
  else if Byte.eqb code CodeMacro then
    (* define macros *)
    modify (fun m => set_macros m (Some ∅)) ;;;
    match Data msg with
    | [] => panic
    | _ :: rest =>
        (* convert data to Go strings *)
        let data := CStrings.decodeCStrings rest in
        let data := if (len data =? 0) then data
                    else if (len data mod 2 =? 1) then data ++ [[]]
                    else data in
        (* store data in a map *)
        modify (fun m =>
                  set_macros m
                    (Some (storeMacros data (default ∅ (macros m))))) ;;;
        (* do not send response *)
        ret None
    end
  else if Byte.eqb code CodeEOB then
    (* call and return milter handler *)
    call (Body handler)
  else if Byte.eqb code CodeHelo then
    (* helo command *)
    let name := CStrings.TrimSuffix (Data msg) NUL in
    call (Helo handler name)
  else if Byte.eqb code CodeHeader then
    (* make sure headers is initialized *)
    modify (fun m => match headers m with
                     | None => set_headers m (Some ∅)
                     | Some _ => m
                     end) ;;;
    (* add new header to headers map *)
    let headerData := CStrings.decodeCStrings (Data msg) in
    (* headers with an empty body appear as `text\x00\x00`,
       decodeCStrings will drop the empty body *)
    let headerData := if (len headerData =? 1) then headerData ++ [[]]
                      else headerData in
    match headerData with
    | [name; value] =>
        modify (fun m =>
                  set_headers m
                    (Some (MIMEHeader_Add (default ∅ (headers m))
                             name value))) ;;;
        (* call and return milter handler *)
        call (Header handler name value)
    | _ => ret (Some RespContinue)
    end
  else if Byte.eqb code CodeMail then
    (* envelope from address *)
    let from := CStrings.readCString (Data msg) in
    call (MailFrom handler (TrimAngles from))
  else if Byte.eqb code CodeEOH then
    (* end of headers *)
    fun m => call (Headers_ handler (headers m)) m
  else if Byte.eqb code CodeOptNeg then
    (* ignore request and prepare response buffer *)
    m <- gets (fun m => m) ;;
    ret (Some (NewResponse "O"%byte
                 (PutUint32 (uint32 serverProtocolVersion)
                  ++ PutUint32 (uint32 (actions m))
                  ++ PutUint32 (uint32 (protocol m)))))
  else if Byte.eqb code CodeQuit then
    (* client requested session close *)
    fail errCloseSession
  else if Byte.eqb code CodeRcpt then
    (* envelope to address *)
    let to := CStrings.readCString (Data msg) in
    call (RcptTo handler (TrimAngles to))
  else if Byte.eqb code CodeData then
    (* data, ignore; by default continue with next milter message *)
    ret (Some RespContinue)
  else
    (* print error and close session *)
    fail errCloseSession.

(** The body of the [for] loop of [HandleMilterCommands]: one command
    is read and processed and its response, if any, written.  An
    error is the point where the Go loop returns. *)
Definition handleCommand : M milterSession unit :=
  msg <- ReadPacket ;;
  resp <- Process msg ;;
  (* ignore empty responses *)
  match resp with
  | None => ret tt
  | Some resp =>
      (* send back response message *)
      WritePacket (RespMessage resp) ;;;
      if negb (Continue resp) then
        (* prepare backend for next message *)
        modify (fun m => set_backend m NewMilter)
      else ret tt
  end.

(** func (m *milterSession) HandleMilterCommands(): commands are
    handled until one fails; [defer m.conn.Close()] runs on the way
    out. *)
Fixpoint HandleMilterCommands_loop (fuel : nat) (m : milterSession)
  : result unit * milterSession :=
  match fuel with
  | O => (NoFuel, m)
  | S fuel' =>
      match handleCommand m with
      | (Ok _, m') => HandleMilterCommands_loop fuel' m'
      | (Err _, m') => (Ok tt, snd (onConn connClose m'))
      | (Panic, m') => (Panic, m')
      | (NoFuel, m') => (NoFuel, m')
      end
  end.

Definition HandleMilterCommands (m : milterSession)
  : result unit * milterSession :=
  HandleMilterCommands_loop (S (length (rd (conn m)))) m.

End Session.

Arguments ret_resp {B R} _.
Arguments ret_err {B R} _.
Arguments next {B R} _.
Arguments sent {B R} _.
Arguments mkCalled {B R} _ _ _ _.
Arguments Connect {IP B} _ _ _ _ _ _ _.
Arguments Helo {IP B} _ _ _ _.
Arguments MailFrom {IP B} _ _ _ _.
Arguments RcptTo {IP B} _ _ _ _.
Arguments Header {IP B} _ _ _ _ _.
Arguments Headers_ {IP B} _ _ _ _.
Arguments BodyChunk {IP B} _ _ _ _.
Arguments Body {IP B} _ _ _.
Arguments Abort {IP B} _ _ _.
Arguments actions {B} _.
Arguments protocol {B} _.
Arguments conn {B} _.
Arguments headers {B} _.
Arguments macros {B} _.
Arguments backend {B} _.
Arguments set_conn {B} _ _.
Arguments set_headers {B} _ _.
Arguments set_macros {B} _ _.
Arguments set_backend {B} _ _.
Arguments newModifier {B} _.
Arguments sendAll {B} _ _.
Arguments call {B R} _ _.
Arguments WritePacket {B} _ _.
Arguments ReadPacket {B} _.
Arguments Process {IP} _ _ _ {B} _ _ _.
Arguments handleCommand {IP} _ _ _ {B} _ _ _.
Arguments HandleMilterCommands {IP} _ _ _ {B} _ _ _.

(** type NoOpMilter struct{}: the handler that does nothing
    ([server.go]). *)
Definition noOp {R} (r : R) : Modifier -> unit -> Called unit R :=
  fun _ _ => {| ret_resp := r; ret_err := None; next := tt; sent := [] |}.

Definition NoOpMilter : Milter unit unit :=
  {| Connect := fun _ _ _ _ => noOp (Some RespContinue);
     Helo := fun _ => noOp (Some RespContinue);
     MailFrom := fun _ => noOp (Some RespContinue);
     RcptTo := fun _ => noOp (Some RespContinue);
     Header := fun _ _ => noOp (Some RespContinue);
     Headers_ := fun _ => noOp (Some RespContinue);
     BodyChunk := fun _ => noOp (Some RespContinue);
     Body := noOp (Some RespAccept);
     Abort := noOp tt |}.

End Server.

(** ** Modifier ([modifier.go]) *)

Module ModifierMethods.

Definition CR : byte := "013"%byte.
Definition LF : byte := "010"%byte.

(** func crlfToLF(b []byte) []byte: [bytes.ReplaceAll(b, "\r\n", "\n")],
    the matches taken from left to right without overlap. *)
Fixpoint crlfToLF (b : bytes) : bytes :=
  match b with
  | [] => []
  | c :: rest =>
      match rest with
      | d :: rest' =>
          if Byte.eqb c CR && Byte.eqb d LF then LF :: crlfToLF rest'
          else c :: crlfToLF rest
      | [] => [c]
      end
  end.

Section Methods.

Context {B : Type}.

(** [m.writePacket(NewResponse(code, data).Response())]: the modifier
    writes through the [WritePacket] of its session. *)
Definition writeModify (code : byte) (data : bytes)
  : M (Server.milterSession B) unit :=
  Server.WritePacket (Server.RespMessage (Server.NewResponse code data)).

(** func (m *Modifier) AddRecipient(r string) error *)
Definition AddRecipient (r : bytes) : M (Server.milterSession B) unit :=
  let data := ("<"%byte :: r ++ [">"%byte]) ++ [NUL] in
  writeModify "+"%byte data.

(** func (m *Modifier) DeleteRecipient(r string) error *)
Definition DeleteRecipient (r : bytes) : M (Server.milterSession B) unit :=
  let data := ("<"%byte :: r ++ [">"%byte]) ++ [NUL] in
  writeModify "-"%byte data.

(** func (m *Modifier) ReplaceBody(body []byte) error *)
Definition ReplaceBody (body : bytes) : M (Server.milterSession B) unit :=
  let body := crlfToLF body in
  writeModify "b"%byte body.

(** func (m *Modifier) AddHeader(name, value string) error *)
Definition AddHeader (name value : bytes)
  : M (Server.milterSession B) unit :=
  let buffer := (name ++ [NUL]) ++ crlfToLF value ++ [NUL] in
  writeModify "h"%byte buffer.

(** func (m *Modifier) Quarantine(reason string) error *)
Definition Quarantine (reason : bytes) : M (Server.milterSession B) unit :=
  writeModify "q"%byte (reason ++ [NUL]).

(** func (m *Modifier) ChangeHeader(index int, name, value string) error *)
Definition ChangeHeader (index : Z) (name value : bytes)
  : M (Server.milterSession B) unit :=
  let buffer := PutUint32 (uint32 index)
                ++ (name ++ [NUL]) ++ crlfToLF value ++ [NUL] in
  writeModify "m"%byte buffer.

(** func (m *Modifier) InsertHeader(index int, name, value string) error *)
Definition InsertHeader (index : Z) (name value : bytes)
  : M (Server.milterSession B) unit :=
  let buffer := PutUint32 (uint32 index)
                ++ (name ++ [NUL]) ++ crlfToLF value ++ [NUL] in
  writeModify "i"%byte buffer.

(** func (m *Modifier) ChangeFrom(value string) error *)
Definition ChangeFrom (value : bytes) : M (Server.milterSession B) unit :=
  let data := value ++ [NUL] in
  writeModify "e"%byte data.

End Methods.

End ModifierMethods.

(** ** Auxiliary definitions of the statements *)

(** The strings with one [NUL] between neighbours: what is left of an
    encoding once the last terminator is trimmed. *)
Fixpoint joinNUL (ss : list bytes) : bytes :=
  match ss with
  | [] => []
  | [s] => s
  | s :: rest => s ++ NUL :: joinNUL rest
  end.

(** Two states of the transport with the same written bytes and flags:
    what reading leaves alone. *)
Definition same_out (c c' : Conn) : Prop :=
  wr c' = wr c /\ wr_broken c' = wr_broken c /\ closed c' = closed c.

(** A transport that works, with [incoming] still to be read. *)
Definition freshConn (incoming : bytes) : Conn :=
  {| rd := incoming; wr := []; wr_broken := false; closed := false |}.

(** [&ClientSession{...}] as [Client.Session] builds it before it
    negotiates. *)
Definition newSession (incoming : bytes) : Client.ClientSession :=
  {| Client.conn := freshConn incoming; Client.ActionOpts := 0;
     Client.ProtocolOpts := 0; Client.needAbort := false |}.

(** The OPTNEG packet: version, action mask, protocol mask. *)
Definition optneg (version actionMask protoMask : Z) : Message :=
  {| Code := CodeOptNeg;
     Data := PutUint32 version ++ PutUint32 actionMask
             ++ PutUint32 protoMask |}.

(** A bit mask [a] within a bit mask [b]. *)
Definition submask (a b : Z) : Prop := Z.land a b = a.

(** The bytes of one packet on the wire. *)
Definition packet (code : byte) (data : bytes) : bytes :=
  frame {| Code := code; Data := data |}.

(** A negotiated session whose protocol mask has the no-body bit. *)
Definition sessionNoBody : Client.ClientSession :=
  {| Client.conn := freshConn []; Client.ActionOpts := 0;
     Client.ProtocolOpts := OptNoBody; Client.needAbort := true |}.

(** A negotiated session with an empty protocol mask, the milter about to
    answer continue. *)
Definition sessionPlain : Client.ClientSession :=
  {| Client.conn := freshConn (packet ActContinue []);
     Client.ActionOpts := 0; Client.ProtocolOpts := 0;
     Client.needAbort := true |}.

(** A body chunk of 70000 bytes. *)
Definition bigChunk : bytes := repeat "A"%byte (Z.to_nat 70000).

(** What a callback of the recording handler was given. *)
Inductive Seen : Type :=
| SawHeader (name value : bytes) (m : Server.Modifier)
| SawHeaders (h : option (gmap bytes (list bytes))) (m : Server.Modifier)
| SawAbort (m : Server.Modifier)
| SawOther.

(** A handler in the manner of the [MockMilter] of the tests: every
    callback continues, sends nothing, and appends what it was given to
    the log that is the handler state. *)
Definition seeing {R} (r : R) (what : Server.Modifier -> Seen)
  : Server.Modifier -> list Seen -> Server.Called (list Seen) R :=
  fun m log =>
    Server.mkCalled r None (log ++ [what m]) [].

Definition Recorder : Server.Milter unit (list Seen) :=
  {| Server.Connect := fun _ _ _ _ =>
       seeing (Some Server.RespContinue) (fun _ => SawOther);
     Server.Helo := fun _ =>
       seeing (Some Server.RespContinue) (fun _ => SawOther);
     Server.MailFrom := fun _ =>
       seeing (Some Server.RespContinue) (fun _ => SawOther);
     Server.RcptTo := fun _ =>
       seeing (Some Server.RespContinue) (fun _ => SawOther);
     Server.Header := fun name value =>
       seeing (Some Server.RespContinue) (SawHeader name value);
     Server.Headers_ := fun h =>
       seeing (Some Server.RespContinue) (SawHeaders h);
     Server.BodyChunk := fun _ =>
       seeing (Some Server.RespContinue) (fun _ => SawOther);
     Server.Body :=
       seeing (Some Server.RespContinue) (fun _ => SawOther);
     Server.Abort := seeing tt SawAbort |}.

(** The session [Serve] builds around an accepted connection. *)
Definition newMilterSession {B} (b : B) (incoming : bytes)
  : Server.milterSession B :=
  {| Server.actions := 0; Server.protocol := 0;
     Server.conn := freshConn incoming;
     Server.headers := None; Server.macros := None;
     Server.backend := b |}.

(** [net.ParseIP] and [textproto.CanonicalMIMEHeaderKey] for the examples:
    addresses are not looked at, header names are taken as they are. *)
Definition noIP (address : bytes) : unit := tt.
Definition sameKey (key : bytes) : bytes := key.


Definition tlsMacros : gmap bytes bytes :=
  {[ list_byte_of_string "tls_version" := list_byte_of_string "very old" ]}.

Definition sessionBeforeAbort : Server.milterSession (list Seen) :=
  {| Server.actions := 0; Server.protocol := 0;
     Server.conn := freshConn (packet CodeAbort []);
     Server.headers := None; Server.macros := Some tlsMacros;
     Server.backend := [] |}.

(** Lines with a separator between neighbours. *)
Fixpoint joinLines (sep : bytes) (lines : list bytes) : bytes :=
  match lines with
  | [] => []
  | [l] => l
  | l :: rest => l ++ sep ++ joinLines sep rest
  end.

(** The calls of the client that send one command and may read its
    reply, with what tells them apart: the function, the bit that
    suppresses the command, the bit that suppresses its reply, and the
    code of the packet. *)
Inductive Command : Type :=
| CmdConn (hostname : bytes) (family : byte) (port : Z) (addr : bytes)
| CmdHelo (helo : bytes)
| CmdMail (sender : bytes) (esmtpArgs : list bytes)
| CmdRcpt (rcpt : bytes) (esmtpArgs : list bytes)
| CmdHeaderField (key value : bytes)
| CmdHeaderEnd
| CmdBodyChunk (chunk : bytes).

Definition run (c : Command) : M Client.ClientSession Client.Action :=
  match c with
  | CmdConn h f p a => Client.Conn_ h f p a
  | CmdHelo h => Client.Helo h
  | CmdMail f args => Client.Mail f args
  | CmdRcpt r args => Client.Rcpt r args
  | CmdHeaderField k v => Client.HeaderField k v
  | CmdHeaderEnd => Client.HeaderEnd
  | CmdBodyChunk chunk => Client.BodyChunk chunk
  end.

Definition suppressBit (c : Command) : Z :=
  match c with
  | CmdConn _ _ _ _ => OptNoConnect
  | CmdHelo _ => OptNoHelo
  | CmdMail _ _ => OptNoMailFrom
  | CmdRcpt _ _ => OptNoRcptTo
  | CmdHeaderField _ _ => OptNoHeaders
  | CmdHeaderEnd => OptNoEOH
  | CmdBodyChunk _ => OptNoBody
  end.

Definition replyBit (c : Command) : Z :=
  match c with
  | CmdConn _ _ _ _ => OptNoConnReply
  | CmdHelo _ => OptNoHeloReply
  | CmdMail _ _ => OptNoMailReply
  | CmdRcpt _ _ => OptNoRcptReply
  | CmdHeaderField _ _ => OptNoHeaderReply
  | CmdHeaderEnd => OptNoEOHReply
  | CmdBodyChunk _ => OptNoBodyReply
  end.

Definition commandCode (c : Command) : byte :=
  match c with
  | CmdConn _ _ _ _ => CodeConn
  | CmdHelo _ => CodeHelo
  | CmdMail _ _ => CodeMail
  | CmdRcpt _ _ => CodeRcpt
  | CmdHeaderField _ _ => CodeHeader
  | CmdHeaderEnd => CodeEOH
  | CmdBodyChunk _ => CodeBody
  end.


(** A session with the given protocol mask on a transport that works. *)
Definition sessionWith (protocolOpts : Z) (incoming : bytes)
  : Client.ClientSession :=
  {| Client.conn := freshConn incoming; Client.ActionOpts := 0;
     Client.ProtocolOpts := protocolOpts; Client.needAbort := true |}.

(** The session once [readAction] has stopped at a packet of the given
    code: the flag is cleared unless the code is continue. *)
Definition afterReply (code : byte) (s : Client.ClientSession)
  : Client.ClientSession :=
  if negb (Byte.eqb code ActContinue) then Client.set_needAbort s false
  else s.

(** An ASCII decimal digit and its value. *)
Definition isDigit (b : byte) : Prop := 48 <= byteZ b <= 57.
Definition digitValue (b : byte) : Z := byteZ b - 48.

(** A reader script whose reads never fail: each one delivers bytes or
    reports the end of the input. *)
Definition readsCleanly (r : Client.Reader) : Prop :=
  Forall (fun step => snd step = None \/ snd step = Some io_EOF) r.

(** ** Proof steps *)

(** A concrete string holds no NUL. *)
Ltac no_NUL :=
  let H := fresh in
  intros H; cbn in H;
  repeat (destruct H as [H|H]; [discriminate H|]); exact H.

(** The monad operations, unfolded. *)
Ltac unfold_go :=
  unfold bind, wrapErr, ret, fail, panic, modify, gets in *.

(** The fields of a client session after the setters. *)
Ltac simpl_session :=
  cbv beta in *;
  unfold Client.set_conn, Client.set_opts, Client.set_needAbort,
    set_rd, set_wr, set_closed in *;
  cbn [Client.conn Client.ActionOpts Client.ProtocolOpts Client.needAbort
       Client.set_conn Client.set_opts Client.set_needAbort
       rd wr wr_broken closed set_rd set_wr set_closed fst snd] in *.

(** The comparisons of packet codes in a [switch], evaluated. *)
Ltac eval_codes :=
  repeat match goal with
    | |- context [Byte.eqb ?a ?b] =>
        let v := eval vm_compute in (Byte.eqb a b) in
        change (Byte.eqb a b) with v
    end;
  cbv iota.

(** The same for the comparisons with one given code. *)
Ltac eval_codes_of c :=
  repeat match goal with
    | |- context [Byte.eqb c ?b] =>
        let v := eval vm_compute in (Byte.eqb c b) in
        change (Byte.eqb c b) with v
    end;
  cbv iota.

(** A modifier call that succeeds, writes one packet and nothing else,
    and whose packet the client's [parseModifyAct] reads as [act]. *)
Definition delivers {B} (c : M (Server.milterSession B) unit)
    (m : Server.milterSession B) (act : Client.ModifyAction) : Prop :=
  exists msg,
    c m = (Ok tt,
           Server.set_conn m
             (set_wr (Server.conn m) (wr (Server.conn m) ++ frame msg)))
    /\ Client.parseModifyAct msg = Ok act.

(** The command codes [Process] has an arm for, apart from Quit. *)
Definition handledCode (code : byte) : bool :=
  Byte.eqb code CodeAbort || Byte.eqb code CodeBody
  || Byte.eqb code CodeConn || Byte.eqb code CodeMacro
  || Byte.eqb code CodeEOB || Byte.eqb code CodeHelo
  || Byte.eqb code CodeHeader || Byte.eqb code CodeMail
  || Byte.eqb code CodeEOH || Byte.eqb code CodeOptNeg
  || Byte.eqb code CodeRcpt || Byte.eqb code CodeData.

(** * Properties *)

(** ** Integers on the wire *)

Lemma byteZ_range (b : byte) : 0 <= byteZ b < 256.
Proof.
  unfold byteZ. pose proof (Byte.to_N_bounded b) as H.
  split; [apply N2Z.is_nonneg | lia].
Qed.

Lemma byteZ_byte_of_Z (v : Z) : byteZ (byte_of_Z v) = v mod 256.
Proof.
  unfold byte_of_Z, byteZ.
  assert (Hr : 0 <= v mod 256 < 256) by (apply Z.mod_pos_bound; lia).
  destruct (Byte.of_N (Z.to_N (v mod 256))) as [b|] eqn:E.
  - apply Byte.to_of_N in E. rewrite E. rewrite Z2N.id; lia.
  - apply Byte.of_N_None_iff in E. lia.
Qed.

Lemma byte_of_Z_byteZ (b : byte) : byte_of_Z (byteZ b) = b.
Proof.
  unfold byte_of_Z. pose proof (byteZ_range b) as H.
  rewrite Z.mod_small by exact H.
  unfold byteZ. rewrite N2Z.id, Byte.of_to_N. reflexivity.
Qed.

Lemma mod256_land (v : Z) : v mod 256 = Z.land v (Z.ones 8).
Proof. rewrite Z.land_ones by lia. reflexivity. Qed.

(** One byte of a big-endian integer, bit by bit. *)
Lemma testbit_byte_at (v k n : Z) :
  0 <= k -> 0 <= n ->
  Z.testbit (Z.shiftl (Z.land (Z.shiftr v k) (Z.ones 8)) k) n
  = Z.testbit v n && ((k <=? n) && (n <? k + 8)).
Proof.
  intros Hk Hn. rewrite Z.shiftl_spec by lia.
  destruct (Z.leb_spec k n) as [Hle|Hlt].
  - rewrite Z.land_spec, Z.shiftr_spec by lia.
    rewrite Z.testbit_ones_nonneg by lia.
    replace (n - k + k) with n by lia.
    f_equal. cbn [andb].
    destruct (Z.ltb_spec (n - k) 8), (Z.ltb_spec n (k + 8)); lia.
  - rewrite Z.testbit_neg_r by lia. cbn [andb].
    symmetry. apply andb_false_r.
Qed.

(** Reading back a big-endian [uint32]. *)
Lemma Uint32_PutUint32 (v : Z) (rest : bytes) :
  0 <= v < 4294967296 ->
  Uint32 (PutUint32 v ++ rest) = Some v.
Proof.
  intros Hv. unfold Uint32, PutUint32. cbn [app]. f_equal.
  rewrite !byteZ_byte_of_Z, !mod256_land.
  apply Z.bits_inj'. intros n Hn.
  rewrite !Z.lor_spec.
  rewrite !testbit_byte_at by lia.
  replace (Z.land v (Z.ones 8))
    with (Z.shiftl (Z.land (Z.shiftr v 0) (Z.ones 8)) 0)
    by (rewrite Z.shiftl_0_r, Z.shiftr_0_r; reflexivity).
  rewrite testbit_byte_at by lia.
  destruct (Z_lt_dec n 32) as [Hlt|Hge].
  - destruct (Z.testbit v n); cbn [andb orb]; [|reflexivity].
    destruct (Z.leb_spec 24 n), (Z.ltb_spec n (24 + 8)),
      (Z.leb_spec 16 n), (Z.ltb_spec n (16 + 8)),
      (Z.leb_spec 8 n), (Z.ltb_spec n (8 + 8)),
      (Z.leb_spec 0 n), (Z.ltb_spec n (0 + 8)); cbn; lia || reflexivity.
  - assert (Hhigh : Z.testbit v n = false).
    { destruct (Z.eq_dec v 0) as [->|Hne]; [apply Z.bits_0|].
      apply Z.bits_above_log2; [lia|].
      apply Z.log2_lt_pow2; [lia|].
      apply Z.lt_le_trans with (2 ^ 32);
        [change (2 ^ 32) with 4294967296; lia|].
      apply Z.pow_le_mono_r; lia. }
    rewrite Hhigh. reflexivity.
Qed.

Lemma length_PutUint32 (v : Z) : length (PutUint32 v) = 4%nat.
Proof. reflexivity. Qed.

Lemma uint32_range (v : Z) : 0 <= uint32 v < 4294967296.
Proof. unfold uint32. apply Z.mod_pos_bound. lia. Qed.

Lemma uint32_small (v : Z) : 0 <= v < 4294967296 -> uint32 v = v.
Proof. intros H. unfold uint32. apply Z.mod_small. exact H. Qed.

(** ** C strings *)

Section CStringFacts.

Import CStrings.

Lemma eqb_NUL_false (b : byte) : b <> NUL -> Byte.eqb b NUL = false.
Proof.
  intros H. destruct (Byte.eqb b NUL) eqn:E; [|reflexivity].
  apply Byte.byte_dec_bl in E. contradiction.
Qed.

Lemma eqb_refl (b : byte) : Byte.eqb b b = true.
Proof. apply Byte.byte_dec_lb. reflexivity. Qed.

(** The encoder is the concatenation of the terminated strings. *)
Lemma fold_appendCString (ss : list bytes) (acc : bytes) :
  fold_left appendCString ss acc
  = acc ++ concat (map (fun s => s ++ [NUL]) ss).
Proof.
  revert acc. induction ss as [|s ss IH]; intros acc; cbn.
  - symmetry. apply app_nil_r.
  - rewrite IH. unfold appendCString. rewrite <- !app_assoc. reflexivity.
Qed.

Lemma encodeCStrings_concat (ss : list bytes) :
  encodeCStrings ss = concat (map (fun s => s ++ [NUL]) ss).
Proof. unfold encodeCStrings. apply fold_appendCString. Qed.

Lemma concat_joinNUL (ss : list bytes) :
  ss <> [] ->
  concat (map (fun s => s ++ [NUL]) ss) = joinNUL ss ++ [NUL].
Proof.
  induction ss as [|s ss IH]; intros Hne; [contradiction|].
  destruct ss as [|s' ss].
  - cbn. rewrite app_nil_r. reflexivity.
  - cbn [map concat joinNUL]. cbn [map concat] in IH.
    rewrite IH by discriminate.
    rewrite <- !app_assoc. reflexivity.
Qed.

Lemma Split_nonempty (s : bytes) (sep : byte) : Split s sep <> [].
Proof.
  induction s as [|b s IH]; cbn; [discriminate|].
  destruct (Byte.eqb b sep); [discriminate|].
  destruct (Split s sep); [contradiction|discriminate].
Qed.

Lemma Split_free (s : bytes) : ~ In NUL s -> Split s NUL = [s].
Proof.
  induction s as [|b s IH]; intros Hs; cbn; [reflexivity|].
  rewrite eqb_NUL_false by (intros ->; apply Hs; left; reflexivity).
  rewrite IH by (intros Hin; apply Hs; right; exact Hin).
  reflexivity.
Qed.

Lemma Split_app_NUL (s t : bytes) :
  ~ In NUL s -> Split (s ++ NUL :: t) NUL = s :: Split t NUL.
Proof.
  induction s as [|b s IH]; intros Hs; cbn.
  - reflexivity.
  - rewrite eqb_NUL_false by (intros ->; apply Hs; left; reflexivity).
    rewrite IH by (intros Hin; apply Hs; right; exact Hin).
    reflexivity.
Qed.

Lemma Split_joinNUL (ss : list bytes) :
  Forall (fun s => ~ In NUL s) ss -> ss <> [] ->
  Split (joinNUL ss) NUL = ss.
Proof.
  induction ss as [|s ss IH]; intros Hall Hne; [contradiction|].
  inversion Hall as [|? ? Hs Hrest]; subst.
  destruct ss as [|s' ss].
  - cbn. apply Split_free. exact Hs.
  - cbn [joinNUL]. rewrite Split_app_NUL by exact Hs.
    f_equal. apply IH; [exact Hrest|discriminate].
Qed.

(** Trimming leaves alone a string that neither starts nor ends with
    the byte. *)
Lemma trimLeftByte_head (a : byte) (s : bytes) (c : byte) :
  Byte.eqb a c = false -> trimLeftByte (a :: s) c = a :: s.
Proof. intros H. cbn. rewrite H. reflexivity. Qed.

Lemma Trim_inner (a z : byte) (s : bytes) (x : bytes) :
  a <> NUL -> z <> NUL ->
  x = a :: s -> (exists s', x = s' ++ [z]) ->
  Trim (x ++ [NUL]) NUL = x.
Proof.
  intros Ha Hz Hx [s' Hx']. unfold Trim, trimRightByte.
  rewrite rev_app_distr. cbn [rev app].
  cbn [trimLeftByte]. rewrite eqb_refl.
  rewrite Hx' at 1. rewrite rev_app_distr. cbn [rev app].
  rewrite trimLeftByte_head by (apply eqb_NUL_false; exact Hz).
  change (z :: rev s') with (rev [z] ++ rev s').
  rewrite <- rev_app_distr, rev_involutive, <- Hx'.
  rewrite Hx. apply trimLeftByte_head. apply eqb_NUL_false. exact Ha.
Qed.

Lemma joinNUL_head (a : byte) (s : bytes) (ss : list bytes) :
  exists t, joinNUL ((a :: s) :: ss) = a :: t.
Proof. destruct ss; cbn; eexists; reflexivity. Qed.

Lemma joinNUL_last (ss : list bytes) (z : byte) (s' : bytes) :
  ss <> [] -> List.last ss [] = s' ++ [z] ->
  exists t, joinNUL ss = t ++ [z].
Proof.
  induction ss as [|s ss IH]; intros Hne Hlast; [contradiction|].
  destruct ss as [|s2 ss].
  - cbn in *. exists s'. exact Hlast.
  - destruct IH as [t Ht]; [discriminate|exact Hlast|].
    exists (s ++ NUL :: t). cbn [joinNUL] in *. rewrite Ht.
    rewrite <- app_assoc. reflexivity.
Qed.

Lemma decodeCStrings_nonempty (data : bytes) :
  data <> [] -> decodeCStrings data = Split (Trim data NUL) NUL.
Proof.
  intros H. unfold decodeCStrings, len.
  destruct data; [contradiction|]. reflexivity.
Qed.

(** The payload of a header without a value. *)
Lemma decodeCStrings_name_NUL_NUL (name : bytes) :
  ~ In NUL name -> decodeCStrings (name ++ [NUL; NUL]) = [name].
Proof.
  intros Hfree.
  rewrite decodeCStrings_nonempty by (destruct name; discriminate).
  assert (Htrim : Trim (name ++ [NUL; NUL]) NUL = name).
  { unfold Trim, trimRightByte. rewrite rev_app_distr. cbn [rev app].
    cbn [trimLeftByte]. rewrite eqb_refl.
    destruct (rev name) as [|z r] eqn:Er.
    - apply (f_equal (@rev byte)) in Er. rewrite rev_involutive in Er.
      subst name. reflexivity.
    - assert (Hz : z <> NUL).
      { intros ->. apply Hfree. apply in_rev. rewrite Er. left.
        reflexivity. }
      rewrite trimLeftByte_head by (apply eqb_NUL_false; exact Hz).
      rewrite <- Er, rev_involutive.
      destruct name as [|a s]; [reflexivity|].
      apply trimLeftByte_head, eqb_NUL_false.
      intros ->. apply Hfree. left. reflexivity. }
  rewrite Htrim. apply Split_free. exact Hfree.
Qed.

End CStringFacts.

(** C5, as amended.  For every sequence [ss] of strings without a NUL byte
    that is empty, is the single empty string, or has a non-empty first and
    a non-empty last element, decoding the concatenation of the
    NUL-terminated encodings of its elements gives [ss] again; and decoding
    the empty byte sequence gives the empty sequence.  (The decoder trims
    the NULs at both ends before it splits, so empty strings at either end
    of a longer sequence are lost.) *)
Theorem decodeCStrings_encodeCStrings (ss : list bytes) :
  Forall (fun s => ~ In NUL s) ss ->
  ss = [] \/ ss = [[]] \/ (hd [] ss <> [] /\ List.last ss [] <> []) ->
  CStrings.decodeCStrings (CStrings.encodeCStrings ss) = ss
  /\ CStrings.decodeCStrings [] = [].
Proof.
  intros Hfree Hshape. split; [|reflexivity].
  destruct Hshape as [->|[->|[Hhd Hlast]]]; [reflexivity|reflexivity|].
  destruct ss as [|s1 ss]; [contradiction Hhd; reflexivity|].
  destruct s1 as [|a s1]; [contradiction Hhd; reflexivity|].
  set (l := (a :: s1) :: ss) in *.
  assert (Hne : l <> []) by discriminate.
  assert (Ha : a <> NUL).
  { inversion Hfree as [|? ? Hs _]; subst. intros ->. apply Hs. left.
    reflexivity. }
  destruct (exists_last (l:=List.last l [])) as [s' [z Hz]]; [exact Hlast|].
  assert (Hzn : z <> NUL).
  { assert (Hin : In (List.last l []) l).
    { clear -Hne. induction l as [|x l IH]; [contradiction|].
      destruct l as [|y l]; [left; reflexivity|].
      right. apply IH. discriminate. }
    pose proof (proj1 (List.Forall_forall _ _) Hfree _ Hin) as Hl.
    intros ->. apply Hl. rewrite Hz. apply in_or_app. right. left.
    reflexivity. }
  rewrite encodeCStrings_concat, concat_joinNUL by exact Hne.
  destruct (joinNUL_head a s1 ss) as [t Ht].
  destruct (joinNUL_last l z s' Hne Hz) as [t' Ht'].
  rewrite decodeCStrings_nonempty.
  - rewrite (Trim_inner a z t (joinNUL l) Ha Hzn Ht (ex_intro _ t' Ht')).
    apply Split_joinNUL; [exact Hfree|exact Hne].
  - intros Hnil. apply app_eq_nil in Hnil. destruct Hnil; discriminate.
Qed.

(** A sequence the amended round trip covers, with an empty string in
    the middle. *)
Lemma decodeCStrings_encodeCStrings_witness :
  CStrings.decodeCStrings
    (CStrings.encodeCStrings [["k"%byte]; []; ["v"%byte]])
  = [["k"%byte]; []; ["v"%byte]]
  /\ CStrings.decodeCStrings [] = [].
Proof.
  apply (decodeCStrings_encodeCStrings [["k"%byte]; []; ["v"%byte]]).
  - repeat constructor; cbn; intros H; intuition discriminate.
  - right. right. split; discriminate.
Defined.

(** C5, as stated, fails: the strings ["a"] and [""] have no NUL byte, and
    their encoding ["a\0\0"] decodes to the single string ["a"]. *)
Lemma decodeCStrings_drops_trailing_empty :
  Forall (fun s => ~ In NUL s) [["a"%byte]; []]
  /\ CStrings.decodeCStrings (CStrings.encodeCStrings [["a"%byte]; []])
     <> [["a"%byte]; []].
Proof.
  split.
  - repeat constructor; cbn; intros H; intuition discriminate.
  - cbv. discriminate.
Qed.

(** The same happens at the front: ["\0a\0"] decodes to ["a"]. *)
Lemma decodeCStrings_drops_leading_empty :
  CStrings.decodeCStrings (CStrings.encodeCStrings [[]; ["a"%byte]])
  = [["a"%byte]].
Proof. reflexivity. Qed.

(** ** Frames *)

Lemma same_out_refl (c : Conn) : same_out c c.
Proof. repeat split. Qed.

Lemma same_out_trans (c1 c2 c3 : Conn) :
  same_out c1 c2 -> same_out c2 c3 -> same_out c1 c3.
Proof.
  unfold same_out. intros (H1 & H2 & H3) (H4 & H5 & H6).
  repeat split; congruence.
Qed.

Lemma set_rd_id (c : Conn) : set_rd c (rd c) = c.
Proof. destruct c. reflexivity. Qed.

Lemma ReadFull_out (n : nat) (c : Conn) : same_out c (snd (ReadFull n c)).
Proof.
  unfold ReadFull. destruct n; [apply same_out_refl|].
  destruct (closed c); [apply same_out_refl|].
  destruct (rd c) as [|b r]; [apply same_out_refl|].
  destruct (length (b :: r) <? S n)%nat; repeat split.
Qed.

Lemma ReadFull_Ok (n : nat) (c c' : Conn) (b : bytes) :
  ReadFull n c = (Ok b, c') -> rd c = b ++ rd c' /\ length b = n.
Proof.
  unfold ReadFull. destruct n.
  - intros H. inversion H; subst. split; reflexivity.
  - destruct (closed c); [discriminate|].
    destruct (rd c) as [|x r] eqn:Erd; [discriminate|].
    destruct (Nat.ltb_spec (length (x :: r)) (S n)) as [Hlt|Hge];
      [discriminate|].
    intros H. inversion H; subst. cbn [rd set_rd app length]. split.
    + f_equal. symmetry. apply firstn_skipn.
    + f_equal. apply firstn_length_le. cbn [length] in Hge. lia.
Qed.

Lemma ReadFull_app (b rest : bytes) (c : Conn) :
  closed c = false -> rd c = b ++ rest ->
  ReadFull (length b) c = (Ok b, set_rd c rest).
Proof.
  intros Hc Hrd. unfold ReadFull.
  destruct b as [|x b].
  - cbn in *. rewrite <- Hrd, set_rd_id. reflexivity.
  - cbn [length]. rewrite Hc, Hrd. cbn [app length].
    destruct (Nat.ltb_spec (S (length (b ++ rest))) (S (length b)))
      as [Hlt|Hge].
    + rewrite length_app in Hlt. lia.
    + change (x :: b ++ rest) with ((x :: b) ++ rest).
      change (S (length b)) with (length (x :: b)).
      rewrite firstn_app, Nat.sub_diag, firstn_all, firstn_O, app_nil_r.
      rewrite skipn_app, Nat.sub_diag, skipn_all. reflexivity.
Qed.

Lemma readPacket_out (c : Conn) : same_out c (snd (readPacket c)).
Proof.
  unfold readPacket, bind.
  pose proof (ReadFull_out 4 c) as H1.
  destruct (ReadFull 4 c) as [[hdr| | |] c1]; cbn [snd] in *; try exact H1.
  destruct (Uint32 hdr) as [n|]; [|exact H1].
  pose proof (ReadFull_out (Z.to_nat n) c1) as H2.
  destruct (ReadFull (Z.to_nat n) c1) as [[data| | |] c2]; cbn [snd] in *;
    try (eapply same_out_trans; eassumption).
  destruct data; eapply same_out_trans; eassumption.
Qed.

(** The frame reader has no loop to run out of fuel in. *)
Lemma ReadFull_fuel (n : nat) (c c' : Conn) : ReadFull n c <> (NoFuel, c').
Proof.
  unfold ReadFull. destruct n; [discriminate|].
  destruct (closed c); [discriminate|].
  destruct (rd c); [discriminate|].
  destruct (_ <? _)%nat; discriminate.
Qed.

Lemma readPacket_fuel (c c' : Conn) : readPacket c <> (NoFuel, c').
Proof.
  unfold readPacket, bind.
  destruct (ReadFull 4 c) as [[hdr| | |] c1] eqn:E1; try discriminate.
  - destruct (Uint32 hdr) as [n|]; [|discriminate].
    destruct (ReadFull (Z.to_nat n) c1) as [[data| | |] c2] eqn:E2;
      try discriminate.
    + destruct data; discriminate.
    + exfalso. exact (ReadFull_fuel _ _ _ E2).
  - exfalso. exact (ReadFull_fuel _ _ _ E1).
Qed.

(** A packet that was read took its four length bytes and its code off
    the stream. *)
Lemma readPacket_Ok (c c' : Conn) (msg : Message) :
  readPacket c = (Ok msg, c') ->
  (length (rd c') + 5 <= length (rd c))%nat.
Proof.
  unfold readPacket, bind.
  destruct (ReadFull 4 c) as [[hdr| | |] c1] eqn:E1; try discriminate.
  destruct (Uint32 hdr) as [n|]; [|discriminate].
  destruct (ReadFull (Z.to_nat n) c1) as [[data| | |] c2] eqn:E2;
    try discriminate.
  destruct data as [|code payload]; [discriminate|].
  intros H. inversion H; subst.
  apply ReadFull_Ok in E1. apply ReadFull_Ok in E2.
  destruct E1 as [E1 L1], E2 as [E2 L2].
  rewrite E1, E2, !length_app, L1. cbn [length]. lia.
Qed.

(** Framing round trip: a frame on the stream is read back as the message
    it was written from. *)
Lemma readPacket_frame (c : Conn) (msg : Message) (rest : bytes) :
  closed c = false ->
  rd c = frame msg ++ rest ->
  len (Data msg) + 1 < 4294967296 ->
  readPacket c = (Ok msg, set_rd c rest).
Proof.
  intros Hc Hrd Hlen. unfold readPacket, bind.
  unfold frame in Hrd. rewrite <- app_assoc in Hrd.
  assert (Hn : 0 <= len (Data msg) + 1 < 4294967296)
    by (unfold len in *; lia).
  change 4%nat with (length (PutUint32 (uint32 (len (Data msg) + 1)))).
  rewrite (ReadFull_app _ _ c Hc Hrd).
  rewrite uint32_small by exact Hn.
  rewrite <- (app_nil_r (PutUint32 _)), Uint32_PutUint32 by exact Hn.
  replace (Z.to_nat (len (Data msg) + 1))
    with (length (Code msg :: Data msg))
    by (unfold len; cbn [length]; lia).
  rewrite (ReadFull_app (Code msg :: Data msg) rest); [|exact Hc|reflexivity].
  destruct msg, c. reflexivity.
Qed.

(** ** Client: reading actions *)

Section ClientFacts.

Import Client.

(** What the parser accepts: the code of the packet, one of
    [a c d r t y]. *)
Lemma parseAction_Ok (msg : Message) (a : Action) :
  parseAction msg = Ok a ->
  ActCode a = Code msg
  /\ In (Code msg) [ActAccept; ActContinue; ActDiscard; ActReject;
                    ActTempFail; ActReplyCode].
Proof.
  unfold parseAction.
  destruct (Byte.eqb (Code msg) ActAccept) eqn:Ea;
  [apply Byte.byte_dec_bl in Ea|];
  [|destruct (Byte.eqb (Code msg) ActContinue) eqn:Ec;
    [apply Byte.byte_dec_bl in Ec|]];
  [| |destruct (Byte.eqb (Code msg) ActDiscard) eqn:Ed;
      [apply Byte.byte_dec_bl in Ed|]];
  [| | |destruct (Byte.eqb (Code msg) ActReject) eqn:Er;
        [apply Byte.byte_dec_bl in Er|]];
  [| | | |destruct (Byte.eqb (Code msg) ActTempFail) eqn:Et;
          [apply Byte.byte_dec_bl in Et|]];
  cbn [orb];
  try (intros H; inversion H; subst; cbn [ActCode actionOf];
       split; [reflexivity|]; rewrite ?Ea, ?Ec, ?Ed, ?Er, ?Et;
       cbn; tauto).
  destruct (Byte.eqb (Code msg) ActReplyCode) eqn:Ey; [|discriminate].
  apply Byte.byte_dec_bl in Ey.
  destruct (len (Data msg) <=? 4); [discriminate|].
  destruct (Atoi _); [|discriminate].
  intros H. inversion H; subst. cbn [ActCode]. split; [reflexivity|].
  rewrite Ey. cbn. tauto.
Qed.

(** The parser has no arm for [ActSkip]. *)
Lemma parseAction_skip (data : bytes) :
  parseAction {| Code := ActSkip; Data := data |}
  = Err (Errorf "action read: unexpected code: %v" 115).
Proof. reflexivity. Qed.

Lemma parseAction_never_skip (msg : Message) (a : Action) :
  parseAction msg = Ok a -> ActCode a <> ActSkip.
Proof.
  intros H. apply parseAction_Ok in H. destruct H as [-> Hin].
  cbn in Hin. intros Hs. rewrite Hs in Hin.
  intuition discriminate.
Qed.

Lemma parseAction_returns (msg : Message) :
  (exists a, parseAction msg = Ok a) \/ (exists e, parseAction msg = Err e).
Proof.
  unfold parseAction.
  destruct (_ || _); [left; eexists; reflexivity|].
  destruct (Byte.eqb _ ActReplyCode); [|right; eexists; reflexivity].
  destruct (_ <=? _); [right; eexists; reflexivity|].
  destruct (Atoi _); [left|right]; eexists; reflexivity.
Qed.

(** One step of the session on the connection. *)
Lemma onConn_readPacket (s : ClientSession) :
  onConn readPacket s
  = (fst (readPacket (conn s)), set_conn s (snd (readPacket (conn s)))).
Proof. unfold onConn. destruct (readPacket (conn s)). reflexivity. Qed.

(** The loop of [readAction] leaves the masks and the written bytes
    alone, only consumes the stream, and is given enough fuel. *)
Lemma readAction_loop_inv (fuel : nat) (s : ClientSession) :
  let s' := snd (readAction_loop fuel s) in
  same_out (conn s) (conn s')
  /\ ActionOpts s' = ActionOpts s
  /\ ProtocolOpts s' = ProtocolOpts s
  /\ (needAbort s = false -> needAbort s' = false).
Proof.
  revert s. induction fuel as [|fuel IH]; intros s; cbn [readAction_loop].
  - cbn. split; [apply same_out_refl|]. repeat split. exact (fun H => H).
  - unfold_go. rewrite onConn_readPacket.
    pose proof (readPacket_out (conn s)) as Hout.
    destruct (readPacket (conn s)) as [[msg|e| |] c1]; cbn [fst snd] in *;
      try (split; [exact Hout|]; repeat split; exact (fun H => H)).
    destruct (Byte.eqb (Code msg) "p"%byte).
    + specialize (IH (set_conn s c1)). cbn [conn set_conn] in IH.
      destruct IH as (H1 & H2 & H3 & H4).
      split; [eapply same_out_trans; [exact Hout|exact H1]|].
      split; [exact H2|]. split; [exact H3|exact H4].
    + destruct (negb (Byte.eqb (Code msg) ActContinue)); cbn;
        (split; [exact Hout|]); repeat split; exact (fun H => H).
Qed.

Lemma readAction_loop_total (fuel : nat) (s : ClientSession) :
  (length (rd (conn s)) < fuel)%nat ->
  fst (readAction_loop fuel s) <> NoFuel.
Proof.
  revert s. induction fuel as [|fuel IH]; intros s Hlt; [lia|].
  cbn [readAction_loop]. unfold_go. rewrite onConn_readPacket.
  destruct (readPacket (conn s)) as [[msg|e| |] c1] eqn:E; cbn [fst snd];
    try discriminate.
  - apply readPacket_Ok in E.
    destruct (Byte.eqb (Code msg) "p"%byte).
    + apply IH. cbn [conn set_conn]. lia.
    + destruct (parseAction_returns msg) as [[a Ha]|[e He]];
        destruct (negb (Byte.eqb (Code msg) ActContinue)); cbn;
        rewrite ?Ha, ?He; discriminate.
  - (* the transport does not produce [NoFuel] *)
    exfalso. revert E. apply readPacket_fuel.
Qed.

(** [readAction] always comes back. *)
Lemma readAction_total (s : ClientSession) : fst (readAction s) <> NoFuel.
Proof. unfold readAction. apply readAction_loop_total. lia. Qed.

(** No call of [readAction] yields the skip action. *)
Lemma readAction_loop_never_skip (fuel : nat) (s s' : ClientSession)
    (a : Action) :
  readAction_loop fuel s = (Ok a, s') -> ActCode a <> ActSkip.
Proof.
  revert s. induction fuel as [|fuel IH]; intros s; cbn [readAction_loop];
    [discriminate|].
  unfold_go. rewrite onConn_readPacket.
  destruct (readPacket (conn s)) as [[msg|e| |] c1]; cbn [fst snd];
    try discriminate.
  destruct (Byte.eqb (Code msg) "p"%byte); [apply IH|].
  destruct (negb (Byte.eqb (Code msg) ActContinue)); cbn;
    intros H; inversion H as [[Hp Hs]];
    eapply parseAction_never_skip; exact Hp.
Qed.

(** The flag after [readAction]: cleared by an action other than
    continue, kept by continue; progress packets do not count. *)
Lemma readAction_loop_needAbort (fuel : nat) (s s' : ClientSession)
    (a : Action) :
  readAction_loop fuel s = (Ok a, s') ->
  needAbort s'
  = if Byte.eqb (ActCode a) ActContinue then needAbort s else false.
Proof.
  revert s. induction fuel as [|fuel IH]; intros s; cbn [readAction_loop];
    [discriminate|].
  unfold_go. rewrite onConn_readPacket.
  destruct (readPacket (conn s)) as [[msg|e| |] c1]; cbn [fst snd];
    try discriminate.
  destruct (Byte.eqb (Code msg) "p"%byte).
  - intros H. apply IH in H. exact H.
  - destruct (Byte.eqb (Code msg) ActContinue) eqn:Ec; cbn;
      intros H; inversion H as [[Hp Hs]];
      apply parseAction_Ok in Hp; destruct Hp as [-> _]; rewrite Ec;
      reflexivity.
Qed.

End ClientFacts.

(** ** Client: option negotiation *)

Section NegotiateFacts.

Import Client.

Lemma writePacket_ok (msg : Message) (c : Conn) :
  closed c = false -> wr_broken c = false ->
  writePacket msg c = (Ok tt, set_wr c (wr c ++ frame msg)).
Proof.
  intros Hc Hb. unfold writePacket, Write. rewrite Hc, Hb. reflexivity.
Qed.

Lemma len_optneg (v a p : Z) : len (Data (optneg v a p)) = 12.
Proof. reflexivity. Qed.

(** The current client after a successful exchange: the masks are the
    ones the milter sent. *)
Lemma negotiate_Ok (a p v a' p' : Z) (s : ClientSession) (rest : bytes) :
  closed (conn s) = false -> wr_broken (conn s) = false ->
  rd (conn s) = frame (optneg v a' p') ++ rest ->
  2 <= v < 4294967296 ->
  0 <= a' < 4294967296 -> 0 <= p' < 4294967296 ->
  negotiate a p s
  = (Ok tt,
     {| conn := {| rd := rest;
                   wr := wr (conn s)
                         ++ frame (optneg clientProtocolVersion
                                     (uint32 a) (uint32 p));
                   wr_broken := false; closed := false |};
        ActionOpts := a'; ProtocolOpts := p'; needAbort := true |}).
Proof.
  intros Hc Hb Hrd Hv Ha Hp. unfold negotiate. unfold_go.
  unfold onConn at 1.
  change {| Code := CodeOptNeg;
            Data := PutUint32 clientProtocolVersion
                    ++ PutUint32 (uint32 a) ++ PutUint32 (uint32 p) |}
    with (optneg clientProtocolVersion (uint32 a) (uint32 p)).
  rewrite (writePacket_ok _ _ Hc Hb).
  unfold onConn. cbn [conn set_conn].
  rewrite (readPacket_frame _ (optneg v a' p') rest);
    [|exact Hc|exact Hrd|rewrite len_optneg; lia].
  cbn [Code optneg]. change (Byte.eqb CodeOptNeg CodeOptNeg) with true.
  cbn [negb]. rewrite len_optneg. change (12 <? 4 * 3) with false.
  cbv iota.
  change (Data (optneg v a' p'))
    with (PutUint32 v ++ PutUint32 a' ++ PutUint32 p').
  rewrite Uint32_PutUint32 by lia.
  change (skipn 4 (PutUint32 v ++ PutUint32 a' ++ PutUint32 p'))
    with (PutUint32 a' ++ PutUint32 p').
  change (skipn 8 (PutUint32 v ++ PutUint32 a' ++ PutUint32 p'))
    with (PutUint32 p' ++ []).
  rewrite !Uint32_PutUint32 by lia.
  destruct (Z.ltb_spec v clientProtocolVersion) as [Hlt|_];
    [unfold clientProtocolVersion in Hlt; lia|].
  simpl_session. rewrite Hc, Hb. reflexivity.
Qed.

(** The earlier client after a successful exchange: the masks are the
    AND of the offered ones and the ones the milter sent. *)
Lemma negotiate_earlier_Ok (a p v a' p' : Z) (s : ClientSession)
    (rest : bytes) :
  closed (conn s) = false -> wr_broken (conn s) = false ->
  rd (conn s) = frame (optneg v a' p') ++ rest ->
  2 <= v < 4294967296 ->
  0 <= a' < 4294967296 -> 0 <= p' < 4294967296 ->
  negotiate_earlier a p s
  = (Ok tt,
     {| conn := {| rd := rest;
                   wr := wr (conn s)
                         ++ frame (optneg protocolVersion
                                     (uint32 a) (uint32 p));
                   wr_broken := false; closed := false |};
        ActionOpts := Z.land (uint32 a) a';
        ProtocolOpts := Z.land (uint32 p) p'; needAbort := true |}).
Proof.
  intros Hc Hb Hrd Hv Ha Hp. unfold negotiate_earlier. unfold_go.
  unfold onConn at 1.
  change {| Code := CodeOptNeg;
            Data := PutUint32 protocolVersion
                    ++ PutUint32 (uint32 a) ++ PutUint32 (uint32 p) |}
    with (optneg protocolVersion (uint32 a) (uint32 p)).
  rewrite (writePacket_ok _ _ Hc Hb).
  unfold onConn. cbn [conn set_conn].
  rewrite (readPacket_frame _ (optneg v a' p') rest);
    [|exact Hc|exact Hrd|rewrite len_optneg; lia].
  cbn [Code optneg]. change (Byte.eqb CodeOptNeg CodeOptNeg) with true.
  cbn [negb]. rewrite len_optneg. change (12 <? 4 * 3) with false.
  cbv iota.
  change (Data (optneg v a' p'))
    with (PutUint32 v ++ PutUint32 a' ++ PutUint32 p').
  rewrite Uint32_PutUint32 by lia.
  change (skipn 4 (PutUint32 v ++ PutUint32 a' ++ PutUint32 p'))
    with (PutUint32 a' ++ PutUint32 p').
  change (skipn 8 (PutUint32 v ++ PutUint32 a' ++ PutUint32 p'))
    with (PutUint32 p' ++ []).
  rewrite !Uint32_PutUint32 by lia.
  destruct (Z.ltb_spec v protocolVersion) as [Hlt|_];
    [unfold protocolVersion in Hlt; lia|].
  simpl_session. rewrite Hc, Hb. reflexivity.
Qed.

Lemma submask_land_l (a b : Z) : submask (Z.land a b) a.
Proof.
  unfold submask. rewrite (Z.land_comm a b), <- Z.land_assoc, Z.land_diag.
  reflexivity.
Qed.

Lemma submask_land_r (a b : Z) : submask (Z.land a b) b.
Proof.
  unfold submask. rewrite <- Z.land_assoc, Z.land_diag. reflexivity.
Qed.

End NegotiateFacts.

(** C1 on the current client.  The client offers the action mask
    [OptAddHeader] and an empty protocol mask; the milter answers with
    version 2, the action mask [OptAddHeader|OptQuarantine] and the
    protocol mask [OptNoBody].  The negotiation succeeds and the session
    holds the masks of the milter as they came: neither is within the
    offered mask, and neither is the AND of the two sides. *)
Theorem negotiate_keeps_milter_masks :
  let offeredActions := OptAddHeader in
  let offeredProtocol := 0 in
  let r := Client.negotiate offeredActions offeredProtocol
             (newSession (frame (optneg 2 (Z.lor OptAddHeader OptQuarantine)
                                         OptNoBody))) in
  fst r = Ok tt
  /\ Client.ActionOpts (snd r) = Z.lor OptAddHeader OptQuarantine
  /\ Client.ProtocolOpts (snd r) = OptNoBody
  /\ Client.needAbort (snd r) = true
  /\ Client.ActionOpts (snd r)
     <> Z.land offeredActions (Z.lor OptAddHeader OptQuarantine)
  /\ Client.ProtocolOpts (snd r) <> Z.land offeredProtocol OptNoBody
  /\ ~ submask (Client.ActionOpts (snd r)) offeredActions
  /\ ~ submask (Client.ProtocolOpts (snd r)) offeredProtocol.
Proof.
  cbv zeta.
  assert (Hrange : forall v, (0 <=? v) && (v <? 4294967296) = true ->
                             0 <= v < 4294967296) by (intros v; lia).
  rewrite (negotiate_Ok OptAddHeader 0 2 (Z.lor OptAddHeader OptQuarantine)
             OptNoBody
             (newSession (frame (optneg 2 (Z.lor OptAddHeader OptQuarantine)
                                         OptNoBody))) []);
    [|reflexivity|reflexivity|symmetry; apply app_nil_r|lia
     |apply Hrange; reflexivity|apply Hrange; reflexivity].
  cbn [fst snd Client.ActionOpts Client.ProtocolOpts Client.needAbort].
  unfold submask.
  repeat split; try reflexivity; vm_compute; discriminate.
Qed.

(** ** Frame codec: a zero length *)

(** A length prefix of zero makes [readPacket] index an empty slice. *)
Lemma readPacket_zero_length (c : Conn) (rest : bytes) :
  closed c = false ->
  rd c = x00 :: x00 :: x00 :: x00 :: rest ->
  fst (readPacket c) = Panic.
Proof.
  intros Hc Hrd. unfold readPacket, bind.
  change 4%nat with (length [x00; x00; x00; x00]).
  rewrite (ReadFull_app [x00; x00; x00; x00] rest c Hc Hrd).
  cbn [Uint32]. change (Z.to_nat _) with O.
  reflexivity.
Qed.

(** A stream that ends before the length prefix is complete gives an
    error, [io.EOF] on an empty stream. *)
Lemma readPacket_short_read (c : Conn) :
  closed c = false ->
  (length (rd c) < 4)%nat ->
  fst (readPacket c)
  = Err (match rd c with [] => io_EOF | _ => io_ErrUnexpectedEOF end).
Proof.
  intros Hc Hlen. unfold readPacket, bind, ReadFull. rewrite Hc.
  destruct (rd c) as [|b r]; [reflexivity|].
  destruct (Nat.ltb_spec (length (b :: r)) 4); [reflexivity|lia].
Qed.

(** A stream that ends inside the packet body gives an error as well. *)
Lemma readPacket_short_body (c : Conn) (n : Z) (rest : bytes) :
  closed c = false ->
  rd c = PutUint32 n ++ rest ->
  0 < n < 4294967296 ->
  len rest < n ->
  fst (readPacket c)
  = Err (match rest with [] => io_EOF | _ => io_ErrUnexpectedEOF end).
Proof.
  intros Hc Hrd Hn Hlen. unfold readPacket, bind.
  change 4%nat with (length (PutUint32 n)).
  rewrite (ReadFull_app _ _ c Hc Hrd).
  rewrite <- (app_nil_r (PutUint32 n)), Uint32_PutUint32 by lia.
  unfold ReadFull. destruct (Z.to_nat n) as [|k] eqn:Ek; [lia|].
  cbn [closed set_rd rd]. rewrite Hc.
  destruct rest as [|b r]; [reflexivity|].
  destruct (Nat.ltb_spec (length (b :: r)) (S k)) as [_|Hge];
    [reflexivity|]. unfold len in Hlen. lia.
Qed.

Lemma byteZ_zero (b : byte) : byteZ b = 0 -> b = x00.
Proof.
  intros H. rewrite <- (byte_of_Z_byteZ b), H. reflexivity.
Qed.

(** The zero length is the only way into the panic: on every other
    stream [readPacket] returns a packet or an error. *)
Lemma readPacket_Panic (c : Conn) :
  fst (readPacket c) = Panic ->
  exists rest, rd c = x00 :: x00 :: x00 :: x00 :: rest.
Proof.
  unfold readPacket, bind.
  destruct (ReadFull 4 c) as [[hdr| | |] c1] eqn:E1; cbn [fst];
    try discriminate.
  - apply ReadFull_Ok in E1. destruct E1 as [Hrd Hlen].
    destruct hdr as [|b0 [|b1 [|b2 [|b3 [|? ?]]]]]; try discriminate Hlen.
    cbn [Uint32].
    set (n := Z.lor _ _).
    destruct (ReadFull (Z.to_nat n) c1) as [[data| | |] c2] eqn:E2;
      cbn [fst]; try discriminate.
    + destruct data; [|discriminate]. intros _.
      apply ReadFull_Ok in E2. destruct E2 as [_ Hz]. cbn [length] in Hz.
      pose proof (byteZ_range b0) as R0. pose proof (byteZ_range b1) as R1.
      pose proof (byteZ_range b2) as R2. pose proof (byteZ_range b3) as R3.
      assert (Hn : n = 0).
      { assert (0 <= n); [|lia]. subst n.
        repeat (apply Z.lor_nonneg; split);
          try (apply Z.shiftl_nonneg); lia. }
      subst n. apply Z.lor_eq_0_iff in Hn. destruct Hn as [H01 H23].
      apply Z.lor_eq_0_iff in H01. destruct H01 as [H0 H1].
      apply Z.lor_eq_0_iff in H23. destruct H23 as [H2 H3].
      apply Z.shiftl_eq_0_iff in H0; [|lia].
      apply Z.shiftl_eq_0_iff in H1; [|lia].
      apply Z.shiftl_eq_0_iff in H2; [|lia].
      apply byteZ_zero in H0, H1, H2, H3. subst.
      exists (rd c1). exact Hrd.
    + intros _. exfalso. revert E2. unfold ReadFull.
      destruct (Z.to_nat n); [discriminate|].
      destruct (closed c1); [discriminate|].
      destruct (rd c1); [discriminate|].
      destruct (_ <? _)%nat; discriminate.
  - intros _. exfalso. revert E1. unfold ReadFull.
    destruct (closed c); [discriminate|].
    destruct (rd c); [discriminate|].
    destruct (_ <? _)%nat; discriminate.
Qed.

(** C2.  The stream of four zero bytes is a complete length prefix with
    the value 0; [readPacket] then reads an empty packet body and takes
    its first byte: the outcome is a panic, neither a packet nor an
    error. *)
Theorem readPacket_zero_length_panics :
  fst (readPacket (freshConn [x00; x00; x00; x00])) = Panic
  /\ (forall msg, fst (readPacket (freshConn [x00; x00; x00; x00])) <> Ok msg)
  /\ (forall e, fst (readPacket (freshConn [x00; x00; x00; x00])) <> Err e).
Proof.
  rewrite (readPacket_zero_length (freshConn [x00; x00; x00; x00]) []
             eq_refl eq_refl).
  repeat split; discriminate.
Qed.

(** ** Client: body chunks *)

Section BodyChunkFacts.

Import Client.

Lemma readAction_out (s : ClientSession) :
  same_out (conn s) (conn (snd (readAction s))).
Proof. unfold readAction. apply readAction_loop_inv. Qed.

Lemma wrapErr_snd {S A} (tag : string) (c : M S A) (s : S) :
  snd (wrapErr tag c s) = snd (c s).
Proof. unfold wrapErr. destruct (c s) as [[ | | | ] ?]; reflexivity. Qed.

Lemma replyUnless_out (noReply : Z) (tag : string) (s : ClientSession) :
  same_out (conn s) (conn (snd (replyUnless noReply tag s))).
Proof.
  unfold replyUnless. unfold bind, gets, ret.
  destruct (negb (ProtocolOption s noReply)).
  - rewrite wrapErr_snd. apply readAction_out.
  - apply same_out_refl.
Qed.

End BodyChunkFacts.

(** C9.  When the negotiated protocol mask has the no-body bit, [BodyChunk]
    returns the synthetic continue action and no error, whatever the size
    of the chunk, and the session, its transport included, is left as it
    was: nothing is written. *)
Theorem BodyChunk_suppressed (s : Client.ClientSession) (chunk : bytes) :
  Z.land (Client.ProtocolOpts s) OptNoBody <> 0 ->
  Client.BodyChunk chunk s = (Ok (Client.actionOf ActContinue), s).
Proof.
  intros Hbit. unfold Client.BodyChunk. unfold_go.
  destruct (Z.eqb_spec (Z.land (Client.ProtocolOpts s) OptNoBody) 0)
    as [Heq|_]; [contradiction|].
  reflexivity.
Qed.

(** C3, as amended.  With the no-body bit clear in the negotiated protocol
    mask: a chunk longer than 65535 bytes makes [BodyChunk] fail with the
    too-big-chunk error and leaves the session and its transport
    untouched; for a chunk of at most 65535 bytes, on a transport that
    takes the write, exactly the frame of one [B] packet carrying the
    chunk is added to what was written. *)
Theorem BodyChunk_size_check (s : Client.ClientSession) (chunk : bytes) :
  Z.land (Client.ProtocolOpts s) OptNoBody = 0 ->
  (len chunk > MaxBodyChunk ->
   Client.BodyChunk chunk s
   = (Err (Errorf "milter: body chunk: too big body chunk: %v" (len chunk)),
      s))
  /\ (len chunk <= MaxBodyChunk ->
      closed (Client.conn s) = false ->
      wr_broken (Client.conn s) = false ->
      wr (Client.conn (snd (Client.BodyChunk chunk s)))
      = wr (Client.conn s) ++ frame {| Code := CodeBody; Data := chunk |}).
Proof.
  intros Hbit. unfold Client.BodyChunk. unfold_go.
  rewrite Hbit. cbn [Z.eqb negb]. split.
  - intros Hbig.
    destruct (Z.gtb_spec (len chunk) MaxBodyChunk) as [_|Hle];
      [reflexivity|lia].
  - intros Hsmall Hc Hb.
    destruct (Z.gtb_spec (len chunk) MaxBodyChunk) as [Hgt|_]; [lia|].
    unfold Client.onConn. rewrite (writePacket_ok _ _ Hc Hb).
    pose proof (replyUnless_out OptNoBodyReply "milter: body chunk: %w"
                  (Client.set_conn s
                     (set_wr (Client.conn s)
                        (wr (Client.conn s)
                         ++ frame {| Code := CodeBody; Data := chunk |}))))
      as (Hwr & _ & _).
    destruct (Client.replyUnless _ _ _) as [[a|e| |] s']; exact Hwr.
Qed.

Lemma len_bigChunk : len bigChunk = 70000.
Proof. unfold len, bigChunk. rewrite repeat_length. reflexivity. Qed.

(** C9 at a chunk of 70000 bytes. *)
Lemma BodyChunk_suppressed_witness :
  Z.land (Client.ProtocolOpts sessionNoBody) OptNoBody <> 0
  /\ Client.BodyChunk bigChunk sessionNoBody
     = (Ok (Client.actionOf ActContinue), sessionNoBody).
Proof.
  assert (H : Z.land (Client.ProtocolOpts sessionNoBody) OptNoBody <> 0)
    by discriminate.
  split; [exact H|].
  apply (BodyChunk_suppressed sessionNoBody bigChunk H).
Defined.

(** C3, as stated, fails: with the no-body bit set, a chunk of 70000 bytes
    is answered with the synthetic continue action, not with an error. *)
Lemma BodyChunk_oversize_not_rejected :
  len bigChunk > 65535
  /\ fst (Client.BodyChunk bigChunk sessionNoBody)
     = Ok (Client.actionOf ActContinue)
  /\ (forall e, fst (Client.BodyChunk bigChunk sessionNoBody) <> Err e).
Proof.
  split; [rewrite len_bigChunk; reflexivity|].
  assert (H : Client.BodyChunk bigChunk sessionNoBody
              = (Ok (Client.actionOf ActContinue), sessionNoBody))
    by reflexivity.
  rewrite H. split; [reflexivity|discriminate].
Qed.

(** C3, as amended, at a session without the no-body bit: the chunk of
    70000 bytes is refused and the chunk ["hi"] is written as one packet. *)
Lemma BodyChunk_size_check_witness :
  Z.land (Client.ProtocolOpts sessionPlain) OptNoBody = 0
  /\ Client.BodyChunk bigChunk sessionPlain
     = (Err (Errorf "milter: body chunk: too big body chunk: %v"
               (len bigChunk)), sessionPlain)
  /\ wr (Client.conn (snd (Client.BodyChunk ["h"; "i"]%byte sessionPlain)))
     = wr (Client.conn sessionPlain) ++ packet CodeBody ["h"; "i"]%byte.
Proof.
  split; [reflexivity|]. split.
  - apply (proj1 (BodyChunk_size_check sessionPlain bigChunk eq_refl)).
    rewrite len_bigChunk. reflexivity.
  - apply (proj2 (BodyChunk_size_check sessionPlain ["h"; "i"]%byte eq_refl)).
    + discriminate.
    + reflexivity.
    + reflexivity.
Defined.

(** ** Client: the abort flag, [End] and [Close] *)

Section EndFacts.

Import Client.

(** Draining the modify actions never touches the flag. *)
Lemma readModifyActs_loop_needAbort (fuel : nat)
    (acc : list ModifyAction) (s : ClientSession) :
  needAbort (snd (readModifyActs_loop fuel acc s)) = needAbort s.
Proof.
  revert acc s. induction fuel as [|fuel IH]; intros acc s;
    cbn [readModifyActs_loop]; [reflexivity|].
  unfold_go. rewrite onConn_readPacket.
  destruct (readPacket (conn s)) as [[msg|e| |] c1]; cbn [fst snd];
    try reflexivity.
  destruct (Byte.eqb (Code msg) "p"%byte); [rewrite IH; reflexivity|].
  destruct (isModifyActCode (Code msg)).
  - destruct (parseModifyAct msg); cbn [snd]; try reflexivity.
    rewrite IH. reflexivity.
  - destruct (parseAction msg); reflexivity.
Qed.

Lemma onConn_needAbort {A} (c : M Conn A) (s : ClientSession) :
  needAbort (snd (onConn c s)) = needAbort s.
Proof. unfold onConn. destruct (c (conn s)). reflexivity. Qed.

Lemma End_needAbort (s : ClientSession) :
  needAbort (snd (End_ s)) = needAbort s.
Proof.
  unfold End_, bind.
  pose proof (wrapErr_snd "milter: end: %w"
                (onConn (writePacket {| Code := CodeEOB; Data := [] |})) s)
    as Hs.
  destruct (wrapErr _ (onConn (writePacket _)) s) as [r s1].
  cbn [snd] in Hs.
  assert (H1 : needAbort s1 = needAbort s)
    by (rewrite Hs; apply onConn_needAbort).
  destruct r as [[]|e| |]; cbn [snd]; try exact H1.
  rewrite wrapErr_snd. unfold readModifyActs.
  rewrite readModifyActs_loop_needAbort. exact H1.
Qed.

(** The flag after a reply that [readAction] read. *)
Lemma readAction_needAbort (s s' : ClientSession) (a : Action) :
  readAction s = (Ok a, s') ->
  needAbort s'
  = if Byte.eqb (ActCode a) ActContinue then needAbort s else false.
Proof. unfold readAction. apply readAction_loop_needAbort. Qed.

(** [BodyChunk] never hands the skip action to its caller. *)
Lemma BodyChunk_never_skip (chunk : bytes) (s s' : ClientSession)
    (a : Action) :
  BodyChunk chunk s = (Ok a, s') -> ActCode a <> ActSkip.
Proof.
  unfold BodyChunk. unfold_go.
  destruct (negb _).
  { intros H. inversion H. discriminate. }
  destruct (len chunk >? MaxBodyChunk); [discriminate|].
  destruct (onConn _ s) as [[[]|e| |] s1]; try discriminate.
  unfold replyUnless. unfold_go.
  destruct (negb (ProtocolOption s1 OptNoBodyReply)).
  - unfold readAction.
    destruct (readAction_loop _ s1) as [[a'|e| |] s2] eqn:E;
      try discriminate.
    intros H. inversion H; subst.
    eapply readAction_loop_never_skip. exact E.
  - intros H. inversion H. discriminate.
Qed.

(** Every successful negotiation sets the flag. *)
Lemma negotiate_sets_needAbort (a p : Z) (s s' : ClientSession) :
  negotiate a p s = (Ok tt, s') -> needAbort s' = true.
Proof.
  unfold negotiate. unfold_go.
  destruct (onConn (writePacket _) s) as [[[]|e| |] s1]; try discriminate.
  destruct (onConn readPacket s1) as [[msg|e| |] s2]; try discriminate.
  destruct (negb _); [discriminate|].
  destruct (len (Data msg) <? 4 * 3); [discriminate|].
  destruct (Uint32 (Data msg)) as [v|]; [|discriminate].
  destruct (Uint32 (skipn 4 (Data msg))) as [a'|]; [|discriminate].
  destruct (Uint32 (skipn 8 (Data msg))) as [p'|]; [|discriminate].
  destruct (v <? clientProtocolVersion); [discriminate|].
  intros H. inversion H. reflexivity.
Qed.

(** The reply to a command: an action other than continue clears the
    flag, continue (real or synthetic) and progress packets keep it. *)
Lemma replyUnless_needAbort (noReply : Z) (tag : string)
    (s s' : ClientSession) (a : Action) :
  replyUnless noReply tag s = (Ok a, s') ->
  needAbort s'
  = if Byte.eqb (ActCode a) ActContinue then needAbort s else false.
Proof.
  unfold replyUnless. unfold_go.
  destruct (negb (ProtocolOption s noReply)).
  - destruct (readAction s) as [[a'|e| |] s1] eqn:E; try discriminate.
    intros H. inversion H; subst. apply readAction_needAbort. exact E.
  - intros H. inversion H; subst. reflexivity.
Qed.

Lemma parseHeaderNameValue_returns (act : ModifyAction) (data : bytes) :
  (exists a, parseHeaderNameValue act data = Ok a)
  \/ (exists e, parseHeaderNameValue act data = Err e).
Proof.
  unfold parseHeaderNameValue.
  destruct (CStrings.IndexByte data NUL); [|right; eexists; reflexivity].
  destruct (_ =? _)%nat; [right|left]; eexists; reflexivity.
Qed.

Lemma parseModifyAct_returns (msg : Message) :
  (exists a, parseModifyAct msg = Ok a)
  \/ (exists e, parseModifyAct msg = Err e).
Proof.
  unfold parseModifyAct.
  destruct (_ || _); [left; eexists; reflexivity|].
  destruct (Byte.eqb _ ActQuarantine); [left; eexists; reflexivity|].
  destruct (Byte.eqb _ ActReplBody); [left; eexists; reflexivity|].
  destruct (Byte.eqb _ ActChangeFrom); [left; eexists; reflexivity|].
  destruct (_ || _).
  - destruct (Uint32 (Data msg)); [|right; eexists; reflexivity].
    apply parseHeaderNameValue_returns.
  - destruct (Byte.eqb _ ActAddHeader);
      [apply parseHeaderNameValue_returns|right; eexists; reflexivity].
Qed.

(** [readModifyActs], and with it [End], always comes back. *)
Lemma readModifyActs_loop_total (fuel : nat) (acc : list ModifyAction)
    (s : ClientSession) :
  (length (rd (conn s)) < fuel)%nat ->
  fst (readModifyActs_loop fuel acc s) <> NoFuel.
Proof.
  revert acc s. induction fuel as [|fuel IH]; intros acc s Hlt; [lia|].
  cbn [readModifyActs_loop]. unfold_go. rewrite onConn_readPacket.
  destruct (readPacket (conn s)) as [[msg|e| |] c1] eqn:E; cbn [fst snd];
    try discriminate.
  - apply readPacket_Ok in E.
    destruct (Byte.eqb (Code msg) "p"%byte).
    + apply IH. cbn [conn set_conn]. lia.
    + destruct (isModifyActCode (Code msg)).
      * destruct (parseModifyAct_returns msg) as [[a Ha]|[e He]];
          rewrite ?Ha, ?He; [|discriminate].
        apply IH. cbn [conn set_conn]. lia.
      * destruct (parseAction_returns msg) as [[a Ha]|[e He]];
          rewrite ?Ha, ?He; discriminate.
  - exfalso. revert E. apply readPacket_fuel.
Qed.

Lemma readModifyActs_total (s : ClientSession) :
  fst (readModifyActs s) <> NoFuel.
Proof. unfold readModifyActs. apply readModifyActs_loop_total. lia. Qed.

End EndFacts.

(** C4.  The client negotiates (the flag is set), sends [End], and the
    milter answers with the terminal action accept.  [End] returns that
    action, and the flag is still set: [readModifyActs] parses the
    terminal action without clearing it, where [readAction] would have. *)
Theorem End_keeps_needAbort :
  let s1 := snd (Client.negotiate 0 0
                   (newSession (frame (optneg 2 0 0)
                                ++ packet ActAccept []))) in
  Client.needAbort s1 = true
  /\ fst (Client.End_ s1) = Ok ([], Client.actionOf ActAccept)
  /\ Client.needAbort (snd (Client.End_ s1)) = true.
Proof. vm_compute. repeat split. Qed.

(** The same reply to a command that reads it with [readAction] clears
    the flag. *)
Lemma Helo_accept_clears_needAbort :
  let s1 := snd (Client.negotiate 0 0
                   (newSession (frame (optneg 2 0 0)
                                ++ packet ActAccept []))) in
  fst (Client.Helo ["h"%byte] s1) = Ok (Client.actionOf ActAccept)
  /\ Client.needAbort (snd (Client.Helo ["h"%byte] s1)) = false.
Proof. vm_compute. repeat split. Qed.

(** C7.  After a negotiation with [OptSkip], the milter answers the first
    body chunk with the skip action.  [BodyReadFrom] returns the error of
    the action parser; what it wrote is the one [B] packet, no [E] packet:
    [End] was not called. *)
Theorem BodyReadFrom_skip_is_error :
  let s1 := snd (Client.negotiate 0 OptSkip
                   (newSession (frame (optneg 6 0 OptSkip)
                                ++ packet ActSkip []
                                ++ packet ActAccept []))) in
  let r := Client.BodyReadFrom [(["1"%byte], None); (["2"%byte], None)] s1 in
  Client.ProtocolOpts s1 = OptSkip
  /\ fst r = Err (Wrapf "milter: body chunk: %w"
                   (Errorf "action read: unexpected code: %v" 115))
  /\ wr (Client.conn (snd r))
     = wr (Client.conn s1) ++ packet CodeBody ["1"%byte].
Proof. vm_compute. repeat split. Qed.


(** On a transport that refuses the writes, [Close] returns the error of
    the Quit write and does not get to [conn.Close]. *)
Lemma Close_write_refused (s : Client.ClientSession) :
  closed (Client.conn s) = false ->
  wr_broken (Client.conn s) = true ->
  Client.Close s = (Err (Wrapf "milter: close: %w" net_ErrWrite), s).
Proof.
  intros Hc Hb. destruct s as [[r w b cl] a p ab].
  cbn [Client.conn closed wr_broken] in Hc, Hb. subst cl b.
  destruct ab; reflexivity.
Qed.


(** ** Server session *)

Section ServerFacts.

Context {IP : Type} (ParseIP : bytes -> IP)
        (CanonicalMIMEHeaderKey : bytes -> bytes)
        (serverProtocolVersion : Z)
        {B : Type} (handler : Server.Milter IP B) (NewMilter : B).

Import Server.

Local Abbreviation Process :=
  (Server.Process ParseIP CanonicalMIMEHeaderKey serverProtocolVersion
     handler).
Local Abbreviation handleCommand :=
  (Server.handleCommand ParseIP CanonicalMIMEHeaderKey
     serverProtocolVersion handler NewMilter).

(** Packets a callback sent change the connection only. *)
Lemma sendAll_fields (msgs : list Message) (m : milterSession B) :
  headers (sendAll msgs m) = headers m
  /\ macros (sendAll msgs m) = macros m
  /\ backend (sendAll msgs m) = backend m
  /\ actions (sendAll msgs m) = actions m
  /\ protocol (sendAll msgs m) = protocol m.
Proof.
  revert m. induction msgs as [|msg msgs IH]; intros m; cbn.
  - repeat split.
  - destruct (IH (snd (WritePacket msg m))) as (H1 & H2 & H3 & H4 & H5).
    unfold sendAll in *. rewrite H1, H2, H3, H4, H5.
    unfold WritePacket, Server.onConn.
    destruct (writePacket msg (conn m)). repeat split.
Qed.

Lemma sendAll_nil (m : milterSession B) : sendAll [] m = m.
Proof. reflexivity. Qed.


(** The arm of [Process] for an Abort packet. *)
Lemma Process_Abort (payload : bytes) (m : milterSession B) :
  let r := Abort handler (newModifier m) (backend m) in
  Process {| Code := CodeAbort; Data := payload |} m
  = (match ret_err r with
     | Some e => Err e
     | None => Ok None
     end,
     set_macros
       (set_headers (sendAll (sent r) (set_backend m (next r))) None)
       None).
Proof.
  cbv zeta. unfold Server.Process. cbn [Code]. eval_codes.
  unfold call. destruct (ret_err _); reflexivity.
Qed.




(** C10.  The session reads an Abort packet.  The Abort callback gets
    the modifier built from the session as it was, with the macros and
    the headers of before the abort; once it has returned, the macros
    and the headers of the session are empty.  The session writes no
    reply: beyond what the callback itself sent through the modifier,
    nothing is written, and the turn ends without error unless the
    callback returned one. *)
Theorem Abort_clears_after_callback (m : milterSession B)
    (payload rest : bytes) :
  closed (conn m) = false ->
  rd (conn m) = packet CodeAbort payload ++ rest ->
  len payload + 1 < 4294967296 ->
  let m0 := set_conn m (set_rd (conn m) rest) in
  let r := Abort handler (newModifier m0) (backend m) in
  let m' := snd (handleCommand m) in
  Macros (newModifier m0) = macros m
  /\ Headers (newModifier m0) = headers m
  /\ m' = set_macros
            (set_headers (sendAll (sent r) (set_backend m0 (next r))) None)
            None
  /\ macros m' = None
  /\ headers m' = None
  /\ (sent r = [] -> wr (conn m') = wr (conn m))
  /\ fst (handleCommand m)
     = match ret_err r with Some e => Err e | None => Ok tt end.
Proof.
  intros Hc Hrd Hlen. cbv zeta.
  unfold Server.handleCommand, bind, ReadPacket, Server.onConn.
  rewrite (readPacket_frame (conn m)
             {| Code := CodeAbort; Data := payload |} rest Hc Hrd Hlen).
  rewrite Process_Abort. cbn [backend set_conn].
  set (m0 := set_conn m (set_rd (conn m) rest)).
  set (r := Abort handler (newModifier m0) (backend m)).
  split; [reflexivity|]. split; [reflexivity|].
  destruct (ret_err r) as [e|]; cbn [fst snd];
    (split; [reflexivity|]); (split; [reflexivity|]);
    (split; [reflexivity|]); (split; [|reflexivity]);
    intros Hsent; rewrite Hsent; reflexivity.
Qed.

End ServerFacts.


(** C10 with the recording handler: the Abort callback was given the
    macro set before the abort, and the session has none afterwards and
    has written nothing. *)
Lemma Abort_clears_after_callback_witness :
  let m' := snd (Server.handleCommand noIP sameKey 2 Recorder []
                   sessionBeforeAbort) in
  closed (Server.conn sessionBeforeAbort) = false
  /\ rd (Server.conn sessionBeforeAbort) = packet CodeAbort [] ++ []
  /\ len ([] : bytes) + 1 < 4294967296
  /\ Server.backend m'
     = [ SawAbort {| Server.Macros := Some tlsMacros;
                     Server.Headers := None |} ]
  /\ Server.macros m' = None
  /\ Server.headers m' = None
  /\ wr (Server.conn m') = [].
Proof.
  cbv zeta.
  assert (Hlen : len ([] : bytes) + 1 < 4294967296) by reflexivity.
  destruct (Abort_clears_after_callback noIP sameKey 2 Recorder []
              sessionBeforeAbort [] [] eq_refl eq_refl Hlen)
    as (_ & _ & Hm & Hmac & Hhdr & Hwr & _).
  split; [reflexivity|]. split; [reflexivity|]. split; [exact Hlen|].
  split; [rewrite Hm; reflexivity|].
  split; [exact Hmac|]. split; [exact Hhdr|].
  apply Hwr. reflexivity.
Defined.

(** * Further properties of the code *)

(** ** Frame codec *)

(** X1.  Framing round trip.  A message whose length fits the 32-bit
    prefix, written by [writePacket] on a transport that takes the write,
    is read back by [readPacket] from the written bytes as the same
    message, and whatever follows on the stream is left unread. *)
Theorem writePacket_readPacket (msg : Message) (c1 c2 : Conn)
    (rest : bytes) :
  closed c1 = false -> wr_broken c1 = false ->
  len (Data msg) + 1 < 4294967296 ->
  closed c2 = false ->
  rd c2 = skipn (length (wr c1)) (wr (snd (writePacket msg c1))) ++ rest ->
  fst (writePacket msg c1) = Ok tt
  /\ readPacket c2 = (Ok msg, set_rd c2 rest).
Proof.
  intros Hc1 Hb1 Hlen Hc2 Hrd.
  rewrite (writePacket_ok msg c1 Hc1 Hb1) in *. cbn [fst snd wr set_wr] in *.
  split; [reflexivity|].
  rewrite skipn_app, skipn_all, Nat.sub_diag in Hrd. cbn [skipn app] in Hrd.
  apply readPacket_frame; assumption.
Qed.

Lemma writePacket_readPacket_witness :
  let msg := {| Code := CodeBody; Data := ["h"; "i"]%byte |} in
  let c2 := freshConn (packet CodeBody ["h"; "i"]%byte
                       ++ packet CodeEOB []) in
  fst (writePacket msg (freshConn [])) = Ok tt
  /\ readPacket c2 = (Ok msg, set_rd c2 (packet CodeEOB [])).
Proof.
  cbv zeta.
  apply (writePacket_readPacket
           {| Code := CodeBody; Data := ["h"; "i"]%byte |} (freshConn [])
           (freshConn (packet CodeBody ["h"; "i"]%byte ++ packet CodeEOB []))
           (packet CodeEOB [])); reflexivity.
Defined.

(** X2.  [readPacket] panics exactly when the connection is open and the
    stream starts with a length prefix of zero; on every other stream it
    returns a packet or an error. *)
Theorem readPacket_panics_iff (c : Conn) :
  fst (readPacket c) = Panic
  <-> closed c = false
      /\ exists rest, rd c = x00 :: x00 :: x00 :: x00 :: rest.
Proof.
  split.
  - intros H. split; [|apply readPacket_Panic; exact H].
    destruct (closed c) eqn:Hc; [|reflexivity].
    unfold readPacket, bind, ReadFull in H. rewrite Hc in H. discriminate H.
  - intros [Hc [rest Hrd]]. eapply readPacket_zero_length; eassumption.
Qed.

(** X3.  A stream that ends before a frame is complete makes [readPacket]
    return an error and no packet: [io.EOF] when the stream ends at a
    boundary the reader sees (nothing at all, or exactly the four length
    bytes), [io.ErrUnexpectedEOF] when it ends inside the length prefix or
    inside the body. *)
Theorem readPacket_truncated (c : Conn) (msg : Message) (more : bytes) :
  closed c = false ->
  len (Data msg) + 1 < 4294967296 ->
  more <> [] ->
  rd c ++ more = frame msg ->
  fst (readPacket c)
  = Err (if (length (rd c) =? 0)%nat || (length (rd c) =? 4)%nat
         then io_EOF else io_ErrUnexpectedEOF).
Proof.
  intros Hc Hlen Hmore Hrd.
  destruct (Nat.lt_ge_cases (length (rd c)) 4) as [Hlt|Hge].
  - rewrite (readPacket_short_read c Hc Hlt).
    destruct (rd c) as [|b r]; [reflexivity|].
    cbn [length] in *. destruct (length r) as [|[|[|n]]]; try reflexivity.
    lia.
  - unfold frame in Hrd.
    assert (Hn : 0 <= len (Data msg) + 1 < 4294967296)
      by (unfold len in *; lia).
    rewrite uint32_small in Hrd by exact Hn.
    set (hdr := PutUint32 (len (Data msg) + 1)) in *.
    assert (Hsplit : rd c = hdr ++ skipn 4 (rd c)).
    { rewrite <- (firstn_skipn 4 (rd c)) at 1. f_equal.
      assert (H4 : firstn 4 (rd c ++ more) = firstn 4 (rd c)).
      { rewrite firstn_app.
        replace (4 - length (rd c))%nat with 0%nat by lia.
        cbn [firstn]. apply app_nil_r. }
      rewrite <- H4, Hrd. reflexivity. }
    set (body := skipn 4 (rd c)) in *.
    assert (Hbody : body ++ more = Code msg :: Data msg).
    { rewrite Hsplit, <- app_assoc in Hrd.
      apply app_inv_head in Hrd. exact Hrd. }
    assert (Hshort : len body < len (Data msg) + 1).
    { apply (f_equal (@length byte)) in Hbody.
      rewrite length_app in Hbody. cbn [length] in Hbody.
      destruct more; [contradiction|]. cbn [length] in Hbody.
      unfold len. lia. }
    rewrite (readPacket_short_body c (len (Data msg) + 1) body Hc Hsplit);
      [|unfold len in *; lia|exact Hshort].
    rewrite Hsplit, length_app. change (length hdr) with 4%nat.
    destruct body as [|b r]; [reflexivity|].
    cbn [length]. replace (4 + S (length r))%nat
      with (S (S (S (S (S (length r)))))) by lia.
    reflexivity.
Qed.

Lemma readPacket_truncated_witness :
  fst (readPacket (freshConn [x00; x00; x00; "003"%byte; CodeBody]))
  = Err io_ErrUnexpectedEOF.
Proof.
  apply (readPacket_truncated
           (freshConn [x00; x00; x00; "003"%byte; CodeBody])
           {| Code := CodeBody; Data := ["h"; "i"]%byte |}
           ["h"; "i"]%byte); [reflexivity|reflexivity|discriminate
                              |reflexivity].
Defined.

(** ** C strings and line ends *)

Section MoreCStringFacts.

Import CStrings.

Lemma IndexByte_free (s : bytes) : ~ In NUL s -> IndexByte s NUL = None.
Proof.
  induction s as [|b s IH]; intros Hs; cbn; [reflexivity|].
  rewrite eqb_NUL_false by (intros ->; apply Hs; left; reflexivity).
  rewrite IH by (intros Hin; apply Hs; right; exact Hin). reflexivity.
Qed.

Lemma IndexByte_app_NUL (s t : bytes) :
  ~ In NUL s -> IndexByte (s ++ NUL :: t) NUL = Some (length s).
Proof.
  induction s as [|b s IH]; intros Hs; cbn; [reflexivity|].
  rewrite eqb_NUL_false by (intros ->; apply Hs; left; reflexivity).
  rewrite IH by (intros Hin; apply Hs; right; exact Hin). reflexivity.
Qed.

Lemma readCString_app_NUL (s t : bytes) :
  ~ In NUL s -> readCString (s ++ NUL :: t) = s.
Proof.
  intros Hs. unfold readCString. rewrite IndexByte_app_NUL by exact Hs.
  rewrite firstn_app, Nat.sub_diag, firstn_all. cbn [firstn].
  apply app_nil_r.
Qed.

Lemma readCString_free (s : bytes) : ~ In NUL s -> readCString s = s.
Proof.
  intros Hs. unfold readCString. rewrite IndexByte_free by exact Hs.
  reflexivity.
Qed.

(** The pieces of a split do not contain the separator. *)
Lemma Split_pieces_free (s : bytes) :
  Forall (fun piece => ~ In NUL piece) (Split s NUL).
Proof.
  induction s as [|b s IH]; cbn.
  - constructor; [intros []|constructor].
  - destruct (Byte.eqb b NUL) eqn:E.
    + constructor; [intros []|exact IH].
    + destruct (Split s NUL) as [|piece pieces].
      * constructor; [|constructor]. intros [->|[]]. rewrite eqb_refl in E.
        discriminate E.
      * inversion IH as [|? ? Hp Hps]; subst. constructor; [|exact Hps].
        intros [->|Hin]; [rewrite eqb_refl in E; discriminate E|].
        exact (Hp Hin).
Qed.

End MoreCStringFacts.

(** X4.  [readCString] returns the bytes before the first NUL: for a
    string [s] without NUL, it reads [s] back from [s] followed by a NUL
    and anything else, and returns [s] whole when no NUL follows. *)
Theorem readCString_reads_first (s t : bytes) :
  ~ In NUL s ->
  CStrings.readCString (s ++ NUL :: t) = s
  /\ CStrings.readCString s = s
  /\ CStrings.readCString (CStrings.appendCString [] s ++ t) = s.
Proof.
  intros Hs. split; [apply readCString_app_NUL; exact Hs|].
  split; [apply readCString_free; exact Hs|].
  unfold CStrings.appendCString. cbn [app]. rewrite <- app_assoc.
  apply readCString_app_NUL. exact Hs.
Qed.

Lemma readCString_reads_first_witness :
  ~ In NUL ["a"; "b"]%byte
  /\ CStrings.readCString (["a"; "b"] ++ NUL :: ["c"; x00; "d"])%byte
     = ["a"; "b"]%byte.
Proof.
  assert (H : ~ In NUL ["a"; "b"]%byte).
  { intros H. repeat (destruct H as [H|H]; [discriminate H|]). exact H. }
  split; [exact H|].
  apply (proj1 (readCString_reads_first ["a"; "b"]%byte
                  ["c"; x00; "d"]%byte H)).
Defined.

(** X5.  [decodeCStrings] never returns a string that contains a NUL
    byte, and it returns the empty sequence only for the empty input: a
    payload made of NUL bytes alone decodes to the single empty string. *)
Theorem decodeCStrings_pieces (data : bytes) :
  Forall (fun s => ~ In NUL s) (CStrings.decodeCStrings data)
  /\ (CStrings.decodeCStrings data = [] <-> data = [])
  /\ (forall n, CStrings.decodeCStrings (repeat NUL (S n)) = [[]]).
Proof.
  split; [|split].
  - destruct data as [|b data]; [constructor|].
    rewrite decodeCStrings_nonempty by discriminate.
    apply Split_pieces_free.
  - split.
    + destruct data as [|b data]; [reflexivity|].
      rewrite decodeCStrings_nonempty by discriminate.
      intros H. exfalso. exact (Split_nonempty _ _ H).
    + intros ->. reflexivity.
  - intros n. rewrite decodeCStrings_nonempty by discriminate.
    assert (Htrim : forall k, CStrings.trimLeftByte (repeat NUL k) NUL = []).
    { induction k as [|k IH]; [reflexivity|]. cbn. exact IH. }
    unfold CStrings.Trim, CStrings.trimRightByte.
    rewrite rev_repeat, Htrim. reflexivity.
Qed.

Section LineEnds.

Import ModifierMethods.

Lemma eqb_CR_false (b : byte) : b <> CR -> Byte.eqb b CR = false.
Proof.
  intros H. destruct (Byte.eqb b CR) eqn:E; [|reflexivity].
  apply Byte.byte_dec_bl in E. contradiction.
Qed.

Lemma crlfToLF_cons (c : byte) (rest : bytes) :
  c <> CR -> crlfToLF (c :: rest) = c :: crlfToLF rest.
Proof.
  intros Hc. cbn [crlfToLF]. destruct rest as [|d rest']; [reflexivity|].
  rewrite (eqb_CR_false c Hc). reflexivity.
Qed.

Lemma crlfToLF_free (l : bytes) : ~ In CR l -> crlfToLF l = l.
Proof.
  induction l as [|c l IH]; intros Hl; [reflexivity|].
  rewrite crlfToLF_cons by (intros ->; apply Hl; left; reflexivity).
  rewrite IH by (intros Hin; apply Hl; right; exact Hin). reflexivity.
Qed.

Lemma crlfToLF_line (l rest : bytes) :
  ~ In CR l ->
  crlfToLF (l ++ CR :: LF :: rest) = l ++ LF :: crlfToLF rest.
Proof.
  induction l as [|c l IH]; intros Hl; [reflexivity|].
  cbn [app]. rewrite crlfToLF_cons by (intros ->; apply Hl; left;
    reflexivity).
  rewrite IH by (intros Hin; apply Hl; right; exact Hin). reflexivity.
Qed.

(** The rewriting adds no byte that was not there. *)
Lemma crlfToLF_In (x : byte) (b : bytes) : In x (crlfToLF b) -> In x b.
Proof.
  assert (H : forall n (b : bytes), (length b <= n)%nat ->
                In x (crlfToLF b) -> In x b).
  { induction n as [|n IH]; intros b0 Hlen.
    - destruct b0; [intros []|cbn [length] in Hlen; lia].
    - destruct b0 as [|c [|d rest]]; [intros []|intros Hin; exact Hin|].
      cbn [length] in Hlen. cbn [crlfToLF].
      destruct (Byte.eqb c CR && Byte.eqb d LF) eqn:E.
      + apply andb_true_iff in E. destruct E as [_ E].
        apply Byte.byte_dec_bl in E. subst d.
        intros [<-|Hin]; [right; left; reflexivity|].
        right. right. apply (IH rest); [lia|exact Hin].
      + intros [<-|Hin]; [left; reflexivity|].
        right. apply (IH (d :: rest)); [cbn [length]; lia|exact Hin]. }
  apply (H (length b)). lia.
Qed.

End LineEnds.

(** X6.  [crlfToLF] turns lines joined by CRLF into the same lines joined
    by LF, when no line contains a CR of its own; in particular a text
    without CR is left as it is. *)
Theorem crlfToLF_lines (lines : list bytes) :
  Forall (fun l => ~ In ModifierMethods.CR l) lines ->
  ModifierMethods.crlfToLF
    (joinLines [ModifierMethods.CR; ModifierMethods.LF] lines)
  = joinLines [ModifierMethods.LF] lines.
Proof.
  induction lines as [|l lines IH]; intros Hall; [reflexivity|].
  inversion Hall as [|? ? Hl Hrest]; subst.
  destruct lines as [|l2 lines].
  - cbn. apply crlfToLF_free. exact Hl.
  - cbn [joinLines app] in *. rewrite crlfToLF_line by exact Hl.
    rewrite IH by exact Hrest. reflexivity.
Qed.

Lemma crlfToLF_lines_witness :
  ModifierMethods.crlfToLF
    (["a"] ++ [ModifierMethods.CR; ModifierMethods.LF] ++ ["b"])%byte
  = (["a"] ++ [ModifierMethods.LF] ++ ["b"])%byte.
Proof.
  apply (crlfToLF_lines [["a"]; ["b"]]%byte).
  repeat constructor; intros H;
    repeat (destruct H as [H|H]; [discriminate H|]); exact H.
Defined.

(** ** Client: commands and the protocol mask *)

Section CommandFacts.

Import Client.

Lemma onConn_fields {A} (c : M Conn A) (s : ClientSession) :
  ActionOpts (snd (onConn c s)) = ActionOpts s
  /\ ProtocolOpts (snd (onConn c s)) = ProtocolOpts s
  /\ needAbort (snd (onConn c s)) = needAbort s.
Proof. unfold onConn. destruct (c (conn s)). repeat split. Qed.

Lemma onConn_writePacket_ok (msg : Message) (s : ClientSession) :
  closed (conn s) = false -> wr_broken (conn s) = false ->
  onConn (writePacket msg) s
  = (Ok tt, set_conn s (set_wr (conn s) (wr (conn s) ++ frame msg))).
Proof.
  intros Hc Hb. unfold onConn. rewrite (writePacket_ok msg _ Hc Hb).
  reflexivity.
Qed.


(** The shape all seven commands share: the test of the suppressing bit,
    for [BodyChunk] the size test, one packet, the reply. *)
Lemma run_shape (c : Command) (s : ClientSession) :
  exists payload tagW tagR,
    run c s
    = if negb (Z.land (ProtocolOpts s) (suppressBit c) =? 0)
      then (Ok (actionOf ActContinue), s)
      else match c with
           | CmdBodyChunk chunk =>
               if len chunk >? MaxBodyChunk
               then (Err (Errorf
                            "milter: body chunk: too big body chunk: %v"
                            (len chunk)), s)
               else bind (wrapErr tagW
                            (onConn (writePacket
                                       {| Code := commandCode c;
                                          Data := payload |})))
                      (fun _ => replyUnless (replyBit c) tagR) s
           | _ => bind (wrapErr tagW
                          (onConn (writePacket
                                     {| Code := commandCode c;
                                        Data := payload |})))
                    (fun _ => replyUnless (replyBit c) tagR) s
           end.
Proof.
  destruct c; cbn [run suppressBit replyBit commandCode];
    [unfold Conn_|unfold Helo|unfold Mail|unfold Rcpt|unfold HeaderField
    |unfold HeaderEnd|unfold BodyChunk];
    unfold bind at 1; unfold gets; do 3 eexists;
    (destruct (negb (Z.land (ProtocolOpts s) _ =? 0)); cycle 1;
     [try (destruct (len chunk >? MaxBodyChunk); cycle 1);
      reflexivity
     |reflexivity]).
Qed.

Local Abbreviation sendThenReply msg bit tagW tagR :=
  (bind (wrapErr tagW (onConn (writePacket msg)))
     (fun _ => replyUnless bit tagR)).

Lemma sendThenReply_needAbort (msg : Message) (bit : Z)
    (tagW tagR : string) (s s' : ClientSession) (a : Action) :
  sendThenReply msg bit tagW tagR s = (Ok a, s') ->
  needAbort s'
  = if Byte.eqb (ActCode a) ActContinue then needAbort s else false.
Proof.
  unfold bind.
  pose proof (wrapErr_snd tagW (onConn (writePacket msg)) s) as Hs.
  destruct (wrapErr tagW (onConn (writePacket msg)) s) as [[[]|e| |] s1];
    try discriminate.
  cbn [snd] in Hs. intros H. apply replyUnless_needAbort in H.
  rewrite H, Hs, (onConn_needAbort (writePacket msg) s). reflexivity.
Qed.

Lemma replyUnless_fields (bit : Z) (tag : string) (s : ClientSession) :
  ActionOpts (snd (replyUnless bit tag s)) = ActionOpts s
  /\ ProtocolOpts (snd (replyUnless bit tag s)) = ProtocolOpts s.
Proof.
  unfold replyUnless. unfold bind, gets, ret.
  destruct (negb (ProtocolOption s bit)); [|split; reflexivity].
  rewrite wrapErr_snd. unfold readAction.
  destruct (readAction_loop_inv (S (length (rd (conn s)))) s)
    as (_ & H2 & H3 & _).
  split; assumption.
Qed.

Lemma sendThenReply_fields (msg : Message) (bit : Z)
    (tagW tagR : string) (s : ClientSession) :
  let s' := snd (sendThenReply msg bit tagW tagR s) in
  ActionOpts s' = ActionOpts s
  /\ ProtocolOpts s' = ProtocolOpts s
  /\ closed (conn s') = closed (conn s).
Proof.
  cbv zeta. unfold bind.
  pose proof (wrapErr_snd tagW (onConn (writePacket msg)) s) as Hs.
  destruct (wrapErr tagW (onConn (writePacket msg)) s) as [r s1].
  cbn [snd] in Hs.
  destruct (onConn_fields (writePacket msg) s) as (Ha & Hp & _).
  assert (Hcl : closed (conn s1) = closed (conn s)).
  { rewrite Hs. unfold onConn, writePacket, Write.
    destruct (closed (conn s)) eqn:Hc; [cbn; exact Hc|].
    destruct (wr_broken (conn s)); cbn; exact Hc. }
  rewrite <- Hs in Ha, Hp.
  destruct r as [[]|e| |]; cbn [snd]; try (repeat split; assumption).
  destruct (replyUnless_fields bit tagR s1) as (Ha' & Hp').
  destruct (replyUnless_out bit tagR s1) as (_ & _ & Hcl').
  rewrite Ha', Hp', Hcl'. repeat split; assumption.
Qed.

End CommandFacts.

(** X7.  A command whose suppressing bit is set in the negotiated protocol
    mask (NoConnect, NoHelo, NoMailFrom, NoRcptTo, NoHeaders, NoEOH,
    NoBody) returns the synthetic continue action and leaves the session
    and its transport as they were: nothing is written or read. *)
Theorem run_suppressed (c : Command) (s : Client.ClientSession) :
  Z.land (Client.ProtocolOpts s) (suppressBit c) <> 0 ->
  run c s = (Ok (Client.actionOf ActContinue), s).
Proof.
  intros Hbit. destruct (run_shape c s) as (payload & tagW & tagR & ->).
  destruct (Z.eqb_spec (Z.land (Client.ProtocolOpts s) (suppressBit c)) 0);
    [contradiction|]. reflexivity.
Qed.

Lemma run_suppressed_witness :
  Z.land (Client.ProtocolOpts (sessionWith OptNoHelo [])) OptNoHelo <> 0
  /\ Client.Helo ["m"; "x"]%byte (sessionWith OptNoHelo [])
     = (Ok (Client.actionOf ActContinue), sessionWith OptNoHelo []).
Proof.
  assert (H : Z.land (Client.ProtocolOpts (sessionWith OptNoHelo []))
                (suppressBit (CmdHelo ["m"; "x"]%byte)) <> 0)
    by discriminate.
  split; [exact H|].
  apply (run_suppressed (CmdHelo ["m"; "x"]%byte)
           (sessionWith OptNoHelo []) H).
Defined.



(** X9.  After a command that returned an action, the abort flag is
    cleared if the action is anything but continue and is what it was if
    the action is continue, be it the milter's or the synthetic one. *)
Theorem run_needAbort (c : Command) (s s' : Client.ClientSession)
    (a : Client.Action) :
  run c s = (Ok a, s') ->
  Client.needAbort s'
  = if Byte.eqb (Client.ActCode a) ActContinue
    then Client.needAbort s else false.
Proof.
  destruct (run_shape c s) as (payload & tagW & tagR & ->).
  destruct (negb _).
  { intros H. inversion H; subst. reflexivity. }
  destruct c; try apply sendThenReply_needAbort.
  destruct (len chunk >? MaxBodyChunk); [discriminate|].
  apply sendThenReply_needAbort.
Qed.

Lemma run_needAbort_witness :
  let s := sessionWith 0 (packet ActReject []) in
  let r := Client.Rcpt ["r"]%byte [] s in
  fst r = Ok (Client.actionOf ActReject)
  /\ Client.needAbort s = true
  /\ Client.needAbort (snd r) = false.
Proof.
  cbv zeta.
  assert (H : run (CmdRcpt ["r"]%byte [])
                (sessionWith 0 (packet ActReject []))
              = (Ok (Client.actionOf ActReject),
                 snd (Client.Rcpt ["r"]%byte []
                        (sessionWith 0 (packet ActReject [])))))
    by (vm_compute; reflexivity).
  split; [rewrite <- H at 1; reflexivity|]. split; [reflexivity|].
  apply (run_needAbort _ _ _ _ H).
Defined.

(** X10.  No command changes the negotiated action and protocol masks or
    closes the connection, whatever its outcome. *)
Theorem run_keeps_masks (c : Command) (s : Client.ClientSession) :
  Client.ActionOpts (snd (run c s)) = Client.ActionOpts s
  /\ Client.ProtocolOpts (snd (run c s)) = Client.ProtocolOpts s
  /\ closed (Client.conn (snd (run c s))) = closed (Client.conn s).
Proof.
  destruct (run_shape c s) as (payload & tagW & tagR & ->).
  destruct (negb _); [repeat split|].
  destruct c; try apply sendThenReply_fields.
  destruct (len chunk >? MaxBodyChunk); [repeat split|].
  apply sendThenReply_fields.
Qed.

(** ** Client: replies *)

Section ReplyFacts.

Import Client.

Lemma set_conn_set_rd (s : ClientSession) (r1 r2 : bytes) :
  set_conn (set_conn s (set_rd (conn s) r1))
    (set_rd (conn (set_conn s (set_rd (conn s) r1))) r2)
  = set_conn s (set_rd (conn s) r2).
Proof. destruct s as [[r w b cl] a p ab]. reflexivity. Qed.

Lemma length_frame (msg : Message) :
  length (frame msg) = (5 + length (Data msg))%nat.
Proof. unfold frame. rewrite length_app. reflexivity. Qed.

Lemma length_progress (ps : list bytes) :
  (length ps <= length (concat (map (packet "p"%byte) ps)))%nat.
Proof.
  induction ps as [|x ps IH]; [reflexivity|].
  cbn [map concat length]. rewrite length_app. unfold packet at 1.
  rewrite length_frame. lia.
Qed.

Lemma readAction_loop_progress (msg : Message) (rest : bytes)
    (ps : list bytes) :
  forall (fuel : nat) (s : ClientSession),
    closed (conn s) = false ->
    rd (conn s) = concat (map (packet "p"%byte) ps) ++ frame msg ++ rest ->
    Forall (fun x => len x + 1 < 4294967296) ps ->
    len (Data msg) + 1 < 4294967296 ->
    Code msg <> "p"%byte ->
    (length ps < fuel)%nat ->
    readAction_loop fuel s
    = (parseAction msg,
       afterReply (Code msg) (set_conn s (set_rd (conn s) rest))).
Proof.
  induction ps as [|x ps IH]; intros fuel s Hc Hrd Hps Hlen Hcode Hfuel;
    (destruct fuel as [|fuel]; [lia|]); cbn [readAction_loop];
    unfold bind, wrapErr; rewrite onConn_readPacket.
  - cbn [map concat app] in Hrd.
    rewrite (readPacket_frame (conn s) msg rest Hc Hrd Hlen).
    cbn [fst snd].
    destruct (Byte.eqb (Code msg) "p"%byte) eqn:E;
      [apply Byte.byte_dec_bl in E; contradiction|].
    unfold afterReply.
    destruct (negb (Byte.eqb (Code msg) ActContinue)); reflexivity.
  - cbn [map concat] in Hrd. rewrite <- app_assoc in Hrd.
    inversion Hps as [|? ? Hx Hps']; subst.
    rewrite (readPacket_frame (conn s)
               {| Code := "p"%byte; Data := x |} _ Hc Hrd Hx).
    cbn [fst snd Code]. change (Byte.eqb "p"%byte "p"%byte) with true.
    cbv iota.
    rewrite (IH fuel (set_conn s (set_rd (conn s) _)));
      [|exact Hc|reflexivity|exact Hps'|exact Hlen|exact Hcode
       |cbn [length] in Hfuel; lia].
    rewrite set_conn_set_rd. reflexivity.
Qed.

Lemma readAction_progress (msg : Message) (rest : bytes)
    (ps : list bytes) (s : ClientSession) :
  closed (conn s) = false ->
  rd (conn s) = concat (map (packet "p"%byte) ps) ++ frame msg ++ rest ->
  Forall (fun x => len x + 1 < 4294967296) ps ->
  len (Data msg) + 1 < 4294967296 ->
  Code msg <> "p"%byte ->
  readAction s
  = (parseAction msg,
     afterReply (Code msg) (set_conn s (set_rd (conn s) rest))).
Proof.
  intros Hc Hrd Hps Hlen Hcode. unfold readAction.
  apply (readAction_loop_progress msg rest ps); try assumption.
  rewrite Hrd, length_app. pose proof (length_progress ps). lia.
Qed.

Lemma afterReply_conn (code : byte) (s : ClientSession) :
  conn (afterReply code s) = conn s
  /\ ProtocolOpts (afterReply code s) = ProtocolOpts s.
Proof. unfold afterReply. destruct (negb _); split; reflexivity. Qed.

(** One packet out, the reply in. *)
Lemma sendThenReply_reads (out msg : Message) (bit : Z)
    (tagW tagR : string) (rest : bytes) (ps : list bytes)
    (act : Action) (s : ClientSession) :
  Z.land (ProtocolOpts s) bit = 0 ->
  closed (conn s) = false -> wr_broken (conn s) = false ->
  rd (conn s) = concat (map (packet "p"%byte) ps) ++ frame msg ++ rest ->
  Forall (fun x => len x + 1 < 4294967296) ps ->
  len (Data msg) + 1 < 4294967296 ->
  Code msg <> "p"%byte ->
  parseAction msg = Ok act ->
  bind (wrapErr tagW (onConn (writePacket out)))
    (fun _ => replyUnless bit tagR) s
  = (Ok act,
     afterReply (Code msg)
       (set_conn s
          {| rd := rest; wr := wr (conn s) ++ frame out;
             wr_broken := false; closed := false |})).
Proof.
  intros Hbit Hc Hb Hrd Hps Hlen Hcode Hact.
  unfold bind at 1, wrapErr at 1.
  rewrite (onConn_writePacket_ok out s Hc Hb).
  unfold replyUnless, ProtocolOption, bind, gets.
  cbn [ProtocolOpts set_conn]. rewrite Hbit. cbn [Z.eqb negb].
  unfold wrapErr.
  rewrite (readAction_progress msg rest ps); try assumption.
  rewrite Hact. f_equal. f_equal.
  destruct s as [[r w b cl] a p ab]. cbn in Hc, Hb. subst. reflexivity.
Qed.

Lemma isModifyActCode_not_progress (code : byte) :
  isModifyActCode code = true -> code <> "p"%byte.
Proof. intros H ->. discriminate H. Qed.

Lemma length_frames (msgs : list Message) :
  (length msgs <= length (concat (map frame msgs)))%nat.
Proof.
  induction msgs as [|x msgs IH]; [reflexivity|].
  cbn [map concat length]. rewrite length_app, length_frame. lia.
Qed.

(** The modify actions are collected in the order of their packets. *)
Lemma readModifyActs_loop_collect (term : Message) (act : Action)
    (rest : bytes) (msgs : list Message) (acts : list ModifyAction) :
  Forall2 (fun m a => isModifyActCode (Code m) = true
                      /\ parseModifyAct m = Ok a
                      /\ len (Data m) + 1 < 4294967296) msgs acts ->
  len (Data term) + 1 < 4294967296 ->
  parseAction term = Ok act ->
  forall (fuel : nat) (acc : list ModifyAction) (s : ClientSession),
    closed (conn s) = false ->
    rd (conn s) = concat (map frame msgs) ++ frame term ++ rest ->
    (length msgs < fuel)%nat ->
    readModifyActs_loop fuel acc s
    = (Ok (acc ++ acts, act), set_conn s (set_rd (conn s) rest)).
Proof.
  intros Hall Hlen Hact.
  assert (Hterm : Byte.eqb (Code term) "p"%byte = false
                  /\ isModifyActCode (Code term) = false).
  { apply parseAction_Ok in Hact. destruct Hact as [_ Hin]. cbn in Hin.
    destruct Hin as [H|[H|[H|[H|[H|[H|[]]]]]]]; rewrite <- H; split;
      reflexivity. }
  destruct Hterm as [Hp Hm].
  induction Hall as [|m a msgs acts (Hcode & Hparse & Hbound) Hall IH];
    intros fuel acc s Hc Hrd Hfuel;
    (destruct fuel as [|fuel]; [lia|]); cbn [readModifyActs_loop];
    unfold bind at 1, wrapErr; rewrite onConn_readPacket.
  - cbn [map concat app] in Hrd.
    rewrite (readPacket_frame (conn s) term rest Hc Hrd Hlen).
    cbn [fst snd]. rewrite Hp, Hm. unfold bind, ret. rewrite Hact.
    rewrite app_nil_r. reflexivity.
  - cbn [map concat] in Hrd. rewrite <- app_assoc in Hrd.
    rewrite (readPacket_frame (conn s) m _ Hc Hrd Hbound).
    cbn [fst snd].
    destruct (Byte.eqb (Code m) "p"%byte) eqn:E.
    { apply Byte.byte_dec_bl in E.
      exfalso. exact (isModifyActCode_not_progress _ Hcode E). }
    rewrite Hcode. unfold bind at 1. rewrite Hparse.
    rewrite (IH fuel (acc ++ [a]) (set_conn s (set_rd (conn s) _)));
      [|exact Hc|reflexivity|cbn [length] in Hfuel; lia].
    rewrite set_conn_set_rd, <- app_assoc. reflexivity.
Qed.

Lemma BodyChunk_NoBody (chunk : bytes) (s : ClientSession) :
  Z.land (ProtocolOpts s) OptNoBody <> 0 ->
  BodyChunk chunk s = (Ok (actionOf ActContinue), s).
Proof.
  intros Hbit. unfold BodyChunk. unfold_go.
  destruct (Z.eqb_spec (Z.land (ProtocolOpts s) OptNoBody) 0);
    [contradiction|reflexivity].
Qed.

End ReplyFacts.



(** X12.  The reply-code action.  A [y] packet whose payload is three
    decimal digits, one separator byte, and a text ended by NUL parses to
    the action with that SMTP code and that text; the separator byte is
    not looked at.  A payload of four bytes or fewer is refused. *)
Theorem parseAction_reply_code (d1 d2 d3 sep : byte) (text tail : bytes) :
  isDigit d1 -> isDigit d2 -> isDigit d3 ->
  ~ In NUL text ->
  Client.parseAction
    {| Code := ActReplyCode;
       Data := d1 :: d2 :: d3 :: sep :: text ++ NUL :: tail |}
  = Ok {| Client.ActCode := ActReplyCode;
          Client.SMTPCode := 100 * digitValue d1 + 10 * digitValue d2
                             + digitValue d3;
          Client.SMTPText := text |}
  /\ (forall data, len data <= 4 ->
       Client.parseAction {| Code := ActReplyCode; Data := data |}
       = Err (Errorf "action read: unexpected data length: %v"
                (len data))).
Proof.
  unfold isDigit, digitValue. intros H1 H2 H3 Htext. split.
  - unfold Client.parseAction. cbn [Code Data]. eval_codes. cbn [orb].
    destruct (Z.leb_spec (len (d1 :: d2 :: d3 :: sep :: text ++ NUL :: tail))
                4) as [Hle|_].
    { unfold len in Hle. cbn [length] in Hle.
      rewrite length_app in Hle. cbn [length] in Hle. lia. }
    cbn [firstn skipn].
    assert (Hsign : forall c, byteZ c <> byteZ d1 -> Byte.eqb d1 c = false).
    { intros c Hc. destruct (Byte.eqb d1 c) eqn:E; [|reflexivity].
      apply Byte.byte_dec_bl in E. subst c. contradiction. }
    unfold Client.Atoi.
    rewrite (Hsign "-"%byte), (Hsign "+"%byte)
      by (change (byteZ "-"%byte) with 45; change (byteZ "+"%byte) with 43;
          lia).
    cbn [Client.atoiDigits].
    rewrite !Z.mod_small by lia.
    destruct (Z.ltb_spec 9 (byteZ d1 - 48)); [lia|].
    destruct (Z.ltb_spec 9 (byteZ d2 - 48)); [lia|].
    destruct (Z.ltb_spec 9 (byteZ d3 - 48)); [lia|].
    change (skipn 0 (text ++ NUL :: tail)) with (text ++ NUL :: tail).
    rewrite (readCString_app_NUL text tail Htext).
    f_equal. f_equal. lia.
  - intros data Hlen. unfold Client.parseAction. cbn [Code Data]. eval_codes.
    cbn [orb].
    destruct (Z.leb_spec (len data) 4); [reflexivity|lia].
Qed.

Lemma parseAction_reply_code_witness :
  Client.parseAction
    {| Code := ActReplyCode;
       Data := list_byte_of_string "550 go away" ++ [NUL] |}
  = Ok {| Client.ActCode := ActReplyCode; Client.SMTPCode := 550;
          Client.SMTPText := list_byte_of_string "go away" |}.
Proof.
  assert (Hd5 : isDigit "5"%byte) by (unfold isDigit; cbn; lia).
  assert (Hd0 : isDigit "0"%byte) by (unfold isDigit; cbn; lia).
  assert (Htext : ~ In NUL (list_byte_of_string "go away")).
  { intros H. repeat (destruct H as [H|H]; [discriminate H|]). exact H. }
  exact (proj1 (parseAction_reply_code "5" "5" "0" " "
                  (list_byte_of_string "go away") [] Hd5 Hd5 Hd0 Htext)).
Defined.

(** X13.  [End] writes the end-of-body packet and then collects what the
    milter sends: the modify actions in the order of their packets, up to
    the first packet that is an action, which it returns with them; the
    bytes after that packet stay on the stream and the abort flag and the
    masks are left as they were. *)
Theorem End_collects (s : Client.ClientSession) (msgs : list Message)
    (acts : list Client.ModifyAction) (term : Message)
    (act : Client.Action) (rest : bytes) :
  closed (Client.conn s) = false ->
  wr_broken (Client.conn s) = false ->
  rd (Client.conn s) = concat (map frame msgs) ++ frame term ++ rest ->
  Forall2 (fun m a => Client.isModifyActCode (Code m) = true
                      /\ Client.parseModifyAct m = Ok a
                      /\ len (Data m) + 1 < 4294967296) msgs acts ->
  len (Data term) + 1 < 4294967296 ->
  Client.parseAction term = Ok act ->
  Client.End_ s
  = (Ok (acts, act),
     Client.set_conn s
       {| rd := rest; wr := wr (Client.conn s) ++ packet CodeEOB [];
          wr_broken := false; closed := false |}).
Proof.
  intros Hc Hb Hrd Hall Hlen Hact. unfold Client.End_.
  unfold bind, wrapErr at 1.
  rewrite (onConn_writePacket_ok _ s Hc Hb).
  unfold wrapErr, Client.readModifyActs.
  set (s1 := Client.set_conn s _).
  assert (Hc1 : closed (Client.conn s1) = false) by exact Hc.
  assert (Hrd1 : rd (Client.conn s1)
                 = concat (map frame msgs) ++ frame term ++ rest)
    by exact Hrd.
  rewrite (readModifyActs_loop_collect term act rest msgs acts Hall Hlen
             Hact (S (length (rd (Client.conn s1)))) [] s1 Hc1 Hrd1).
  - f_equal. subst s1. destruct s as [[r w b cl] a p ab].
    cbn in Hc, Hb. subst. reflexivity.
  - rewrite Hrd1, length_app. pose proof (length_frames msgs). lia.
Qed.

Lemma End_collects_witness :
  let s := sessionWith 0
             (packet ActQuarantine (["b"; "a"; "d"] ++ [NUL])%byte
              ++ packet ActAddRcpt (["<"; "r"; ">"] ++ [NUL])%byte
              ++ packet ActAccept []) in
  fst (Client.End_ s)
  = Ok ([ {| Client.ModCode := ActQuarantine; Client.ModRcpt := [];
             Client.ModFrom := []; Client.FromArgs := [];
             Client.ModBody := []; Client.HeaderIndex := 0;
             Client.HeaderName := []; Client.HeaderValue := [];
             Client.Reason := ["b"; "a"; "d"]%byte |};
          {| Client.ModCode := ActAddRcpt;
             Client.ModRcpt := ["<"; "r"; ">"]%byte;
             Client.ModFrom := []; Client.FromArgs := [];
             Client.ModBody := []; Client.HeaderIndex := 0;
             Client.HeaderName := []; Client.HeaderValue := [];
             Client.Reason := [] |} ],
        Client.actionOf ActAccept).
Proof.
  cbv zeta.
  set (acts := [ {| Client.ModCode := ActQuarantine; Client.ModRcpt := [];
                    Client.ModFrom := []; Client.FromArgs := [];
                    Client.ModBody := []; Client.HeaderIndex := 0;
                    Client.HeaderName := []; Client.HeaderValue := [];
                    Client.Reason := ["b"; "a"; "d"]%byte |};
                 {| Client.ModCode := ActAddRcpt;
                    Client.ModRcpt := ["<"; "r"; ">"]%byte;
                    Client.ModFrom := []; Client.FromArgs := [];
                    Client.ModBody := []; Client.HeaderIndex := 0;
                    Client.HeaderName := []; Client.HeaderValue := [];
                    Client.Reason := [] |} ]).
  set (msgs := [ {| Code := ActQuarantine;
                    Data := (["b"; "a"; "d"] ++ [NUL])%byte |};
                 {| Code := ActAddRcpt;
                    Data := (["<"; "r"; ">"] ++ [NUL])%byte |} ]).
  assert (Hall : Forall2
                   (fun m a => Client.isModifyActCode (Code m) = true
                               /\ Client.parseModifyAct m = Ok a
                               /\ len (Data m) + 1 < 4294967296)
                   msgs acts)
    by (repeat constructor).
  rewrite (End_collects
             (sessionWith 0
                (packet ActQuarantine (["b"; "a"; "d"] ++ [NUL])%byte
                 ++ packet ActAddRcpt (["<"; "r"; ">"] ++ [NUL])%byte
                 ++ packet ActAccept []))
             msgs acts {| Code := ActAccept; Data := [] |}
             (Client.actionOf ActAccept) []
             eq_refl eq_refl eq_refl Hall eq_refl eq_refl).
  reflexivity.
Defined.

(** X14.  With the no-body bit in the negotiated protocol mask,
    [BodyReadFrom] on a reader whose reads do not fail sends no body
    packet at all and does exactly what [End] does: the end-of-body
    packet is still written and the milter's answer still read. *)
Theorem BodyReadFrom_NoBody (r : Client.Reader) (s : Client.ClientSession) :
  Z.land (Client.ProtocolOpts s) OptNoBody <> 0 ->
  readsCleanly r ->
  Client.BodyReadFrom r s = Client.endResult s.
Proof.
  intros Hbit Hclean. induction Hclean as [|[data err] r Hstep _ IH];
    [reflexivity|].
  cbn [Client.BodyReadFrom]. cbn [snd] in Hstep.
  destruct Hstep as [->| ->]; [|reflexivity].
  destruct (len (firstn (Z.to_nat MaxBodyChunk) data) =? 0); [reflexivity|].
  unfold bind at 1. rewrite (BodyChunk_NoBody _ s Hbit).
  cbn [Client.ActCode Client.actionOf].
  change (Byte.eqb ActContinue ActSkip) with false.
  change (Byte.eqb ActContinue ActContinue) with true.
  cbv iota. cbn [negb]. exact IH.
Qed.

Lemma BodyReadFrom_NoBody_witness :
  let s := sessionWith OptNoBody (packet ActAccept []) in
  Client.BodyReadFrom [(["1"%byte], None); (["2"%byte], None)] s
  = (Ok ([], Some (Client.actionOf ActAccept)),
     Client.set_conn s
       {| rd := []; wr := packet CodeEOB []; wr_broken := false;
          closed := false |}).
Proof.
  cbv zeta.
  rewrite (BodyReadFrom_NoBody
             [(["1"%byte], None); (["2"%byte], None)]
             (sessionWith OptNoBody (packet ActAccept []))).
  - reflexivity.
  - discriminate.
  - repeat constructor.
Defined.

(** X15.  When the milter answers a body chunk with an action other than
    continue, [BodyReadFrom] returns that action at once, with no modify
    actions: the chunk's packet is all it wrote, no end-of-body packet
    follows, the rest of the reader is not read, and the abort flag is
    cleared. *)
Theorem BodyReadFrom_stops_at_action (data : bytes) (r : Client.Reader)
    (s : Client.ClientSession) (msg : Message) (rest : bytes)
    (act : Client.Action) :
  Z.land (Client.ProtocolOpts s) OptNoBody = 0 ->
  Z.land (Client.ProtocolOpts s) OptNoBodyReply = 0 ->
  0 < len data <= MaxBodyChunk ->
  closed (Client.conn s) = false ->
  wr_broken (Client.conn s) = false ->
  rd (Client.conn s) = frame msg ++ rest ->
  len (Data msg) + 1 < 4294967296 ->
  Client.parseAction msg = Ok act ->
  Code msg <> ActContinue ->
  Client.BodyReadFrom ((data, None) :: r) s
  = (Ok ([], Some act),
     Client.set_needAbort
       (Client.set_conn s
          {| rd := rest; wr := wr (Client.conn s) ++ packet CodeBody data;
             wr_broken := false; closed := false |}) false).
Proof.
  intros Hsup Hrep Hdata Hc Hb Hrd Hlen Hact Hcode.
  pose proof (parseAction_Ok msg act Hact) as [Hcode' Hin].
  assert (Hp : Code msg <> "p"%byte).
  { intros Hp. rewrite Hp in Hin. cbn in Hin. intuition discriminate. }
  cbn [Client.BodyReadFrom].
  assert (Hbuf : firstn (Z.to_nat MaxBodyChunk) data = data).
  { apply firstn_all2. unfold len in Hdata. lia. }
  rewrite Hbuf.
  destruct (Z.eqb_spec (len data) 0) as [H0|_]; [lia|].
  unfold bind at 1. unfold Client.BodyChunk at 1. unfold bind at 1, gets.
  rewrite Hsup. cbn [Z.eqb negb].
  destruct (Z.gtb_spec (len data) MaxBodyChunk) as [Hgt|_]; [lia|].
  rewrite (sendThenReply_reads {| Code := CodeBody; Data := data |} msg
             OptNoBodyReply _ _ rest [] act s Hrep Hc Hb Hrd
             (List.Forall_nil _) Hlen Hp Hact).
  rewrite Hcode'.
  destruct (Byte.eqb (Code msg) ActSkip) eqn:Es.
  { apply Byte.byte_dec_bl in Es. rewrite Es in Hin. cbn in Hin.
    intuition discriminate. }
  destruct (Byte.eqb (Code msg) ActContinue) eqn:Ec.
  { apply Byte.byte_dec_bl in Ec. contradiction. }
  cbn [negb]. unfold ret, afterReply. rewrite Ec. reflexivity.
Qed.

Lemma BodyReadFrom_stops_at_action_witness :
  let s := sessionWith 0 (packet ActReject [] ++ packet ActAccept []) in
  Client.BodyReadFrom [(["1"%byte], None); (["2"%byte], None)] s
  = (Ok ([], Some (Client.actionOf ActReject)),
     Client.set_needAbort
       (Client.set_conn s
          {| rd := packet ActAccept []; wr := packet CodeBody ["1"%byte];
             wr_broken := false; closed := false |}) false).
Proof.
  cbv zeta.
  apply (BodyReadFrom_stops_at_action ["1"%byte] [(["2"%byte], None)]
           (sessionWith 0 (packet ActReject [] ++ packet ActAccept []))
           {| Code := ActReject; Data := [] |} (packet ActAccept [])
           (Client.actionOf ActReject));
    try reflexivity; try discriminate.
  split; [reflexivity|discriminate].
Defined.

(** ** Client: option negotiation, continued *)

(** X16.  The earlier client.  It writes one OPTNEG packet with version 2
    and the masks it offers; when the milter answers with an OPTNEG packet
    of version 2 or more, the session's masks are the bitwise AND of the
    offered masks and the milter's, hence within both, and the abort flag
    is set. *)
Theorem negotiate_earlier_and (a p v a' p' : Z) (s : Client.ClientSession)
    (rest : bytes) :
  closed (Client.conn s) = false ->
  wr_broken (Client.conn s) = false ->
  rd (Client.conn s) = frame (optneg v a' p') ++ rest ->
  2 <= v < 4294967296 ->
  0 <= a' < 4294967296 -> 0 <= p' < 4294967296 ->
  let r := Client.negotiate_earlier a p s in
  fst r = Ok tt
  /\ wr (Client.conn (snd r))
     = wr (Client.conn s) ++ frame (optneg 2 (uint32 a) (uint32 p))
  /\ rd (Client.conn (snd r)) = rest
  /\ Client.ActionOpts (snd r) = Z.land (uint32 a) a'
  /\ Client.ProtocolOpts (snd r) = Z.land (uint32 p) p'
  /\ submask (Client.ActionOpts (snd r)) (uint32 a)
  /\ submask (Client.ActionOpts (snd r)) a'
  /\ submask (Client.ProtocolOpts (snd r)) (uint32 p)
  /\ submask (Client.ProtocolOpts (snd r)) p'
  /\ Client.needAbort (snd r) = true.
Proof.
  intros Hc Hb Hrd Hv Ha Hp. cbv zeta.
  rewrite (negotiate_earlier_Ok a p v a' p' s rest Hc Hb Hrd Hv Ha Hp).
  cbn [fst snd Client.conn Client.ActionOpts Client.ProtocolOpts
       Client.needAbort rd wr].
  repeat split;
    try apply submask_land_l; try apply submask_land_r.
Qed.

Lemma negotiate_earlier_and_witness :
  let r := Client.negotiate_earlier
             (Z.lor OptAddHeader OptQuarantine) 0
             (newSession (frame (optneg 6 (Z.lor OptAddHeader OptChangeBody)
                                         OptNoBody))) in
  fst r = Ok tt
  /\ Client.ActionOpts (snd r) = OptAddHeader
  /\ Client.ProtocolOpts (snd r) = 0.
Proof.
  cbv zeta.
  assert (Hrange : forall v, (0 <=? v) && (v <? 4294967296) = true ->
                             0 <= v < 4294967296) by (intros v; lia).
  assert (H26 : 2 <= 6 < 4294967296) by lia.
  destruct (negotiate_earlier_and (Z.lor OptAddHeader OptQuarantine) 0 6
              (Z.lor OptAddHeader OptChangeBody) OptNoBody
              (newSession (frame (optneg 6 (Z.lor OptAddHeader OptChangeBody)
                                          OptNoBody))) []
              eq_refl eq_refl (eq_sym (app_nil_r _))
              H26
              (Hrange (Z.lor OptAddHeader OptChangeBody) eq_refl)
              (Hrange OptNoBody eq_refl))
    as (H1 & _ & _ & H4 & H5 & _).
  split; [exact H1|]. split; [exact H4|exact H5].
Defined.



(** X18.  A milter that answers with a protocol version below the
    client's is refused: the negotiation returns the unsupported-version
    error naming that version. *)
Theorem negotiate_version_too_low (a p v a' p' : Z)
    (s : Client.ClientSession) (rest : bytes) :
  closed (Client.conn s) = false ->
  wr_broken (Client.conn s) = false ->
  rd (Client.conn s) = frame (optneg v a' p') ++ rest ->
  0 <= v < Client.clientProtocolVersion ->
  fst (Client.negotiate a p s)
  = Err (Errorf "milter: negotiate: unsupported protocol version: %v" v).
Proof.
  intros Hc Hb Hrd Hv. unfold Client.negotiate. unfold_go.
  rewrite (onConn_writePacket_ok _ s Hc Hb).
  unfold Client.onConn. cbn [Client.conn Client.set_conn].
  rewrite (readPacket_frame _ (optneg v a' p') rest);
    [|exact Hc|exact Hrd|rewrite len_optneg; lia].
  cbn [Code optneg]. change (Byte.eqb CodeOptNeg CodeOptNeg) with true.
  cbn [negb]. rewrite len_optneg. change (12 <? 4 * 3) with false.
  cbv iota.
  change (Data (optneg v a' p'))
    with (PutUint32 v ++ PutUint32 a' ++ PutUint32 p').
  unfold Client.clientProtocolVersion in Hv.
  rewrite Uint32_PutUint32 by lia.
  change (skipn 4 (PutUint32 v ++ PutUint32 a' ++ PutUint32 p'))
    with (PutUint32 a' ++ PutUint32 p').
  change (skipn 8 (PutUint32 v ++ PutUint32 a' ++ PutUint32 p'))
    with (PutUint32 p').
  cbn [Uint32 PutUint32 app].
  destruct (Z.ltb_spec v Client.clientProtocolVersion) as [_|Hge];
    [reflexivity|unfold Client.clientProtocolVersion in Hge; lia].
Qed.

Lemma negotiate_version_too_low_witness :
  fst (Client.negotiate 0 0 (newSession (frame (optneg 1 0 0))))
  = Err (Errorf "milter: negotiate: unsupported protocol version: %v" 1).
Proof.
  apply (negotiate_version_too_low 0 0 1 0 0
           (newSession (frame (optneg 1 0 0))) []);
    [reflexivity|reflexivity|symmetry; apply app_nil_r|].
  unfold Client.clientProtocolVersion. lia.
Defined.

(** ** Client commands and the server's decoding of them *)

Section RoundTripFacts.

Import CStrings.

(** The decoder gives back a sequence with a non-empty first and a
    non-empty last string. *)
Lemma decode_encode_ends (ss : list bytes) :
  Forall (fun s => ~ In NUL s) ss ->
  hd [] ss <> [] -> List.last ss [] <> [] ->
  decodeCStrings (encodeCStrings ss) = ss.
Proof.
  intros Hfree Hhd Hlast.
  destruct ss as [|s1 ss]; [contradiction Hhd; reflexivity|].
  destruct s1 as [|a s1]; [contradiction Hhd; reflexivity|].
  set (l := (a :: s1) :: ss) in *.
  assert (Hne : l <> []) by discriminate.
  assert (Ha : a <> NUL).
  { inversion Hfree as [|? ? Hs _]; subst. intros ->. apply Hs. left.
    reflexivity. }
  destruct (exists_last (l:=List.last l [])) as [s' [z Hz]]; [exact Hlast|].
  assert (Hzn : z <> NUL).
  { assert (Hin : In (List.last l []) l).
    { clear -Hne. induction l as [|x l IH]; [contradiction|].
      destruct l as [|y l]; [left; reflexivity|].
      right. apply IH. discriminate. }
    pose proof (proj1 (List.Forall_forall _ _) Hfree _ Hin) as Hl.
    intros ->. apply Hl. rewrite Hz. apply in_or_app. right. left.
    reflexivity. }
  rewrite encodeCStrings_concat, concat_joinNUL by exact Hne.
  destruct (joinNUL_head a s1 ss) as [t Ht].
  destruct (joinNUL_last l z s' Hne Hz) as [t' Ht'].
  rewrite decodeCStrings_nonempty.
  - rewrite (Trim_inner a z t (joinNUL l) Ha Hzn Ht (ex_intro _ t' Ht')).
    apply Split_joinNUL; [exact Hfree|exact Hne].
  - intros Hnil. apply app_eq_nil in Hnil. destruct Hnil; discriminate.
Qed.

Lemma appendCString_pair (key value : bytes) :
  appendCString (appendCString [] key) value = key ++ NUL :: value ++ [NUL].
Proof.
  unfold appendCString. cbn [app]. rewrite <- !app_assoc. reflexivity.
Qed.

(** The payload of a header field as the server decodes it. *)
Lemma decode_key_value (key value : bytes) :
  ~ In NUL key -> key <> [] -> ~ In NUL value ->
  let headerData := decodeCStrings
                      (appendCString (appendCString [] key) value) in
  (if (len headerData =? 1) then headerData ++ [[]] else headerData)
  = [key; value].
Proof.
  intros Hk Hne Hv. cbv zeta. destruct value as [|b value].
  - rewrite appendCString_pair. cbn [app].
    rewrite (decodeCStrings_name_NUL_NUL key Hk). reflexivity.
  - change (appendCString (appendCString [] key) (b :: value))
      with (encodeCStrings [key; b :: value]).
    rewrite decode_encode_ends; [reflexivity| |exact Hne|discriminate].
    constructor; [exact Hk|]. constructor; [exact Hv|constructor].
Qed.

Lemma TrimSuffix_app_NUL (name : bytes) : TrimSuffix (name ++ [NUL]) NUL = name.
Proof.
  unfold TrimSuffix. rewrite rev_app_distr. cbn [rev app].
  rewrite eqb_refl. apply rev_involutive.
Qed.

End RoundTripFacts.

Section ClientWrites.

Import Client.

(** What a command has written once it is through, reply or not. *)
Lemma sendThenReply_wr (out : Message) (bit : Z) (tagW tagR : string)
    (s : ClientSession) :
  closed (conn s) = false -> wr_broken (conn s) = false ->
  wr (conn (snd (bind (wrapErr tagW (onConn (writePacket out)))
                   (fun _ => replyUnless bit tagR) s)))
  = wr (conn s) ++ frame out.
Proof.
  intros Hc Hb. unfold bind at 1, wrapErr at 1.
  rewrite (onConn_writePacket_ok out s Hc Hb).
  destruct (replyUnless_out bit tagR
              (set_conn s (set_wr (conn s) (wr (conn s) ++ frame out))))
    as (Hwr & _ & _).
  exact Hwr.
Qed.

End ClientWrites.

Section AngleFacts.

Import Server.

Lemma trimLeftAngles_snoc (l : bytes) (a : byte) :
  isAngle a = true ->
  trimLeftAngles (l ++ [a])
  = if forallb isAngle l then [] else trimLeftAngles l ++ [a].
Proof.
  intros Ha. induction l as [|b l IH]; cbn [app trimLeftAngles forallb].
  - rewrite Ha. reflexivity.
  - destruct (isAngle b); cbn [andb]; [exact IH|reflexivity].
Qed.

Lemma trimLeftAngles_all (l : bytes) :
  forallb isAngle l = true -> trimLeftAngles l = [].
Proof.
  induction l as [|b l IH]; cbn [trimLeftAngles forallb]; [reflexivity|].
  destruct (isAngle b); cbn [andb]; [exact IH|discriminate].
Qed.

(** [strings.Trim(s, "<>")] undoes the brackets the client puts around an
    address. *)
Lemma TrimAngles_bracketed (s : bytes) :
  TrimAngles ("<"%byte :: s ++ [">"%byte]) = TrimAngles s.
Proof.
  unfold TrimAngles.
  change ("<"%byte :: s ++ [">"%byte]) with (["<"%byte] ++ s ++ [">"%byte]).
  rewrite !rev_app_distr. cbn [rev app].
  change (trimLeftAngles (">"%byte :: rev s ++ ["<"%byte]))
    with (trimLeftAngles (rev s ++ ["<"%byte])).
  rewrite trimLeftAngles_snoc by reflexivity.
  destruct (forallb isAngle (rev s)) eqn:E.
  - rewrite (trimLeftAngles_all _ E). reflexivity.
  - rewrite rev_app_distr. cbn [rev app]. reflexivity.
Qed.

Lemma trimLeftAngles_head (a : byte) (s : bytes) :
  isAngle a = false -> trimLeftAngles (a :: s) = a :: s.
Proof. intros H. cbn. rewrite H. reflexivity. Qed.

(** An address that neither starts nor ends with a bracket is left as it
    is. *)
Lemma TrimAngles_plain (s : bytes) :
  (forall a t, s = a :: t -> isAngle a = false) ->
  (forall z t, s = t ++ [z] -> isAngle z = false) ->
  TrimAngles s = s.
Proof.
  intros Hfirst Hlast. unfold TrimAngles.
  destruct s as [|a t]; [reflexivity|].
  destruct (exists_last (l:=a :: t)) as [t' [z Hz]]; [discriminate|].
  rewrite Hz at 1. rewrite rev_app_distr. cbn [rev app].
  rewrite trimLeftAngles_head by (apply (Hlast z t'); exact Hz).
  change (z :: rev t') with (rev [z] ++ rev t').
  rewrite <- rev_app_distr, rev_involutive, <- Hz.
  apply trimLeftAngles_head. apply (Hfirst a t). reflexivity.
Qed.

End AngleFacts.

Section CommandRoundTrips.

Context {IP : Type} (ParseIP : bytes -> IP)
        (CanonicalMIMEHeaderKey : bytes -> bytes)
        (serverProtocolVersion : Z)
        {B : Type} (handler : Server.Milter IP B) (NewMilter : B).

Import Server.

Local Abbreviation Process :=
  (Server.Process ParseIP CanonicalMIMEHeaderKey serverProtocolVersion
     handler).

(** X19.  Header fields.  For a header name without NUL that is not empty
    and a value without NUL (which may be empty), the packet the client's
    [HeaderField] writes makes the server call the Header callback with
    that name and that value; the value is appended to the values
    accumulated under the canonical name, and the values of every other
    name stay as they were. *)
Theorem HeaderField_round_trip (key value : bytes)
    (s : Client.ClientSession) (m : milterSession B) :
  ~ In NUL key -> key <> [] -> ~ In NUL value ->
  Z.land (Client.ProtocolOpts s) OptNoHeaders = 0 ->
  closed (Client.conn s) = false ->
  wr_broken (Client.conn s) = false ->
  let payload := key ++ NUL :: value ++ [NUL] in
  let h := MIMEHeader_Add CanonicalMIMEHeaderKey
             (default ∅ (headers m)) key value in
  wr (Client.conn (snd (Client.HeaderField key value s)))
  = wr (Client.conn s) ++ packet CodeHeader payload
  /\ Process {| Code := CodeHeader; Data := payload |} m
     = call (Header handler key value) (set_headers m (Some h))
  /\ MIMEHeader_Values CanonicalMIMEHeaderKey (Some h) key
     = MIMEHeader_Values CanonicalMIMEHeaderKey (headers m) key ++ [value]
  /\ (forall other,
        CanonicalMIMEHeaderKey other <> CanonicalMIMEHeaderKey key ->
        MIMEHeader_Values CanonicalMIMEHeaderKey (Some h) other
        = MIMEHeader_Values CanonicalMIMEHeaderKey (headers m) other).
Proof.
  intros Hk Hne Hv Hbit Hc Hb. cbv zeta. split; [|split; [|split]].
  - unfold Client.HeaderField. unfold bind at 1, gets. rewrite Hbit.
    cbn [Z.eqb negb]. rewrite (sendThenReply_wr _ _ _ _ s Hc Hb).
    rewrite appendCString_pair. reflexivity.
  - unfold Server.Process. cbn [Code Data]. eval_codes.
    rewrite <- (appendCString_pair key value).
    rewrite (decode_key_value key value Hk Hne Hv).
    unfold_go. destruct m as [a p c h k b]. destruct h; reflexivity.
  - unfold MIMEHeader_Values, MIMEHeader_Add. rewrite lookup_insert_eq.
    destruct (headers m) as [h0|]; cbn [from_option]; unfold id;
      [reflexivity|]. rewrite lookup_empty. reflexivity.
  - intros other Hother. unfold MIMEHeader_Values, MIMEHeader_Add.
    rewrite lookup_insert_ne by (intros E; apply Hother; symmetry; exact E).
    destruct (headers m) as [h0|]; cbn [from_option]; unfold id;
      [reflexivity|]. rewrite lookup_empty. reflexivity.
Qed.

(** X20.  Helo.  Whatever the name, the packet the client's [Helo] writes
    makes the server call the Helo callback with exactly that name. *)
Theorem Helo_round_trip (name : bytes) (s : Client.ClientSession)
    (m : milterSession B) :
  Z.land (Client.ProtocolOpts s) OptNoHelo = 0 ->
  closed (Client.conn s) = false ->
  wr_broken (Client.conn s) = false ->
  wr (Client.conn (snd (Client.Helo name s)))
  = wr (Client.conn s) ++ packet CodeHelo (name ++ [NUL])
  /\ Process {| Code := CodeHelo; Data := name ++ [NUL] |} m
     = call (Helo handler name) m.
Proof.
  intros Hbit Hc Hb. split.
  - unfold Client.Helo. unfold bind at 1, gets. rewrite Hbit.
    cbn [Z.eqb negb]. rewrite (sendThenReply_wr _ _ _ _ s Hc Hb).
    reflexivity.
  - unfold Server.Process. cbn [Code Data]. eval_codes.
    rewrite TrimSuffix_app_NUL. reflexivity.
Qed.

(** X21.  Mail and Rcpt.  The client sends the address between angle
    brackets, followed by the ESMTP arguments; for an address without NUL
    the server calls MailFrom (RcptTo) with the address stripped of the
    brackets at its ends, which is the address itself when it neither
    starts nor ends with a bracket, and the ESMTP arguments do not reach
    the callback. *)
Theorem Mail_Rcpt_round_trip (addr : bytes) (esmtpArgs : list bytes)
    (s : Client.ClientSession) (m : milterSession B) :
  ~ In NUL addr ->
  closed (Client.conn s) = false ->
  wr_broken (Client.conn s) = false ->
  let payload := ("<"%byte :: addr ++ [">"%byte])
                 ++ NUL :: concat (map (fun a => a ++ [NUL]) esmtpArgs) in
  (Z.land (Client.ProtocolOpts s) OptNoMailFrom = 0 ->
   wr (Client.conn (snd (Client.Mail addr esmtpArgs s)))
   = wr (Client.conn s) ++ packet CodeMail payload)
  /\ (Z.land (Client.ProtocolOpts s) OptNoRcptTo = 0 ->
      wr (Client.conn (snd (Client.Rcpt addr esmtpArgs s)))
      = wr (Client.conn s) ++ packet CodeRcpt payload)
  /\ Process {| Code := CodeMail; Data := payload |} m
     = call (MailFrom handler (TrimAngles addr)) m
  /\ Process {| Code := CodeRcpt; Data := payload |} m
     = call (RcptTo handler (TrimAngles addr)) m
  /\ ((forall a t, addr = a :: t -> isAngle a = false) ->
      (forall z t, addr = t ++ [z] -> isAngle z = false) ->
      TrimAngles addr = addr).
Proof.
  intros Haddr Hc Hb. cbv zeta.
  assert (Hpayload : fold_left CStrings.appendCString esmtpArgs
                       (CStrings.appendCString []
                          ("<"%byte :: addr ++ [">"%byte]))
                     = ("<"%byte :: addr ++ [">"%byte])
                       ++ NUL :: concat (map (fun a => a ++ [NUL])
                                           esmtpArgs)).
  { rewrite fold_appendCString. unfold CStrings.appendCString.
    cbn [app]. rewrite <- app_assoc. reflexivity. }
  assert (Hfree : ~ In NUL ("<"%byte :: addr ++ [">"%byte])).
  { intros [H|H]; [discriminate H|]. apply in_app_or in H.
    destruct H as [H|[H|[]]]; [exact (Haddr H)|discriminate H]. }
  split; [|split; [|split; [|split]]].
  - intros Hbit. unfold Client.Mail. unfold bind at 1, gets. rewrite Hbit.
    cbn [Z.eqb negb]. rewrite (sendThenReply_wr _ _ _ _ s Hc Hb).
    rewrite Hpayload. reflexivity.
  - intros Hbit. unfold Client.Rcpt. unfold bind at 1, gets. rewrite Hbit.
    cbn [Z.eqb negb]. rewrite (sendThenReply_wr _ _ _ _ s Hc Hb).
    rewrite Hpayload. reflexivity.
  - unfold Server.Process. cbn [Code Data]. eval_codes.
    rewrite (readCString_app_NUL _ _ Hfree), TrimAngles_bracketed.
    reflexivity.
  - unfold Server.Process. cbn [Code Data]. eval_codes.
    rewrite (readCString_app_NUL _ _ Hfree), TrimAngles_bracketed.
    reflexivity.
  - apply TrimAngles_plain.
Qed.

End CommandRoundTrips.

(** Reading back a big-endian [uint16]. *)
Lemma Uint16_PutUint16 (v : Z) (rest : bytes) :
  0 <= v < 65536 ->
  Uint16 (PutUint16 v ++ rest) = Some v.
Proof.
  intros Hv. unfold Uint16, PutUint16. cbn [app]. f_equal.
  rewrite !byteZ_byte_of_Z, !mod256_land.
  apply Z.bits_inj'. intros n Hn.
  rewrite !Z.lor_spec.
  rewrite testbit_byte_at by lia.
  replace (Z.land v (Z.ones 8))
    with (Z.shiftl (Z.land (Z.shiftr v 0) (Z.ones 8)) 0)
    by (rewrite Z.shiftl_0_r, Z.shiftr_0_r; reflexivity).
  rewrite testbit_byte_at by lia.
  destruct (Z_lt_dec n 16) as [Hlt|Hge].
  - destruct (Z.testbit v n); cbn [andb orb]; [|reflexivity].
    destruct (Z.leb_spec 8 n), (Z.ltb_spec n (8 + 8)),
      (Z.leb_spec 0 n), (Z.ltb_spec n (0 + 8)); cbn; lia || reflexivity.
  - assert (Hhigh : Z.testbit v n = false).
    { destruct (Z.eq_dec v 0) as [->|Hne]; [apply Z.bits_0|].
      apply Z.bits_above_log2; [lia|].
      apply Z.log2_lt_pow2; [lia|].
      apply Z.lt_le_trans with (2 ^ 16);
        [change (2 ^ 16) with 65536; lia|].
      apply Z.pow_le_mono_r; lia. }
    rewrite Hhigh. reflexivity.
Qed.

Section ConnAndMacros.

Context {IP : Type} (ParseIP : bytes -> IP)
        (CanonicalMIMEHeaderKey : bytes -> bytes)
        (serverProtocolVersion : Z)
        {B : Type} (handler : Server.Milter IP B) (NewMilter : B).

Import Server.

Local Abbreviation Process :=
  (Server.Process ParseIP CanonicalMIMEHeaderKey serverProtocolVersion
     handler).

Lemma sliceFrom_app {S} (a b : bytes) (s : S) :
  sliceFrom (length a) (a ++ b) s = (Ok b, s).
Proof.
  unfold sliceFrom. rewrite length_app.
  destruct (Nat.leb_spec (length a) (length a + length b)); [|lia].
  rewrite skipn_app, skipn_all, Nat.sub_diag. reflexivity.
Qed.

Lemma sliceFrom_cstring {S} (a x : bytes) (s : S) :
  sliceFrom (length a + 1) (a ++ NUL :: x) s = (Ok x, s).
Proof.
  replace (length a + 1)%nat with (length (a ++ [NUL]))
    by (rewrite length_app; reflexivity).
  replace (a ++ NUL :: x) with ((a ++ [NUL]) ++ x)
    by (rewrite <- app_assoc; reflexivity).
  apply sliceFrom_app.
Qed.

(** X22.  Connection data.  For a host name and an address without NUL
    and a port below 65536, the packet the client's [Conn] writes makes
    the server call the Connect callback with the host name, the name of
    the family, and the parsed address.  The port travels only for the
    families [4] and [6] (the callback gets 0 otherwise) and the address
    does not travel for the family [U] (the callback gets the parse of
    the empty string). *)
Theorem Conn_round_trip (hostname addr : bytes) (fam : byte) (port : Z)
    (s : Client.ClientSession) (m : milterSession B) :
  ~ In NUL hostname -> ~ In NUL addr -> 0 <= port < 65536 ->
  Z.land (Client.ProtocolOpts s) OptNoConnect = 0 ->
  closed (Client.conn s) = false ->
  wr_broken (Client.conn s) = false ->
  let inet := Byte.eqb fam FamilyInet || Byte.eqb fam FamilyInet6 in
  let unknown := Byte.eqb fam FamilyUnknown in
  let payload :=
    hostname ++ NUL :: fam
    :: (if unknown then []
        else (if inet then PutUint16 port else []) ++ addr ++ [NUL]) in
  wr (Client.conn (snd (Client.Conn_ hostname fam port addr s)))
  = wr (Client.conn s) ++ packet CodeConn payload
  /\ Process {| Code := CodeConn; Data := payload |} m
     = call (Connect handler hostname (family fam)
               (if inet then port else 0)
               (ParseIP (if unknown then [] else addr))) m.
Proof.
  intros Hhost Haddr Hport Hbit Hc Hb. cbv zeta. split.
  - unfold Client.Conn_. unfold bind at 1, gets. rewrite Hbit.
    cbn [Z.eqb negb]. rewrite (sendThenReply_wr _ _ _ _ s Hc Hb).
    f_equal. unfold packet. f_equal. f_equal.
    unfold CStrings.appendCString, Client.appendUint16. cbn [app].
    destruct (Byte.eqb fam FamilyUnknown); cbn [negb].
    + rewrite <- !app_assoc. reflexivity.
    + destruct (Byte.eqb fam FamilyInet || Byte.eqb fam FamilyInet6);
        rewrite <- !app_assoc; reflexivity.
  - unfold Server.Process. cbn [Code Data]. eval_codes_of CodeConn.
    rewrite (readCString_app_NUL hostname _ Hhost).
    unfold bind at 1. rewrite sliceFrom_cstring.
    change FamilyInet with "4"%byte. change FamilyInet6 with "6"%byte.
    change FamilyUnknown with "U"%byte.
    destruct (Byte.eqb fam "U"%byte) eqn:EU.
    + apply Byte.byte_dec_bl in EU. subst fam. reflexivity.
    + destruct (Byte.eqb fam "4"%byte || Byte.eqb fam "6"%byte);
        cbv iota.
      * rewrite (Uint16_PutUint16 port _ Hport).
        change (skipn 2 (PutUint16 port ++ addr ++ [NUL]))
          with (addr ++ [NUL]).
        rewrite (readCString_app_NUL addr [] Haddr). reflexivity.
      * cbn [app]. rewrite (readCString_app_NUL addr [] Haddr).
        reflexivity.
Qed.

(** X23.  Malformed connection data.  For the families [4] and [6] a
    payload with fewer than two bytes after the family byte is answered
    with the temporary-failure response, the Connect callback is not
    called and the session is left as it was.  A payload that ends with
    the NUL of the host name, and a payload with no NUL at all, make
    [Process] slice past the end of the payload: the Go run time
    panics. *)
Theorem Conn_malformed (hostname : bytes) (m : milterSession B) :
  ~ In NUL hostname ->
  (forall fam tail,
      Byte.eqb fam "4"%byte || Byte.eqb fam "6"%byte = true ->
      (length tail < 2)%nat ->
      Process {| Code := CodeConn; Data := hostname ++ NUL :: fam :: tail |}
        m
      = (Ok (Some RespTempFail), m))
  /\ fst (Process {| Code := CodeConn; Data := hostname ++ [NUL] |} m)
     = Panic
  /\ fst (Process {| Code := CodeConn; Data := hostname |} m) = Panic.
Proof.
  intros Hhost. split; [|split].
  - intros fam tail Hfam Htail.
    unfold Server.Process. cbn [Code Data]. eval_codes.
    rewrite (readCString_app_NUL hostname _ Hhost).
    unfold bind at 1. rewrite sliceFrom_cstring. rewrite Hfam.
    destruct tail as [|t1 [|t2 tail]]; [reflexivity|reflexivity|].
    cbn [length] in Htail. lia.
  - unfold Server.Process. cbn [Code Data]. eval_codes.
    rewrite (readCString_app_NUL hostname [] Hhost).
    unfold bind at 1. rewrite sliceFrom_cstring. reflexivity.
  - unfold Server.Process. cbn [Code Data]. eval_codes.
    rewrite (readCString_free hostname Hhost).
    unfold bind at 1, sliceFrom.
    destruct (Nat.leb_spec (length hostname + 1) (length hostname)); [lia|].
    reflexivity.
Qed.

End ConnAndMacros.

Section SessionTurns.

Context {IP : Type} (ParseIP : bytes -> IP)
        (CanonicalMIMEHeaderKey : bytes -> bytes)
        (serverProtocolVersion : Z)
        {B : Type} (handler : Server.Milter IP B) (NewMilter : B).

Import Server.

Local Abbreviation Process :=
  (Server.Process ParseIP CanonicalMIMEHeaderKey serverProtocolVersion
     handler).
Local Abbreviation handleCommand :=
  (Server.handleCommand ParseIP CanonicalMIMEHeaderKey
     serverProtocolVersion handler NewMilter).

(** X24.  Macros.  The client's [Macros] writes one packet with the
    command code and the strings, each ended by NUL, and reads no reply.
    For a macro name without NUL that is not empty and a value without
    NUL, the server answers the packet with no response and no callback,
    and its macro map becomes the single mapping of the name to the
    value, whatever it held before; with no string at all the map becomes
    empty. *)
Theorem Macros_round_trip (code : byte) (k v : bytes)
    (s : Client.ClientSession) (m : milterSession B) :
  ~ In NUL k -> k <> [] -> ~ In NUL v ->
  closed (Client.conn s) = false ->
  wr_broken (Client.conn s) = false ->
  Client.Macros code [k; v] s
  = (Ok tt,
     Client.set_conn s
       (set_wr (Client.conn s)
          (wr (Client.conn s)
           ++ packet CodeMacro (code :: k ++ NUL :: v ++ [NUL]))))
  /\ Process {| Code := CodeMacro;
               Data := code :: k ++ NUL :: v ++ [NUL] |} m
     = (Ok None, set_macros m (Some {[ k := v ]}))
  /\ Process {| Code := CodeMacro; Data := [code] |} m
     = (Ok None, set_macros m (Some ∅)).
Proof.
  intros Hk Hne Hv Hc Hb. split; [|split].
  - unfold Client.Macros, wrapErr.
    rewrite (onConn_writePacket_ok _ s Hc Hb).
    cbn [fold_left]. change (CStrings.appendCString [code] k)
      with (code :: CStrings.appendCString [] k).
    replace (CStrings.appendCString (code :: CStrings.appendCString [] k) v)
      with (code :: CStrings.appendCString (CStrings.appendCString [] k) v)
      by reflexivity.
    rewrite appendCString_pair. reflexivity.
  - unfold Server.Process. cbn [Code Data]. eval_codes.
    rewrite <- (appendCString_pair k v).
    pose proof (decode_key_value k v Hk Hne Hv) as Hd. cbv zeta in Hd.
    unfold bind, modify, ret.
    set (data := CStrings.decodeCStrings _) in *.
    assert (Hpad : (if len data =? 0 then data
                    else if len data mod 2 =? 1 then data ++ [[]]
                         else data) = [k; v]).
    { destruct data as [|x [|y [|z data]]]; cbn in Hd |- *;
        try discriminate Hd; try exact Hd.
      exfalso. unfold len in Hd. cbn [length] in Hd.
      destruct (Z.eqb_spec (Z.of_nat (S (S (S (length data))))) 1);
        [lia|discriminate Hd]. }
    rewrite Hpad. cbn [macros set_macros from_option storeMacros].
    unfold id. f_equal.
  - unfold Server.Process. cbn [Code Data]. eval_codes. reflexivity.
Qed.

(** Packets sent through the modifier on a transport that takes them. *)
Lemma sendAll_ok (msgs : list Message) (m : milterSession B) :
  closed (conn m) = false -> wr_broken (conn m) = false ->
  sendAll msgs m
  = set_conn m (set_wr (conn m) (wr (conn m) ++ concat (map frame msgs))).
Proof.
  revert m. induction msgs as [|msg msgs IH]; intros m Hc Hb.
  - cbn. rewrite app_nil_r. destruct m as [a p [r w b cl] h k be].
    reflexivity.
  - cbn [sendAll fold_left map concat].
    change (fold_left _ msgs ?x) with (sendAll msgs x).
    unfold WritePacket at 1, Server.onConn.
    rewrite (writePacket_ok msg _ Hc Hb). cbn [snd].
    rewrite IH by assumption.
    destruct m as [a p [r w b cl] h k be]. cbn. rewrite <- app_assoc.
    reflexivity.
Qed.

(** X25.  Option negotiation on the server.  Whatever the payload of the
    OPTNEG packet it reads, the session answers with one OPTNEG packet
    that carries the server's version and its own action and protocol
    masks; no callback is called and the macros, the headers and the
    handler are left as they were. *)
Theorem handleCommand_OptNeg (payload rest : bytes) (m : milterSession B) :
  closed (conn m) = false -> wr_broken (conn m) = false ->
  rd (conn m) = packet CodeOptNeg payload ++ rest ->
  len payload + 1 < 4294967296 ->
  handleCommand m
  = (Ok tt,
     set_conn m
       {| rd := rest;
          wr := wr (conn m)
                ++ frame (optneg (uint32 serverProtocolVersion)
                            (uint32 (actions m)) (uint32 (protocol m)));
          wr_broken := false; closed := false |}).
Proof.
  intros Hc Hb Hrd Hlen.
  unfold Server.handleCommand, bind, ReadPacket, Server.onConn.
  rewrite (readPacket_frame (conn m)
             {| Code := CodeOptNeg; Data := payload |} rest Hc Hrd Hlen).
  unfold Server.Process. cbn [Code Data]. eval_codes.
  unfold bind, gets, ret. cbn [actions protocol set_conn].
  unfold WritePacket, Server.onConn. cbn [conn set_conn].
  rewrite writePacket_ok by assumption.
  destruct m as [a p [r w b cl] h k be]. cbn in Hc, Hb. subst.
  reflexivity.
Qed.

Lemma call_keeps {R} (cb : Modifier -> B -> Called B R)
    (m : milterSession B) :
  headers (snd (call cb m)) = headers m
  /\ macros (snd (call cb m)) = macros m
  /\ actions (snd (call cb m)) = actions m
  /\ protocol (snd (call cb m)) = protocol m.
Proof.
  unfold call.
  destruct (sendAll_fields (sent (cb (newModifier m) (backend m)))
              (set_backend m (next (cb (newModifier m) (backend m)))))
    as (H1 & H2 & _ & H4 & H5).
  destruct (ret_err _); cbn [snd]; rewrite H1, H2, H4, H5; repeat split.
Qed.

(** X26.  What [Process] leaves alone.  The accumulated headers change
    only on an Abort or a Header packet and the macros only on an Abort
    or a Macro packet; in particular neither is reset at the end of the
    body, so they are still there when the next message starts on the
    same connection.  The configured action and protocol masks never
    change. *)
Theorem Process_keeps_maps (msg : Message) (m : milterSession B) :
  (Code msg <> CodeAbort -> Code msg <> CodeHeader ->
   headers (snd (Process msg m)) = headers m)
  /\ (Code msg <> CodeAbort -> Code msg <> CodeMacro ->
      macros (snd (Process msg m)) = macros m)
  /\ actions (snd (Process msg m)) = actions m
  /\ protocol (snd (Process msg m)) = protocol m.
Proof.
  assert (Hcall : forall R (cb : Modifier -> B -> Called B R),
            (Code msg <> CodeAbort -> Code msg <> CodeHeader ->
             headers (snd (call cb m)) = headers m)
            /\ (Code msg <> CodeAbort -> Code msg <> CodeMacro ->
                macros (snd (call cb m)) = macros m)
            /\ actions (snd (call cb m)) = actions m
            /\ protocol (snd (call cb m)) = protocol m).
  { intros R cb. destruct (call_keeps cb m) as (H1 & H2 & H3 & H4).
    repeat split; intros; assumption. }
  assert (Hsame : (Code msg <> CodeAbort -> Code msg <> CodeHeader ->
                   headers m = headers m)
                  /\ (Code msg <> CodeAbort -> Code msg <> CodeMacro ->
                      macros m = macros m)
                  /\ actions m = actions m /\ protocol m = protocol m)
    by (repeat split).
  unfold Server.Process.
  destruct (Byte.eqb (Code msg) CodeAbort) eqn:EA.
  { apply Byte.byte_dec_bl in EA.
    destruct (call_keeps (Abort handler) m) as (_ & _ & H3 & H4).
    destruct (call (Abort handler) m) as [[[]|e| |] m'];
      cbn [snd] in *; repeat split; try assumption;
      intros Hn; contradiction. }
  destruct (Byte.eqb (Code msg) CodeBody); [apply Hcall|].
  destruct (Byte.eqb (Code msg) CodeConn).
  { unfold bind, sliceFrom. destruct (_ <=? _)%nat; [|exact Hsame].
    unfold ret. destruct (skipn _ (Data msg)) as [|fam data2];
      [exact Hsame|].
    destruct (Byte.eqb fam "4"%byte || Byte.eqb fam "6"%byte);
      [|apply Hcall].
    destruct (Uint16 data2); [apply Hcall|exact Hsame]. }
  destruct (Byte.eqb (Code msg) CodeMacro) eqn:ED.
  { apply Byte.byte_dec_bl in ED. unfold bind, modify, panic, ret.
    destruct (Data msg); cbn [snd];
      repeat split; try reflexivity; intros _ Hn; contradiction. }
  destruct (Byte.eqb (Code msg) CodeEOB); [apply Hcall|].
  destruct (Byte.eqb (Code msg) CodeHelo); [apply Hcall|].
  destruct (Byte.eqb (Code msg) CodeHeader) eqn:EL.
  { apply Byte.byte_dec_bl in EL. unfold bind, modify, ret.
    set (hd := if len (CStrings.decodeCStrings (Data msg)) =? 1
               then _ else _).
    destruct hd as [|name [|value [|x hd]]]; cbn [snd];
      try (destruct (headers m); repeat split; try reflexivity;
           intros _ Hn; contradiction).
    match goal with
    | |- context [call ?cb ?m1] =>
        destruct (call_keeps cb m1) as (H1 & H2 & H3 & H4)
    end.
    repeat split; try (intros _ Hn; contradiction).
    - intros _ _. rewrite H2. destruct (headers m); reflexivity.
    - rewrite H3. destruct (headers m); reflexivity.
    - rewrite H4. destruct (headers m); reflexivity. }
  destruct (Byte.eqb (Code msg) CodeMail); [apply Hcall|].
  destruct (Byte.eqb (Code msg) CodeEOH); [apply Hcall|].
  destruct (Byte.eqb (Code msg) CodeOptNeg); [exact Hsame|].
  destruct (Byte.eqb (Code msg) CodeQuit); [exact Hsame|].
  destruct (Byte.eqb (Code msg) CodeRcpt); [apply Hcall|].
  destruct (Byte.eqb (Code msg) CodeData); exact Hsame.
Qed.

(** X27.  The end of the body.  The session reads the end-of-body packet
    and calls the Body callback; when the callback returns a response and
    no error, the packets the callback sent through the modifier are on
    the wire first and the response after them.  The handler is replaced
    by a fresh one exactly when the response does not continue; the
    macros and the accumulated headers stay. *)
Theorem handleCommand_EOB (payload rest : bytes) (m : milterSession B)
    (resp : Response) :
  closed (conn m) = false -> wr_broken (conn m) = false ->
  rd (conn m) = packet CodeEOB payload ++ rest ->
  len payload + 1 < 4294967296 ->
  let m0 := set_conn m (set_rd (conn m) rest) in
  let r := Body handler (newModifier m0) (backend m) in
  ret_err r = None ->
  ret_resp r = Some resp ->
  handleCommand m
  = (Ok tt,
     {| actions := actions m; protocol := protocol m;
        conn := {| rd := rest;
                   wr := wr (conn m) ++ concat (map frame (sent r))
                         ++ frame (RespMessage resp);
                   wr_broken := false; closed := false |};
        headers := headers m; macros := macros m;
        backend := if Continue resp then next r else NewMilter |}).
Proof.
  intros Hc Hb Hrd Hlen. cbv zeta. intros Herr Hresp.
  unfold Server.handleCommand, bind at 1, ReadPacket, Server.onConn.
  rewrite (readPacket_frame (conn m)
             {| Code := CodeEOB; Data := payload |} rest Hc Hrd Hlen).
  unfold bind at 1. unfold Server.Process. cbn [Code Data]. eval_codes.
  unfold call. cbn [backend set_conn]. rewrite Herr, Hresp.
  rewrite sendAll_ok by assumption.
  unfold bind, WritePacket, Server.onConn. cbn [conn set_conn set_backend].
  rewrite writePacket_ok by assumption.
  destruct m as [a p [r0 w b cl] h k be]. cbn in Hc, Hb. subst.
  destruct (Continue resp); cbn; rewrite <- app_assoc; reflexivity.
Qed.

(** X28.  Quit and unknown commands.  A packet whose code is Quit, or any
    code [Process] has no arm for (the quit-new-connection code [K] among
    them), ends the session: no callback is called, nothing is written,
    and [HandleMilterCommands] returns with the connection closed and the
    rest of the stream unread. *)
Theorem HandleMilterCommands_quit (msg : Message) (rest : bytes)
    (m : milterSession B) :
  handledCode (Code msg) = false ->
  closed (conn m) = false ->
  rd (conn m) = frame msg ++ rest ->
  len (Data msg) + 1 < 4294967296 ->
  Process msg m = (Err errCloseSession, m)
  /\ Server.HandleMilterCommands ParseIP CanonicalMIMEHeaderKey
       serverProtocolVersion handler NewMilter m
     = (Ok tt,
        set_conn m
          {| rd := rest; wr := wr (conn m); wr_broken := wr_broken (conn m);
             closed := true |}).
Proof.
  intros Hcode Hc Hrd Hlen.
  assert (HP : forall m', Process msg m' = (Err errCloseSession, m')).
  { intros m'. unfold handledCode in Hcode. unfold Server.Process.
    repeat (apply orb_false_iff in Hcode; destruct Hcode as [Hcode ?]).
    repeat match goal with
           | H : Byte.eqb (Code msg) _ = false |- _ => rewrite H; clear H
           end.
    destruct (Byte.eqb (Code msg) CodeQuit); reflexivity. }
  split; [apply HP|].
  unfold Server.HandleMilterCommands. cbn [Server.HandleMilterCommands_loop].
  unfold Server.handleCommand, bind, ReadPacket, Server.onConn.
  rewrite (readPacket_frame (conn m) msg rest Hc Hrd Hlen).
  rewrite HP. cbn [snd conn set_conn]. unfold connClose.
  cbn [closed set_rd]. rewrite Hc.
  destruct m as [a p [r w b cl] h k be]. reflexivity.
Qed.

End SessionTurns.

(** ** The modifier and the client's reading of modify actions *)

Section ModifierRoundTrips.

Context {B : Type}.

Import ModifierMethods.

Lemma writeModify_ok (code : byte) (data : bytes)
    (m : Server.milterSession B) :
  closed (Server.conn m) = false -> wr_broken (Server.conn m) = false ->
  writeModify code data m
  = (Ok tt,
     Server.set_conn m
       (set_wr (Server.conn m)
          (wr (Server.conn m) ++ frame {| Code := code; Data := data |}))).
Proof.
  intros Hc Hb. unfold writeModify, Server.WritePacket, Server.onConn.
  rewrite writePacket_ok by assumption. reflexivity.
Qed.

Lemma parseHeaderNameValue_ok (act : Client.ModifyAction)
    (name value : bytes) :
  ~ In NUL name -> ~ In NUL value ->
  Client.parseHeaderNameValue act ((name ++ [NUL]) ++ value ++ [NUL])
  = Ok {| Client.ModCode := Client.ModCode act;
          Client.ModRcpt := Client.ModRcpt act;
          Client.ModFrom := Client.ModFrom act;
          Client.FromArgs := Client.FromArgs act;
          Client.ModBody := Client.ModBody act;
          Client.HeaderIndex := Client.HeaderIndex act;
          Client.HeaderName := name;
          Client.HeaderValue := value;
          Client.Reason := Client.Reason act |}.
Proof.
  intros Hn Hv. unfold Client.parseHeaderNameValue.
  rewrite <- app_assoc. cbn [app].
  rewrite IndexByte_app_NUL by exact Hn.
  destruct (Nat.eqb_spec (length name)
              (length (name ++ NUL :: value ++ [NUL]))) as [E|_].
  { rewrite length_app in E. cbn [length] in E. lia. }
  rewrite readCString_app_NUL by exact Hn.
  replace (skipn (S (length name)) (name ++ NUL :: value ++ [NUL]))
    with (value ++ [NUL]).
  - rewrite readCString_app_NUL by exact Hv. reflexivity.
  - replace (name ++ NUL :: value ++ [NUL])
      with ((name ++ [NUL]) ++ value ++ [NUL])
      by (rewrite <- app_assoc; reflexivity).
    replace (S (length name)) with (length (name ++ [NUL]))
      by (rewrite length_app; cbn; lia).
    rewrite skipn_app, skipn_all, Nat.sub_diag. reflexivity.
Qed.

(** X29.  Header modifications.  On a transport that takes the write,
    [AddHeader], [ChangeHeader] and [InsertHeader] with a name and a value
    without NUL each write one packet, which the client's [parseModifyAct]
    reads as the action with that code, that name, the value with each
    CR LF turned into LF, and, for the two indexed calls, the index
    reduced to 32 bits. *)
Theorem Modifier_header_round_trip (index : Z) (name value : bytes)
    (m : Server.milterSession B) :
  closed (Server.conn m) = false -> wr_broken (Server.conn m) = false ->
  ~ In NUL name -> ~ In NUL value ->
  let act code idx :=
    {| Client.ModCode := code; Client.ModRcpt := []; Client.ModFrom := [];
       Client.FromArgs := []; Client.ModBody := [];
       Client.HeaderIndex := idx; Client.HeaderName := name;
       Client.HeaderValue := crlfToLF value; Client.Reason := [] |} in
  delivers (AddHeader name value) m (act ActAddHeader 0)
  /\ delivers (ChangeHeader index name value) m
       (act ActChangeHeader (uint32 index))
  /\ delivers (InsertHeader index name value) m
       (act ActInsertHeader (uint32 index)).
Proof.
  intros Hc Hb Hn Hv. cbv zeta.
  assert (Hv' : ~ In NUL (crlfToLF value))
    by (intros Hin; apply Hv; exact (crlfToLF_In _ _ Hin)).
  unfold delivers, AddHeader, ChangeHeader, InsertHeader.
  split; [|split]; eexists; (split; [apply writeModify_ok; assumption|]);
    unfold Client.parseModifyAct; cbn [Code Data]; eval_codes.
  - unfold Client.modifyActOf.
    rewrite (parseHeaderNameValue_ok _ name (crlfToLF value) Hn Hv').
    reflexivity.
  - rewrite Uint32_PutUint32 by apply uint32_range.
    change (skipn 4 (PutUint32 (uint32 index) ++ ?x)) with x.
    rewrite (parseHeaderNameValue_ok _ name (crlfToLF value) Hn Hv').
    reflexivity.
  - rewrite Uint32_PutUint32 by apply uint32_range.
    change (skipn 4 (PutUint32 (uint32 index) ++ ?x)) with x.
    rewrite (parseHeaderNameValue_ok _ name (crlfToLF value) Hn Hv').
    reflexivity.
Qed.

(** X30.  Envelope and body modifications.  On a transport that takes the
    write, for a string without NUL: [AddRecipient] and [DeleteRecipient]
    are read by the client as the recipient still wrapped in angle
    brackets, [Quarantine] as the reason, and [ChangeFrom] as the sender
    with one empty ESMTP argument after it, which comes from the NUL that
    ends the sender.  [ReplaceBody] is read as the body with each CR LF
    turned into LF, for every body. *)
Theorem Modifier_envelope_round_trip (x body : bytes)
    (m : Server.milterSession B) :
  closed (Server.conn m) = false -> wr_broken (Server.conn m) = false ->
  ~ In NUL x ->
  delivers (AddRecipient x) m
    {| Client.ModCode := ActAddRcpt;
       Client.ModRcpt := "<"%byte :: x ++ [">"%byte];
       Client.ModFrom := []; Client.FromArgs := []; Client.ModBody := [];
       Client.HeaderIndex := 0; Client.HeaderName := [];
       Client.HeaderValue := []; Client.Reason := [] |}
  /\ delivers (DeleteRecipient x) m
       {| Client.ModCode := ActDelRcpt;
          Client.ModRcpt := "<"%byte :: x ++ [">"%byte];
          Client.ModFrom := []; Client.FromArgs := []; Client.ModBody := [];
          Client.HeaderIndex := 0; Client.HeaderName := [];
          Client.HeaderValue := []; Client.Reason := [] |}
  /\ delivers (Quarantine x) m
       {| Client.ModCode := ActQuarantine; Client.ModRcpt := [];
          Client.ModFrom := []; Client.FromArgs := []; Client.ModBody := [];
          Client.HeaderIndex := 0; Client.HeaderName := [];
          Client.HeaderValue := []; Client.Reason := x |}
  /\ delivers (ChangeFrom x) m
       {| Client.ModCode := ActChangeFrom; Client.ModRcpt := [];
          Client.ModFrom := x; Client.FromArgs := [[]];
          Client.ModBody := [];
          Client.HeaderIndex := 0; Client.HeaderName := [];
          Client.HeaderValue := []; Client.Reason := [] |}
  /\ delivers (ReplaceBody body) m
       {| Client.ModCode := ActReplBody; Client.ModRcpt := [];
          Client.ModFrom := []; Client.FromArgs := [];
          Client.ModBody := crlfToLF body;
          Client.HeaderIndex := 0; Client.HeaderName := [];
          Client.HeaderValue := []; Client.Reason := [] |}.
Proof.
  intros Hc Hb Hx.
  assert (Hw : ~ In NUL ("<"%byte :: x ++ [">"%byte])).
  { intros [E|Hin]; [discriminate E|].
    apply in_app_or in Hin. destruct Hin as [Hin|[E|[]]];
      [exact (Hx Hin)|discriminate E]. }
  unfold delivers, AddRecipient, DeleteRecipient, Quarantine, ChangeFrom,
    ReplaceBody.
  repeat apply conj; eexists;
    (split; [apply writeModify_ok; assumption|]);
    unfold Client.parseModifyAct; cbn [Code Data]; eval_codes.
  - rewrite readCString_app_NUL by exact Hw. reflexivity.
  - rewrite readCString_app_NUL by exact Hw. reflexivity.
  - rewrite readCString_app_NUL by exact Hx. reflexivity.
  - rewrite Split_app_NUL by exact Hx. reflexivity.
  - reflexivity.
Qed.

End ModifierRoundTrips.

(** ** The round trips on concrete sessions *)

Lemma HeaderField_round_trip_witness :
  let key := list_byte_of_string "Subject" in
  let value := list_byte_of_string "hi" in
  let s := sessionWith 0 (packet ActContinue []) in
  let m := newMilterSession ([] : list Seen) [] in
  let payload := key ++ NUL :: value ++ [NUL] in
  let h := Server.MIMEHeader_Add sameKey
             (default ∅ (Server.headers m)) key value in
  wr (Client.conn (snd (Client.HeaderField key value s)))
  = wr (Client.conn s) ++ packet CodeHeader payload
  /\ Server.Process noIP sameKey 2 Recorder
       {| Code := CodeHeader; Data := payload |} m
     = Server.call (Server.Header Recorder key value)
         (Server.set_headers m (Some h))
  /\ Server.MIMEHeader_Values sameKey (Some h) key
     = Server.MIMEHeader_Values sameKey (Server.headers m) key ++ [value].
Proof.
  cbv zeta.
  destruct (HeaderField_round_trip noIP sameKey 2 Recorder
              (list_byte_of_string "Subject") (list_byte_of_string "hi")
              (sessionWith 0 (packet ActContinue []))
              (newMilterSession ([] : list Seen) []))
    as (H1 & H2 & H3 & _);
    [no_NUL|discriminate|no_NUL|reflexivity|reflexivity|reflexivity|].
  split; [exact H1|]. split; [exact H2|exact H3].
Defined.

Lemma Helo_round_trip_witness :
  let name := list_byte_of_string "mx.example.org" in
  let s := sessionWith 0 (packet ActContinue []) in
  let m := newMilterSession ([] : list Seen) [] in
  wr (Client.conn (snd (Client.Helo name s)))
  = wr (Client.conn s) ++ packet CodeHelo (name ++ [NUL])
  /\ Server.Process noIP sameKey 2 Recorder
       {| Code := CodeHelo; Data := name ++ [NUL] |} m
     = Server.call (Server.Helo Recorder name) m.
Proof.
  cbv zeta.
  apply (Helo_round_trip noIP sameKey 2 Recorder
           (list_byte_of_string "mx.example.org")
           (sessionWith 0 (packet ActContinue []))
           (newMilterSession ([] : list Seen) [])); reflexivity.
Defined.

Lemma Mail_Rcpt_round_trip_witness :
  let addr := list_byte_of_string "a@b" in
  let esmtpArgs := [list_byte_of_string "SIZE=1"] in
  let s := sessionWith 0 (packet ActContinue []) in
  let m := newMilterSession ([] : list Seen) [] in
  let payload := ("<"%byte :: addr ++ [">"%byte])
                 ++ NUL :: concat (map (fun a => a ++ [NUL]) esmtpArgs) in
  wr (Client.conn (snd (Client.Mail addr esmtpArgs s)))
  = wr (Client.conn s) ++ packet CodeMail payload
  /\ wr (Client.conn (snd (Client.Rcpt addr esmtpArgs s)))
     = wr (Client.conn s) ++ packet CodeRcpt payload
  /\ Server.Process noIP sameKey 2 Recorder
       {| Code := CodeMail; Data := payload |} m
     = Server.call (Server.MailFrom Recorder (Server.TrimAngles addr)) m
  /\ Server.Process noIP sameKey 2 Recorder
       {| Code := CodeRcpt; Data := payload |} m
     = Server.call (Server.RcptTo Recorder (Server.TrimAngles addr)) m
  /\ Server.TrimAngles addr = addr.
Proof.
  cbv zeta.
  destruct (Mail_Rcpt_round_trip noIP sameKey 2 Recorder
              (list_byte_of_string "a@b") [list_byte_of_string "SIZE=1"]
              (sessionWith 0 (packet ActContinue []))
              (newMilterSession ([] : list Seen) []))
    as (H1 & H2 & H3 & H4 & H5);
    [no_NUL|reflexivity|reflexivity|].
  split; [exact (H1 eq_refl)|]. split; [exact (H2 eq_refl)|].
  split; [exact H3|]. split; [exact H4|].
  apply H5.
  - intros a t E. injection E as <- _. reflexivity.
  - intros z t E.
    change (list_byte_of_string "a@b")
      with (["a"%byte; "@"%byte] ++ ["b"%byte]) in E.
    apply app_inj_tail in E. destruct E as [_ <-]. reflexivity.
Defined.

Lemma Conn_round_trip_witness :
  let hostname := list_byte_of_string "host" in
  let addr := list_byte_of_string "192.0.2.1" in
  let s := sessionWith 0 (packet ActContinue []) in
  let m := newMilterSession ([] : list Seen) [] in
  let payload := hostname ++ NUL :: FamilyInet
                 :: PutUint16 25 ++ addr ++ [NUL] in
  wr (Client.conn (snd (Client.Conn_ hostname FamilyInet 25 addr s)))
  = wr (Client.conn s) ++ packet CodeConn payload
  /\ Server.Process noIP sameKey 2 Recorder
       {| Code := CodeConn; Data := payload |} m
     = Server.call
         (Server.Connect Recorder hostname (Server.family FamilyInet) 25
            (noIP addr)) m.
Proof.
  cbv zeta.
  apply (Conn_round_trip noIP sameKey 2 Recorder
           (list_byte_of_string "host") (list_byte_of_string "192.0.2.1")
           FamilyInet 25
           (sessionWith 0 (packet ActContinue []))
           (newMilterSession ([] : list Seen) []));
    [no_NUL|no_NUL|lia|reflexivity|reflexivity|reflexivity].
Defined.

Lemma Conn_malformed_witness :
  let hostname := list_byte_of_string "host" in
  let m := newMilterSession ([] : list Seen) [] in
  Server.Process noIP sameKey 2 Recorder
    {| Code := CodeConn;
       Data := hostname ++ NUL :: "4"%byte :: ["x"%byte] |} m
  = (Ok (Some Server.RespTempFail), m)
  /\ fst (Server.Process noIP sameKey 2 Recorder
           {| Code := CodeConn; Data := hostname ++ [NUL] |} m) = Panic
  /\ fst (Server.Process noIP sameKey 2 Recorder
           {| Code := CodeConn; Data := hostname |} m) = Panic.
Proof.
  cbv zeta.
  destruct (Conn_malformed noIP sameKey 2 Recorder
              (list_byte_of_string "host")
              (newMilterSession ([] : list Seen) []))
    as (H1 & H2 & H3); [no_NUL|].
  split; [|split; [exact H2|exact H3]].
  apply (H1 "4"%byte ["x"%byte]); [reflexivity|cbn; lia].
Defined.

Lemma Macros_round_trip_witness :
  let k := list_byte_of_string "j" in
  let v := list_byte_of_string "mx.example.org" in
  let s := sessionWith 0 [] in
  let m := sessionBeforeAbort in
  Client.Macros CodeConn [k; v] s
  = (Ok tt,
     Client.set_conn s
       (set_wr (Client.conn s)
          (wr (Client.conn s)
           ++ packet CodeMacro (CodeConn :: k ++ NUL :: v ++ [NUL]))))
  /\ Server.Process noIP sameKey 2 Recorder
       {| Code := CodeMacro; Data := CodeConn :: k ++ NUL :: v ++ [NUL] |} m
     = (Ok None, Server.set_macros m (Some {[ k := v ]}))
  /\ Server.Process noIP sameKey 2 Recorder
       {| Code := CodeMacro; Data := [CodeConn] |} m
     = (Ok None, Server.set_macros m (Some ∅)).
Proof.
  cbv zeta.
  apply (Macros_round_trip noIP sameKey 2 Recorder CodeConn
           (list_byte_of_string "j") (list_byte_of_string "mx.example.org")
           (sessionWith 0 []) sessionBeforeAbort);
    [no_NUL|discriminate|no_NUL|reflexivity|reflexivity].
Defined.

Lemma handleCommand_OptNeg_witness :
  let m := newMilterSession ([] : list Seen)
             (packet CodeOptNeg [] ++ ["z"%byte]) in
  Server.handleCommand noIP sameKey 2 Recorder [] m
  = (Ok tt,
     Server.set_conn m
       {| rd := ["z"%byte];
          wr := wr (Server.conn m)
                ++ frame (optneg (uint32 2) (uint32 (Server.actions m))
                            (uint32 (Server.protocol m)));
          wr_broken := false; closed := false |}).
Proof.
  cbv zeta.
  apply (handleCommand_OptNeg noIP sameKey 2 Recorder []
           [] ["z"%byte]
           (newMilterSession ([] : list Seen)
              (packet CodeOptNeg [] ++ ["z"%byte])));
    reflexivity.
Defined.

Lemma Process_keeps_maps_witness :
  let msg := {| Code := CodeHelo; Data := list_byte_of_string "mx" |} in
  let m' := snd (Server.Process noIP sameKey 2 Recorder msg
                   sessionBeforeAbort) in
  Server.headers m' = Server.headers sessionBeforeAbort
  /\ Server.macros m' = Server.macros sessionBeforeAbort
  /\ Server.actions m' = Server.actions sessionBeforeAbort
  /\ Server.protocol m' = Server.protocol sessionBeforeAbort.
Proof.
  cbv zeta.
  destruct (Process_keeps_maps noIP sameKey 2 Recorder
              {| Code := CodeHelo; Data := list_byte_of_string "mx" |}
              sessionBeforeAbort) as (H1 & H2 & H3 & H4).
  split; [apply H1; discriminate|].
  split; [apply H2; discriminate|].
  split; [exact H3|exact H4].
Defined.

Lemma handleCommand_EOB_witness :
  let m := newMilterSession ([] : list Seen)
             (packet CodeEOB [] ++ ["z"%byte]) in
  let m0 := Server.set_conn m (set_rd (Server.conn m) ["z"%byte]) in
  let r := Server.Body Recorder (Server.newModifier m0)
             (Server.backend m) in
  Server.handleCommand noIP sameKey 2 Recorder [] m
  = (Ok tt,
     {| Server.actions := Server.actions m;
        Server.protocol := Server.protocol m;
        Server.conn :=
          {| rd := ["z"%byte];
             wr := wr (Server.conn m)
                   ++ concat (map frame (Server.sent r))
                   ++ frame (Server.RespMessage Server.RespContinue);
             wr_broken := false; closed := false |};
        Server.headers := Server.headers m;
        Server.macros := Server.macros m;
        Server.backend := if Server.Continue Server.RespContinue
                          then Server.next r else [] |}).
Proof.
  cbv zeta.
  apply (handleCommand_EOB noIP sameKey 2 Recorder []
           [] ["z"%byte]
           (newMilterSession ([] : list Seen)
              (packet CodeEOB [] ++ ["z"%byte]))
           Server.RespContinue);
    reflexivity.
Defined.

Lemma HandleMilterCommands_quit_witness :
  let msg := {| Code := "K"%byte; Data := [] |} in
  let m := newMilterSession ([] : list Seen) (frame msg ++ ["z"%byte]) in
  Server.Process noIP sameKey 2 Recorder msg m = (Err errCloseSession, m)
  /\ Server.HandleMilterCommands noIP sameKey 2 Recorder [] m
     = (Ok tt,
        Server.set_conn m
          {| rd := ["z"%byte]; wr := wr (Server.conn m);
             wr_broken := wr_broken (Server.conn m); closed := true |}).
Proof.
  cbv zeta.
  apply (HandleMilterCommands_quit noIP sameKey 2 Recorder []
           {| Code := "K"%byte; Data := [] |} ["z"%byte]
           (newMilterSession ([] : list Seen)
              (frame {| Code := "K"%byte; Data := [] |} ++ ["z"%byte])));
    reflexivity.
Defined.

Lemma Modifier_header_round_trip_witness :
  let name := list_byte_of_string "X-Spam" in
  let value := list_byte_of_string "yes" in
  let m := newMilterSession tt [] in
  let act code idx :=
    {| Client.ModCode := code; Client.ModRcpt := []; Client.ModFrom := [];
       Client.FromArgs := []; Client.ModBody := [];
       Client.HeaderIndex := idx; Client.HeaderName := name;
       Client.HeaderValue := ModifierMethods.crlfToLF value;
       Client.Reason := [] |} in
  delivers (ModifierMethods.AddHeader name value) m (act ActAddHeader 0)
  /\ delivers (ModifierMethods.ChangeHeader 1 name value) m
       (act ActChangeHeader (uint32 1))
  /\ delivers (ModifierMethods.InsertHeader 1 name value) m
       (act ActInsertHeader (uint32 1)).
Proof.
  cbv zeta.
  apply (Modifier_header_round_trip 1
           (list_byte_of_string "X-Spam") (list_byte_of_string "yes")
           (newMilterSession tt []));
    [reflexivity|reflexivity|no_NUL|no_NUL].
Defined.

Lemma Modifier_envelope_round_trip_witness :
  let x := list_byte_of_string "a@b" in
  let m := newMilterSession tt [] in
  delivers (ModifierMethods.ChangeFrom x) m
    {| Client.ModCode := ActChangeFrom; Client.ModRcpt := [];
       Client.ModFrom := x; Client.FromArgs := [[]];
       Client.ModBody := [];
       Client.HeaderIndex := 0; Client.HeaderName := [];
       Client.HeaderValue := []; Client.Reason := [] |}.
Proof.
  cbv zeta.
  destruct (Modifier_envelope_round_trip
              (list_byte_of_string "a@b") []
              (newMilterSession tt []))
    as (_ & _ & _ & H & _);
    [reflexivity|reflexivity|no_NUL|].
  exact H.
Defined.
